(** * Ticket lifecycle and smart assignment of the ticketing back end

    A shallow embedding of [TicketService] and [SmartAssignmentService]
    (Application/Services) together with the entities they read and write,
    followed by the properties of the ticket lifecycle and of the
    least-loaded assignment rule.  [TechnicianService], [UserService],
    [SystemSettingsService] and the two controllers that call the ticket
    list and the batch assignment are embedded after them.

    Conventions of the embedding.
    - A [DbSet<T>] with primary key [Id] is a finite map from [Guid] to the
      row; the key plays the part of the [Id] property.
    - [Guid] values are numbers; the order of [N] stands for the total
      order of [Guid.CompareTo], which is all that [ThenBy] uses.
    - [DateTime] values are tick counts.
    - [Guid.NewGuid()] and [DateTime.UtcNow] are inputs of the operation
      that calls them.
    - An operation runs against the change tracker and commits with
      [SaveChangesAsync]; every path that mutates an entity reaches the
      commit, so an operation maps the stored tables to the stored tables.
      An exception leaves the stored tables as they were. *)

From stdpp Require Import gmap strings list fin_maps sorting.
From Stdlib Require Import ZArith NArith Lia DecimalString.

Open Scope Z_scope.

Abbreviation Guid := N.
Abbreviation DateTime := Z.

(** ** Enumerations (Domain/Enums) *)

Module UserRole.
Inductive t : Set := Client | Technician | Admin.
#[global] Instance role_eq_dec : EqDecision t.
Proof. solve_decision. Defined.
End UserRole.

Module TicketStatus.
Inductive t : Set := New | InProgress | WaitingForClient | Resolved | Closed.
#[global] Instance status_eq_dec : EqDecision t.
Proof. solve_decision. Defined.
End TicketStatus.

Module TicketPriority.
Inductive t : Set := Low | Medium | High | Critical.
#[global] Instance priority_eq_dec : EqDecision t.
Proof. solve_decision. Defined.
End TicketPriority.

(** ** Entities (Domain/Entities) *)

Module User.
Record t : Type := mk {
  FullName : string;
  Email : string;
  Role : UserRole.t;
  PhoneNumber : option string;
}.
End User.

Module Technician.
Record t : Type := mk {
  FullName : string;
  Email : string;
  Phone : option string;
  IsActive : bool;
  UserId : option Guid;
}.
End Technician.

Module Ticket.
Record t : Type := mk {
  Title : string;
  Description : string;
  CategoryId : Z;
  SubcategoryId : option Z;
  Priority : TicketPriority.t;
  Status : TicketStatus.t;
  CreatedByUserId : Guid;
  AssignedToUserId : option Guid;
  TechnicianId : option Guid;
  CreatedAt : DateTime;
  UpdatedAt : option DateTime;
  DueDate : option DateTime;
}.

(** Property setters: [ticket.P = v]. *)
Definition set_Description (v : string) (k : t) : t :=
  mk (Title k) v (CategoryId k) (SubcategoryId k) (Priority k) (Status k)
     (CreatedByUserId k) (AssignedToUserId k) (TechnicianId k) (CreatedAt k)
     (UpdatedAt k) (DueDate k).
Definition set_Priority (v : TicketPriority.t) (k : t) : t :=
  mk (Title k) (Description k) (CategoryId k) (SubcategoryId k) v (Status k)
     (CreatedByUserId k) (AssignedToUserId k) (TechnicianId k) (CreatedAt k)
     (UpdatedAt k) (DueDate k).
Definition set_Status (v : TicketStatus.t) (k : t) : t :=
  mk (Title k) (Description k) (CategoryId k) (SubcategoryId k) (Priority k) v
     (CreatedByUserId k) (AssignedToUserId k) (TechnicianId k) (CreatedAt k)
     (UpdatedAt k) (DueDate k).
Definition set_AssignedToUserId (v : option Guid) (k : t) : t :=
  mk (Title k) (Description k) (CategoryId k) (SubcategoryId k) (Priority k)
     (Status k) (CreatedByUserId k) v (TechnicianId k) (CreatedAt k)
     (UpdatedAt k) (DueDate k).
Definition set_TechnicianId (v : option Guid) (k : t) : t :=
  mk (Title k) (Description k) (CategoryId k) (SubcategoryId k) (Priority k)
     (Status k) (CreatedByUserId k) (AssignedToUserId k) v (CreatedAt k)
     (UpdatedAt k) (DueDate k).
Definition set_UpdatedAt (v : option DateTime) (k : t) : t :=
  mk (Title k) (Description k) (CategoryId k) (SubcategoryId k) (Priority k)
     (Status k) (CreatedByUserId k) (AssignedToUserId k) (TechnicianId k)
     (CreatedAt k) v (DueDate k).
Definition set_DueDate (v : option DateTime) (k : t) : t :=
  mk (Title k) (Description k) (CategoryId k) (SubcategoryId k) (Priority k)
     (Status k) (CreatedByUserId k) (AssignedToUserId k) (TechnicianId k)
     (CreatedAt k) (UpdatedAt k) v.
End Ticket.

Module TicketMessage.
Record t : Type := mk {
  TicketId : Guid;
  AuthorUserId : Guid;
  Message : string;
  CreatedAt : DateTime;
  Status : option TicketStatus.t;
}.
End TicketMessage.

(** ** Requests and responses (Application/DTOs) *)

Module TicketCreateRequest.
Record t : Type := mk {
  Title : string;
  Description : string;
  CategoryId : Z;
  SubcategoryId : option Z;
  Priority : TicketPriority.t;
}.
End TicketCreateRequest.

Module TicketUpdateRequest.
Record t : Type := mk {
  Description : option string;
  Priority : option TicketPriority.t;
  Status : option TicketStatus.t;
  AssignedToUserId : option Guid;
  DueDate : option DateTime;
}.
End TicketUpdateRequest.

(** The response keeps the properties that [MapToResponse] computes from the
    ticket, its creator and its assignee; the category and subcategory names
    and the creator's department, which are copied from tables that play no
    part here, are left out. *)
Module TicketResponse.
Record t : Type := mk {
  Id : Guid;
  Title : string;
  Description : string;
  CategoryId : Z;
  SubcategoryId : option Z;
  Priority : TicketPriority.t;
  Status : TicketStatus.t;
  CreatedByUserId : Guid;
  CreatedByName : string;
  CreatedByEmail : string;
  CreatedByPhoneNumber : option string;
  AssignedToUserId : option Guid;
  AssignedToName : option string;
  AssignedToEmail : option string;
  AssignedToPhoneNumber : option string;
  AssignedTechnicianName : option string;
  CreatedAt : DateTime;
  UpdatedAt : option DateTime;
  DueDate : option DateTime;
}.
End TicketResponse.

Module TicketMessageDto.
Record t : Type := mk {
  Id : Guid;
  AuthorUserId : Guid;
  AuthorName : string;
  AuthorEmail : string;
  Message : string;
  CreatedAt : DateTime;
  Status : option TicketStatus.t;
}.
End TicketMessageDto.

(** ** The stored tables (AppDbContext) and the notification sink *)

Record Db : Type := mkDb {
  Tickets : gmap Guid Ticket.t;
  Technicians : gmap Guid Technician.t;
  Users : gmap Guid User.t;
  TicketMessages : gmap Guid TicketMessage.t;
  Notifications : list (Guid * string);
}.

Definition with_Tickets (v : gmap Guid Ticket.t) (db : Db) : Db :=
  mkDb v (Technicians db) (Users db) (TicketMessages db) (Notifications db).
Definition with_TicketMessages (v : gmap Guid TicketMessage.t) (db : Db) : Db :=
  mkDb (Tickets db) (Technicians db) (Users db) v (Notifications db).

(** [INotificationService.CreateNotificationAsync]: the sink records the
    recipient and the text. *)
Definition CreateNotificationAsync (userId : Guid) (text : string) (db : Db) : Db :=
  mkDb (Tickets db) (Technicians db) (Users db) (TicketMessages db)
       (Notifications db ++ [(userId, text)]).

(** C# [a ?? b]. *)
Definition coalesce {A} (a b : option A) : option A :=
  match a with Some _ => a | None => b end.
Infix "??" := coalesce (at level 61, left associativity).

(** ** TicketService *)

Inductive Exn : Set :=
  | StatusChangeForbiddenException.

(** What a call that may throw leaves behind: a returned value with the
    committed tables, or an exception with nothing committed. *)
Inductive Outcome (A : Type) : Type :=
  | Returned (a : A) (db : Db)
  | Thrown (e : Exn).
Arguments Returned {A} a db.
Arguments Thrown {A} e.

(** The stored tables after a call that started from [before]. *)
Definition persisted {A} (before : Db) (o : Outcome A) : Db :=
  match o with
  | Returned _ db => db
  | Thrown _ => before
  end.

Definition MapToResponse (db : Db) (id : Guid) (ticket : Ticket.t) : TicketResponse.t :=
  let createdByUser := Users db !! Ticket.CreatedByUserId ticket in
  let assignedToUser := Ticket.AssignedToUserId ticket ≫= (Users db !!.) in
  let technician := Ticket.TechnicianId ticket ≫= (Technicians db !!.) in
  let isAssigned := bool_decide (Ticket.AssignedToUserId ticket ≠ None) in
  {| TicketResponse.Id := id;
     TicketResponse.Title := Ticket.Title ticket;
     TicketResponse.Description := Ticket.Description ticket;
     TicketResponse.CategoryId := Ticket.CategoryId ticket;
     TicketResponse.SubcategoryId := Ticket.SubcategoryId ticket;
     TicketResponse.Priority := Ticket.Priority ticket;
     TicketResponse.Status := Ticket.Status ticket;
     TicketResponse.CreatedByUserId := Ticket.CreatedByUserId ticket;
     TicketResponse.CreatedByName := from_option User.FullName EmptyString createdByUser;
     TicketResponse.CreatedByEmail := from_option User.Email EmptyString createdByUser;
     TicketResponse.CreatedByPhoneNumber := createdByUser ≫= User.PhoneNumber;
     TicketResponse.AssignedToUserId := Ticket.AssignedToUserId ticket;
     TicketResponse.AssignedToName :=
       if isAssigned
       then (Technician.FullName <$> technician) ?? (User.FullName <$> assignedToUser)
       else None;
     TicketResponse.AssignedToEmail :=
       if isAssigned
       then (Technician.Email <$> technician) ?? (User.Email <$> assignedToUser)
       else None;
     TicketResponse.AssignedToPhoneNumber :=
       if isAssigned
       then (technician ≫= Technician.Phone) ?? (assignedToUser ≫= User.PhoneNumber)
       else None;
     TicketResponse.AssignedTechnicianName :=
       if isAssigned
       then (Technician.FullName <$> technician) ?? (User.FullName <$> assignedToUser)
       else None;
     TicketResponse.CreatedAt := Ticket.CreatedAt ticket;
     TicketResponse.UpdatedAt := Ticket.UpdatedAt ticket;
     TicketResponse.DueDate := Ticket.DueDate ticket |}.

(** The two access checks that [GetTicketAsync], [UpdateTicketAsync] and
    [AddMessageAsync] repeat word for word. *)
Definition notOwnTicket (role : UserRole.t) (userId : Guid) (ticket : Ticket.t) : Prop :=
  role = UserRole.Client ∧ Ticket.CreatedByUserId ticket ≠ userId.
Definition notAssignedTicket (role : UserRole.t) (userId : Guid) (ticket : Ticket.t) : Prop :=
  role = UserRole.Technician ∧
  Ticket.TechnicianId ticket ≠ Some userId ∧
  Ticket.AssignedToUserId ticket ≠ Some userId.

#[global] Instance notOwnTicket_dec role userId ticket :
  Decision (notOwnTicket role userId ticket).
Proof. unfold notOwnTicket. apply _. Defined.
#[global] Instance notAssignedTicket_dec role userId ticket :
  Decision (notAssignedTicket role userId ticket).
Proof. unfold notAssignedTicket. apply _. Defined.

Definition GetTicketAsync (id userId : Guid) (role : UserRole.t) (db : Db)
  : option TicketResponse.t :=
  match Tickets db !! id with
  | None => None
  | Some ticket =>
      if decide (notOwnTicket role userId ticket) then None
      else if decide (notAssignedTicket role userId ticket) then None
      else Some (MapToResponse db id ticket)
  end.

(** [newId] is the value of [Guid.NewGuid()], [now] that of
    [DateTime.UtcNow].  The object initializer leaves the assignment
    references, [UpdatedAt] and [DueDate] at their null default. *)
Definition CreateTicketAsync (userId : Guid) (request : TicketCreateRequest.t)
    (newId : Guid) (now : DateTime) (db : Db) : option TicketResponse.t * Db :=
  let ticket :=
    {| Ticket.Title := TicketCreateRequest.Title request;
       Ticket.Description := TicketCreateRequest.Description request;
       Ticket.CategoryId := TicketCreateRequest.CategoryId request;
       Ticket.SubcategoryId := TicketCreateRequest.SubcategoryId request;
       Ticket.Priority := TicketCreateRequest.Priority request;
       Ticket.Status := TicketStatus.New;
       Ticket.CreatedByUserId := userId;
       Ticket.AssignedToUserId := None;
       Ticket.TechnicianId := None;
       Ticket.CreatedAt := now;
       Ticket.UpdatedAt := None;
       Ticket.DueDate := None |} in
  let db' := with_Tickets (<[newId := ticket]> (Tickets db)) db in
  (MapToResponse db' newId <$> (Tickets db' !! newId), db').

(** The field-by-field patch of [UpdateTicketAsync], in source order. *)
Definition applyUpdate (role : UserRole.t) (request : TicketUpdateRequest.t)
    (now : DateTime) (ticket : Ticket.t) : Ticket.t :=
  let ticket :=
    match TicketUpdateRequest.Description request with
    | Some d =>
        if decide (role ≠ UserRole.Technician) then Ticket.set_Description d ticket
        else ticket
    | None => ticket
    end in
  let ticket :=
    match TicketUpdateRequest.Priority request with
    | Some p =>
        if decide (role ≠ UserRole.Technician) then Ticket.set_Priority p ticket
        else ticket
    | None => ticket
    end in
  let ticket :=
    match TicketUpdateRequest.Status request with
    | Some s =>
        match role with
        | UserRole.Client =>
            match s with
            | TicketStatus.WaitingForClient | TicketStatus.Closed =>
                Ticket.set_Status s ticket
            | _ => ticket
            end
        | UserRole.Technician => Ticket.set_Status s ticket
        | UserRole.Admin => Ticket.set_Status s ticket
        end
    | None => ticket
    end in
  let ticket :=
    match role with
    | UserRole.Admin =>
        let ticket :=
          match TicketUpdateRequest.AssignedToUserId request with
          | Some u => Ticket.set_AssignedToUserId (Some u) ticket
          | None => ticket
          end in
        Ticket.set_DueDate (TicketUpdateRequest.DueDate request) ticket
    | _ => ticket
    end in
  Ticket.set_UpdatedAt (Some now) ticket.

Definition UpdateTicketAsync (id userId : Guid) (role : UserRole.t)
    (request : TicketUpdateRequest.t) (now : DateTime) (db : Db)
  : option TicketResponse.t * Db :=
  match Tickets db !! id with
  | None => (None, db)
  | Some ticket =>
      if decide (notOwnTicket role userId ticket) then (None, db)
      else if decide (notAssignedTicket role userId ticket) then (None, db)
      else
        let db' := with_Tickets (<[id := applyUpdate role request now ticket]> (Tickets db)) db in
        (GetTicketAsync id userId role db', db')
  end.

Definition Guid_Empty : Guid := 0%N.

Definition AssignTicketAsync (id technicianId : Guid) (now : DateTime) (db : Db)
  : option TicketResponse.t * Db :=
  match Tickets db !! id with
  | None => (None, db)
  | Some ticket =>
      match Technicians db !! technicianId with
      | None => (None, db)
      | Some technician =>
          if negb (Technician.IsActive technician) then (None, db)
          else
            let ticket := Ticket.set_TechnicianId (Some technicianId) ticket in
            let ticket := Ticket.set_AssignedToUserId (Technician.UserId technician) ticket in
            let ticket := Ticket.set_Status TicketStatus.InProgress ticket in
            let ticket := Ticket.set_UpdatedAt (Some now) ticket in
            let db' := with_Tickets (<[id := ticket]> (Tickets db)) db in
            (GetTicketAsync id Guid_Empty UserRole.Admin db', db')
      end
  end.

(** The status rules of [AddMessageAsync]: the ticket after the rules were
    applied, or the exception they raise. *)
Definition applyMessageStatus (role : UserRole.t) (status : option TicketStatus.t)
    (ticket : Ticket.t) : Exn + Ticket.t :=
  match status with
  | Some newStatus =>
      let isClosingStatus :=
        bool_decide (newStatus = TicketStatus.Resolved ∨ newStatus = TicketStatus.Closed) in
      let isReopening :=
        bool_decide (newStatus = TicketStatus.InProgress ∧
                     (Ticket.Status ticket = TicketStatus.Resolved ∨
                      Ticket.Status ticket = TicketStatus.Closed)) in
      if decide (role = UserRole.Client) then
        if isClosingStatus then inl StatusChangeForbiddenException
        else if isReopening || bool_decide (newStatus = TicketStatus.WaitingForClient)
        then inr (Ticket.set_Status newStatus ticket)
        else inr ticket
      else inr (Ticket.set_Status newStatus ticket)
  | None => inr ticket
  end.

(** [newId] is the message's [Guid.NewGuid()]; [now] and [now'] are the two
    readings of [DateTime.UtcNow], for the ticket and for the message. *)
Definition AddMessageAsync (ticketId authorId : Guid) (message : string)
    (status : option TicketStatus.t) (newId : Guid) (now now' : DateTime) (db : Db)
  : Outcome (option TicketMessageDto.t) :=
  match Tickets db !! ticketId with
  | None => Returned None db
  | Some ticket =>
      match Users db !! authorId with
      | None => Returned None db
      | Some author =>
          if decide (notOwnTicket (User.Role author) authorId ticket) then Returned None db
          else if decide (notAssignedTicket (User.Role author) authorId ticket)
          then Returned None db
          else
            match applyMessageStatus (User.Role author) status ticket with
            | inl e => Thrown e
            | inr ticket =>
                let ticket := Ticket.set_UpdatedAt (Some now) ticket in
                let ticketMessage :=
                  {| TicketMessage.TicketId := ticketId;
                     TicketMessage.AuthorUserId := authorId;
                     TicketMessage.Message := message;
                     TicketMessage.CreatedAt := now';
                     TicketMessage.Status := status ?? Some (Ticket.Status ticket) |} in
                let db := with_Tickets (<[ticketId := ticket]> (Tickets db)) db in
                let db := with_TicketMessages (<[newId := ticketMessage]> (TicketMessages db)) db in
                let notifyUserId :=
                  if decide (Ticket.AssignedToUserId ticket = Some authorId)
                  then Ticket.CreatedByUserId ticket
                  else default (Ticket.CreatedByUserId ticket) (Ticket.AssignedToUserId ticket) in
                let db :=
                  CreateNotificationAsync notifyUserId
                    ("New message on ticket '" +:+ Ticket.Title ticket +:+ "'") db in
                Returned
                  (m ← TicketMessages db !! newId;
                   u ← Users db !! TicketMessage.AuthorUserId m;
                   Some {| TicketMessageDto.Id := newId;
                           TicketMessageDto.AuthorUserId := TicketMessage.AuthorUserId m;
                           TicketMessageDto.AuthorName := User.FullName u;
                           TicketMessageDto.AuthorEmail := User.Email u;
                           TicketMessageDto.Message := TicketMessage.Message m;
                           TicketMessageDto.CreatedAt := TicketMessage.CreatedAt m;
                           TicketMessageDto.Status := TicketMessage.Status m |})
                  db
            end
      end
  end.

(** ** SmartAssignmentService *)

(** [_context.Technicians.Where(t => t.IsActive && t.UserId != null)]. *)
Definition isEligible (row : Guid * Technician.t) : Prop :=
  Technician.IsActive row.2 = true ∧ Technician.UserId row.2 ≠ None.
#[global] Instance isEligible_dec row : Decision (isEligible row).
Proof. unfold isEligible. apply _. Defined.

Definition eligibleTechnicians (db : Db) : list (Guid * Technician.t) :=
  filter isEligible (map_to_list (Technicians db)).

(** The predicate of the [CountAsync] that measures a technician's load. *)
Definition isOpenFor (tech : Guid) (row : Guid * Ticket.t) : Prop :=
  Ticket.TechnicianId row.2 = Some tech ∧
  (Ticket.Status row.2 = TicketStatus.New ∨ Ticket.Status row.2 = TicketStatus.InProgress).
#[global] Instance isOpenFor_dec tech row : Decision (isOpenFor tech row).
Proof. unfold isOpenFor. apply _. Defined.

Definition loadCount (db : Db) (tech : Guid) : nat :=
  length (filter (isOpenFor tech) (map_to_list (Tickets db))).

Definition technicianLoads (db : Db) : list (Guid * nat) :=
  (λ row, (row.1, loadCount db row.1)) <$> eligibleTechnicians db.

(** The key order of [OrderBy(t => t.LoadCount).ThenBy(t => t.TechnicianId)]. *)
Definition loadOrder (a b : Guid * nat) : Prop :=
  (a.2 < b.2)%nat ∨ (a.2 = b.2 ∧ (a.1 ≤ b.1)%N).
#[global] Instance loadOrder_dec a b : Decision (loadOrder a b).
Proof. unfold loadOrder. apply _. Defined.

(** [technicianLoads.OrderBy(..).ThenBy(..).First()]; [None] stands for the
    empty sequence, which the source rules out before it sorts. *)
Definition selectedTechnician (db : Db) : option (Guid * nat) :=
  head (merge_sort loadOrder (technicianLoads db)).

(** [AssignTechnicianToTicketAsync].  The technician is read twice through
    the same context: once in the eligibility query and once more, by id,
    just before the write.  Both reads are lookups in [Technicians db]. *)
Definition AssignTechnicianToTicketAsync (ticketId : Guid) (now : DateTime) (db : Db)
  : option Guid * Db :=
  match Tickets db !! ticketId with
  | None => (None, db)
  | Some ticket =>
      if decide (Ticket.TechnicianId ticket ≠ None) then (None, db)
      else if decide (length (eligibleTechnicians db) = 0%nat) then (None, db)
      else
        match selectedTechnician db with
        | None => (None, db)
        | Some selected =>
            match Technicians db !! selected.1 with
            | None => (None, db)
            | Some technician =>
                match Technician.UserId technician with
                | None => (None, db)
                | Some userId =>
                    let ticket := Ticket.set_TechnicianId (Some selected.1) ticket in
                    let ticket := Ticket.set_AssignedToUserId (Some userId) ticket in
                    let ticket := Ticket.set_Status TicketStatus.InProgress ticket in
                    let ticket := Ticket.set_UpdatedAt (Some now) ticket in
                    (Some selected.1,
                     with_Tickets (<[ticketId := ticket]> (Tickets db)) db)
                end
            end
        end
  end.

(** A generalisation used in the proofs, not a function of the source: the
    same steps with the second lookup taken in an arbitrary table [reread].
    The service call is its instance at [Technicians db]
    (lemma [assign_as_reread]); what holds for every [reread] holds for the
    service call. *)
Definition AssignTechnicianToTicketAsync_reread (reread : gmap Guid Technician.t)
    (ticketId : Guid) (now : DateTime) (db : Db) : option Guid * Db :=
  match Tickets db !! ticketId with
  | None => (None, db)
  | Some ticket =>
      if decide (Ticket.TechnicianId ticket ≠ None) then (None, db)
      else if decide (length (eligibleTechnicians db) = 0%nat) then (None, db)
      else
        match selectedTechnician db with
        | None => (None, db)
        | Some selected =>
            match reread !! selected.1 with
            | None => (None, db)
            | Some technician =>
                match Technician.UserId technician with
                | None => (None, db)
                | Some userId =>
                    let ticket := Ticket.set_TechnicianId (Some selected.1) ticket in
                    let ticket := Ticket.set_AssignedToUserId (Some userId) ticket in
                    let ticket := Ticket.set_Status TicketStatus.InProgress ticket in
                    let ticket := Ticket.set_UpdatedAt (Some now) ticket in
                    (Some selected.1,
                     with_Tickets (<[ticketId := ticket]> (Tickets db)) db)
                end
            end
        end
  end.

(** The query of [AssignUnassignedTicketsAsync]. *)
Definition isUnassignedIn (startDate endDate : option DateTime) (row : Guid * Ticket.t) : Prop :=
  Ticket.TechnicianId row.2 = None ∧
  from_option (λ s, s ≤ Ticket.CreatedAt row.2) True startDate ∧
  from_option (λ e, Ticket.CreatedAt row.2 ≤ e) True endDate.
#[global] Instance isUnassignedIn_dec s e row : Decision (isUnassignedIn s e row).
Proof.
  unfold isUnassignedIn. destruct s, e; simpl; apply _.
Defined.

Definition unassignedTickets (startDate endDate : option DateTime) (db : Db)
  : list (Guid * Ticket.t) :=
  filter (isUnassignedIn startDate endDate) (map_to_list (Tickets db)).

(** The [foreach] of [AssignUnassignedTicketsAsync]; [clock] gives the
    reading of [DateTime.UtcNow] while a ticket is handled. *)
Fixpoint assignEach (clock : Guid → DateTime) (ids : list Guid) (assignedCount : nat)
    (db : Db) : nat * Db :=
  match ids with
  | [] => (assignedCount, db)
  | id :: ids =>
      let '(assignedTechnicianId, db) := AssignTechnicianToTicketAsync id (clock id) db in
      match assignedTechnicianId with
      | Some _ => assignEach clock ids (S assignedCount) db
      | None => assignEach clock ids assignedCount db
      end
  end.

Definition AssignUnassignedTicketsAsync (startDate endDate : option DateTime)
    (clock : Guid → DateTime) (db : Db) : nat * Db :=
  assignEach clock ((unassignedTickets startDate endDate db).*1) 0 db.

(** ** Sample tables

    One client (100), two technician accounts (201, 202) and one admin
    (300); technician profiles A = 11 (two open tickets), B = 12 (none),
    C = 13 (inactive) and D = 14 (active, no linked account); tickets 1 and
    2 are assigned to A, ticket 3 is new and unassigned, ticket 4 is closed,
    ticket 5 waits for the client. *)

Definition sampleTicket (status : TicketStatus.t) (assignedTo technician : option Guid)
  : Ticket.t :=
  {| Ticket.Title := "VPN not connecting";
     Ticket.Description := "Cannot connect to VPN";
     Ticket.CategoryId := 1;
     Ticket.SubcategoryId := None;
     Ticket.Priority := TicketPriority.High;
     Ticket.Status := status;
     Ticket.CreatedByUserId := 100%N;
     Ticket.AssignedToUserId := assignedTo;
     Ticket.TechnicianId := technician;
     Ticket.CreatedAt := 10;
     Ticket.UpdatedAt := None;
     Ticket.DueDate := Some 99 |}.

Definition sampleTechnician (isActive : bool) (userId : option Guid) : Technician.t :=
  {| Technician.FullName := "Tech";
     Technician.Email := "tech@test.com";
     Technician.Phone := None;
     Technician.IsActive := isActive;
     Technician.UserId := userId |}.

Definition sampleUser (role : UserRole.t) : User.t :=
  {| User.FullName := "User";
     User.Email := "user@test.com";
     User.Role := role;
     User.PhoneNumber := None |}.

Definition sampleDb : Db :=
  {| Tickets :=
       list_to_map
         [(1%N, sampleTicket TicketStatus.New (Some 201%N) (Some 11%N));
          (2%N, sampleTicket TicketStatus.InProgress (Some 201%N) (Some 11%N));
          (3%N, sampleTicket TicketStatus.New None None);
          (4%N, sampleTicket TicketStatus.Closed None None);
          (5%N, sampleTicket TicketStatus.WaitingForClient None None)];
     Technicians :=
       list_to_map
         [(11%N, sampleTechnician true (Some 201%N));
          (12%N, sampleTechnician true (Some 202%N));
          (13%N, sampleTechnician false (Some 203%N));
          (14%N, sampleTechnician true None)];
     Users :=
       list_to_map
         [(100%N, sampleUser UserRole.Client);
          (201%N, sampleUser UserRole.Technician);
          (202%N, sampleUser UserRole.Technician);
          (300%N, sampleUser UserRole.Admin)];
     TicketMessages := ∅;
     Notifications := [] |}.

(** The sample tables with D, active but not linked, as the only
    technician. *)
Definition sampleDbOnlyUnlinked : Db :=
  {| Tickets := Tickets sampleDb;
     Technicians := {[ 14%N := sampleTechnician true None ]};
     Users := Users sampleDb;
     TicketMessages := ∅;
     Notifications := [] |}.

Definition sampleCreate : TicketCreateRequest.t :=
  {| TicketCreateRequest.Title := "Printer jam";
     TicketCreateRequest.Description := "Paper jam keeps returning";
     TicketCreateRequest.CategoryId := 2;
     TicketCreateRequest.SubcategoryId := None;
     TicketCreateRequest.Priority := TicketPriority.Medium |}.

Definition samplePatch (assignedTo : option Guid) (dueDate : option DateTime)
  : TicketUpdateRequest.t :=
  {| TicketUpdateRequest.Description := None;
     TicketUpdateRequest.Priority := None;
     TicketUpdateRequest.Status := None;
     TicketUpdateRequest.AssignedToUserId := assignedTo;
     TicketUpdateRequest.DueDate := dueDate |}.

(** ** Vocabulary of the properties *)

(** The pairing of the two assignment references of a ticket. *)
Definition paired (ticket : Ticket.t) : Prop :=
  Ticket.TechnicianId ticket = None ↔ Ticket.AssignedToUserId ticket = None.

(** Every stored ticket is paired. *)
Definition allPaired (db : Db) : Prop :=
  map_Forall (λ _ ticket, paired ticket) (Tickets db).

(** A technician that the eligibility query returns. *)
Definition isCandidate (db : Db) (id : Guid) : Prop :=
  ∃ technician,
    Technicians db !! id = Some technician ∧
    Technician.IsActive technician = true ∧
    Technician.UserId technician ≠ None.

(** The load of a technician as the specification words it: the number of
    stored tickets whose [TechnicianId] is that technician and whose status
    is [New] or [InProgress].  It is the size of a sub-table of [Tickets],
    written without the query of the service. *)
Definition openTicketsOf (db : Db) (tech : Guid) : gmap Guid Ticket.t :=
  filter (λ row : Guid * Ticket.t,
            Ticket.TechnicianId row.2 = Some tech ∧
            Ticket.Status row.2 ∈ [TicketStatus.New; TicketStatus.InProgress])
         (Tickets db).

Definition openTicketCount (db : Db) (tech : Guid) : nat :=
  size (openTicketsOf db tech).

(** The ticket that a successful assignment writes. *)
Definition assignedTicket (chosen userId : Guid) (now : DateTime) (ticket : Ticket.t)
  : Ticket.t :=
  Ticket.set_UpdatedAt (Some now)
    (Ticket.set_Status TicketStatus.InProgress
       (Ticket.set_AssignedToUserId (Some userId)
          (Ticket.set_TechnicianId (Some chosen) ticket))).

(** ** The list queries of [TicketService] *)

Section TicketQueries.
(** [Title.Contains(search)] runs in the database, under its collation;
    [string.IsNullOrWhiteSpace] on a string that is not null depends on
    the character classes of the runtime.  Both are taken as given. *)
Variable Contains : string → string → bool.
Variable IsWhiteSpace : string → bool.

Definition IsNullOrWhiteSpace (s : option string) : bool :=
  match s with
  | None => true
  | Some s => IsWhiteSpace s
  end.

(** The [role switch] of [GetTicketsAsync]. *)
Definition inRoleScope (role : UserRole.t) (userId : Guid) (row : Guid * Ticket.t) : Prop :=
  match role with
  | UserRole.Client => Ticket.CreatedByUserId row.2 = userId
  | UserRole.Technician =>
      Ticket.TechnicianId row.2 = Some userId ∨ Ticket.AssignedToUserId row.2 = Some userId
  | UserRole.Admin => True
  end.
#[global] Instance inRoleScope_dec role userId row : Decision (inRoleScope role userId row).
Proof. destruct role; simpl; apply _. Defined.

Definition matchesSearch (search : string) (row : Guid * Ticket.t) : Prop :=
  Contains (Ticket.Title row.2) search || Contains (Ticket.Description row.2) search = true.
#[global] Instance matchesSearch_dec search row : Decision (matchesSearch search row).
Proof. unfold matchesSearch. apply _. Defined.

(** [OrderByDescending(t => t.CreatedAt)]; tickets with the same
    [CreatedAt] come in the order the sort leaves them. *)
Definition newestFirst (a b : Guid * Ticket.t) : Prop :=
  Ticket.CreatedAt b.2 ≤ Ticket.CreatedAt a.2.
#[global] Instance newestFirst_dec a b : Decision (newestFirst a b).
Proof. unfold newestFirst. apply _. Defined.

Definition GetTicketsAsync (userId : Guid) (role : UserRole.t)
    (status : option TicketStatus.t) (priority : option TicketPriority.t)
    (assignedTo createdBy : option Guid) (search : option string) (db : Db)
  : list TicketResponse.t :=
  let query := map_to_list (Tickets db) in
  let query := filter (inRoleScope role userId) query in
  let query :=
    match status with
    | Some s => filter (λ row, Ticket.Status row.2 = s) query
    | None => query
    end in
  let query :=
    match priority with
    | Some p => filter (λ row, Ticket.Priority row.2 = p) query
    | None => query
    end in
  let query :=
    match assignedTo with
    | Some u => filter (λ row, Ticket.AssignedToUserId row.2 = Some u) query
    | None => query
    end in
  let query :=
    match createdBy with
    | Some u => filter (λ row, Ticket.CreatedByUserId row.2 = u) query
    | None => query
    end in
  let query :=
    if negb (IsNullOrWhiteSpace search)
    then filter (matchesSearch (default EmptyString search)) query
    else query in
  let tickets := merge_sort newestFirst query in
  (λ row, MapToResponse db row.1 row.2) <$> tickets.
End TicketQueries.

(** The projection of [GetMessagesAsync] and of the last query of
    [AddMessageAsync]; the author is reached through the foreign key. *)
Definition toMessageDto (db : Db) (row : Guid * TicketMessage.t) : option TicketMessageDto.t :=
  u ← Users db !! TicketMessage.AuthorUserId row.2;
  Some {| TicketMessageDto.Id := row.1;
          TicketMessageDto.AuthorUserId := TicketMessage.AuthorUserId row.2;
          TicketMessageDto.AuthorName := User.FullName u;
          TicketMessageDto.AuthorEmail := User.Email u;
          TicketMessageDto.Message := TicketMessage.Message row.2;
          TicketMessageDto.CreatedAt := TicketMessage.CreatedAt row.2;
          TicketMessageDto.Status := TicketMessage.Status row.2 |}.

(** [OrderBy(m => m.CreatedAt)]. *)
Definition oldestFirst (a b : Guid * TicketMessage.t) : Prop :=
  TicketMessage.CreatedAt a.2 ≤ TicketMessage.CreatedAt b.2.
#[global] Instance oldestFirst_dec a b : Decision (oldestFirst a b).
Proof. unfold oldestFirst. apply _. Defined.

Definition GetMessagesAsync (ticketId userId : Guid) (role : UserRole.t) (db : Db)
  : list TicketMessageDto.t :=
  match GetTicketAsync ticketId userId role db with
  | None => []
  | Some _ =>
      omap (toMessageDto db)
        (merge_sort oldestFirst
           (filter (λ row, TicketMessage.TicketId row.2 = ticketId)
              (map_to_list (TicketMessages db))))
  end.

(** ** TechnicianTicketsController *)

(** What a [BadRequest] carries: the errors of the model state, or an
    object with a message. *)
Inductive BadRequestBody : Type :=
  | ModelStateErrors
  | MessageBody (message : string).

(** The results the controllers return; the status 500 that they give to
    an exception of the storage layer is not among them. *)
Inductive ActionResult (A : Type) : Type :=
  | Ok (a : A)
  | Unauthorized
  | BadRequest (body : BadRequestBody).
Arguments Ok {A} a.
Arguments Unauthorized {A}.
Arguments BadRequest {A} body.

(** [GetMyTickets]; [currentUserId] is what [GetCurrentUserId] parses from
    the caller's claims. *)
Definition GetMyTickets (Contains : string → string → bool) (IsWhiteSpace : string → bool)
    (currentUserId : option Guid) (db : Db) : ActionResult (list TicketResponse.t) :=
  match currentUserId with
  | None => Unauthorized
  | Some userId =>
      Ok (GetTicketsAsync Contains IsWhiteSpace userId UserRole.Technician
            None None None None None db)
  end.

(** ** TechnicianService

    The service works on the whole technician row.  [Technician.t] holds
    the columns that the ticket operations read; a row adds the two
    remaining columns of the entity. *)

Module TechnicianRow.
Record t : Type := mk {
  Core : Technician.t;
  Department : option string;
  CreatedAt : DateTime;
}.
Definition set_IsActive (v : bool) (row : t) : t :=
  mk {| Technician.FullName := Technician.FullName (Core row);
        Technician.Email := Technician.Email (Core row);
        Technician.Phone := Technician.Phone (Core row);
        Technician.IsActive := v;
        Technician.UserId := Technician.UserId (Core row) |}
     (Department row) (CreatedAt row).
Definition set_UserId (v : option Guid) (row : t) : t :=
  mk {| Technician.FullName := Technician.FullName (Core row);
        Technician.Email := Technician.Email (Core row);
        Technician.Phone := Technician.Phone (Core row);
        Technician.IsActive := Technician.IsActive (Core row);
        Technician.UserId := v |}
     (Department row) (CreatedAt row).
End TechnicianRow.

Module TechnicianResponse.
Record t : Type := mk {
  Id : Guid;
  FullName : string;
  Email : string;
  Phone : option string;
  Department : option string;
  IsActive : bool;
  CreatedAt : DateTime;
  UserId : option Guid;
}.
End TechnicianResponse.

(** [TechnicianCreateRequest] and [TechnicianUpdateRequest] declare the same
    properties. *)
Module TechnicianRequest.
Record t : Type := mk {
  FullName : string;
  Email : string;
  Phone : option string;
  Department : option string;
  IsActive : bool;
}.
End TechnicianRequest.

Module LinkUserResult.
Inductive t : Set :=
  | Success | TechnicianNotFound | UserNotFound | UserNotTechnicianRole | AlreadyLinked.
End LinkUserResult.

Module TechnicianService.

Definition MapToResponse (id : Guid) (technician : TechnicianRow.t) : TechnicianResponse.t :=
  {| TechnicianResponse.Id := id;
     TechnicianResponse.FullName := Technician.FullName (TechnicianRow.Core technician);
     TechnicianResponse.Email := Technician.Email (TechnicianRow.Core technician);
     TechnicianResponse.Phone := Technician.Phone (TechnicianRow.Core technician);
     TechnicianResponse.Department := TechnicianRow.Department technician;
     TechnicianResponse.IsActive := Technician.IsActive (TechnicianRow.Core technician);
     TechnicianResponse.CreatedAt := TechnicianRow.CreatedAt technician;
     TechnicianResponse.UserId := Technician.UserId (TechnicianRow.Core technician) |}.

Definition GetTechnicianByIdAsync (id : Guid) (rows : gmap Guid TechnicianRow.t)
  : option TechnicianResponse.t :=
  MapToResponse id <$> rows !! id.

(** [newId] is [Guid.NewGuid()], [now] is [DateTime.UtcNow]; the
    initializer leaves [UserId] null. *)
Definition CreateTechnicianAsync (request : TechnicianRequest.t) (newId : Guid)
    (now : DateTime) (rows : gmap Guid TechnicianRow.t)
  : TechnicianResponse.t * gmap Guid TechnicianRow.t :=
  let technician :=
    {| TechnicianRow.Core :=
         {| Technician.FullName := TechnicianRequest.FullName request;
            Technician.Email := TechnicianRequest.Email request;
            Technician.Phone := TechnicianRequest.Phone request;
            Technician.IsActive := TechnicianRequest.IsActive request;
            Technician.UserId := None |};
       TechnicianRow.Department := TechnicianRequest.Department request;
       TechnicianRow.CreatedAt := now |} in
  (MapToResponse newId technician, <[newId := technician]> rows).

Definition UpdateTechnicianAsync (id : Guid) (request : TechnicianRequest.t)
    (rows : gmap Guid TechnicianRow.t)
  : option TechnicianResponse.t * gmap Guid TechnicianRow.t :=
  match rows !! id with
  | None => (None, rows)
  | Some technician =>
      let technician :=
        {| TechnicianRow.Core :=
             {| Technician.FullName := TechnicianRequest.FullName request;
                Technician.Email := TechnicianRequest.Email request;
                Technician.Phone := TechnicianRequest.Phone request;
                Technician.IsActive := TechnicianRequest.IsActive request;
                Technician.UserId := Technician.UserId (TechnicianRow.Core technician) |};
           TechnicianRow.Department := TechnicianRequest.Department request;
           TechnicianRow.CreatedAt := TechnicianRow.CreatedAt technician |} in
      (Some (MapToResponse id technician), <[id := technician]> rows)
  end.

Definition UpdateTechnicianStatusAsync (id : Guid) (isActive : bool)
    (rows : gmap Guid TechnicianRow.t) : bool * gmap Guid TechnicianRow.t :=
  match rows !! id with
  | None => (false, rows)
  | Some technician => (true, <[id := TechnicianRow.set_IsActive isActive technician]> rows)
  end.

Definition IsTechnicianActiveAsync (id : Guid) (rows : gmap Guid TechnicianRow.t) : bool :=
  match rows !! id with
  | None => false
  | Some technician => Technician.IsActive (TechnicianRow.Core technician)
  end.

(** The log lines of [LinkUserAsync] are left out; they write nothing. *)
Definition LinkUserAsync (technicianId userId : Guid) (users : gmap Guid User.t)
    (rows : gmap Guid TechnicianRow.t)
  : (LinkUserResult.t * option TechnicianResponse.t) * gmap Guid TechnicianRow.t :=
  match rows !! technicianId with
  | None => ((LinkUserResult.TechnicianNotFound, None), rows)
  | Some technician =>
      match Technician.UserId (TechnicianRow.Core technician) with
      | Some _ => ((LinkUserResult.AlreadyLinked, None), rows)
      | None =>
          match users !! userId with
          | None => ((LinkUserResult.UserNotFound, None), rows)
          | Some user =>
              if decide (User.Role user ≠ UserRole.Technician)
              then ((LinkUserResult.UserNotTechnicianRole, None), rows)
              else
                let technician := TechnicianRow.set_UserId (Some userId) technician in
                ((LinkUserResult.Success, Some (MapToResponse technicianId technician)),
                 <[technicianId := technician]> rows)
          end
      end
  end.

End TechnicianService.

(** The stored tables with their technicians taken from the rows. *)
Definition withTechnicianRows (rows : gmap Guid TechnicianRow.t) (db : Db) : Db :=
  {| Tickets := Tickets db;
     Technicians := TechnicianRow.Core <$> rows;
     Users := Users db;
     TicketMessages := TicketMessages db;
     Notifications := Notifications db |}.

(** The rows of the sample technicians. *)
Definition sampleRows : gmap Guid TechnicianRow.t :=
  (λ technician, TechnicianRow.mk technician (Some "IT") 5) <$> Technicians sampleDb.

Definition sampleTechnicianRequest (isActive : bool) : TechnicianRequest.t :=
  {| TechnicianRequest.FullName := "New Tech";
     TechnicianRequest.Email := "new@test.com";
     TechnicianRequest.Phone := None;
     TechnicianRequest.Department := Some "Network";
     TechnicianRequest.IsActive := isActive |}.

(** ** UserService

    As for technicians, the service works on the whole user row: [User.t]
    holds the columns that the ticket operations read. *)

Module UserRow.
Record t : Type := mk {
  Core : User.t;
  Department : option string;
  AvatarUrl : option string;
  PasswordHash : string;
  CreatedAt : DateTime;
}.
Definition set_FullName (v : string) (u : t) : t :=
  mk {| User.FullName := v; User.Email := User.Email (Core u);
        User.Role := User.Role (Core u); User.PhoneNumber := User.PhoneNumber (Core u) |}
     (Department u) (AvatarUrl u) (PasswordHash u) (CreatedAt u).
Definition set_Email (v : string) (u : t) : t :=
  mk {| User.FullName := User.FullName (Core u); User.Email := v;
        User.Role := User.Role (Core u); User.PhoneNumber := User.PhoneNumber (Core u) |}
     (Department u) (AvatarUrl u) (PasswordHash u) (CreatedAt u).
Definition set_PhoneNumber (v : option string) (u : t) : t :=
  mk {| User.FullName := User.FullName (Core u); User.Email := User.Email (Core u);
        User.Role := User.Role (Core u); User.PhoneNumber := v |}
     (Department u) (AvatarUrl u) (PasswordHash u) (CreatedAt u).
Definition set_Department (v : option string) (u : t) : t :=
  mk (Core u) v (AvatarUrl u) (PasswordHash u) (CreatedAt u).
Definition set_AvatarUrl (v : option string) (u : t) : t :=
  mk (Core u) (Department u) v (PasswordHash u) (CreatedAt u).
Definition set_PasswordHash (v : string) (u : t) : t :=
  mk (Core u) (Department u) (AvatarUrl u) v (CreatedAt u).
End UserRow.

Module RegisterRequest.
Record t : Type := mk {
  FullName : string;
  Email : string;
  Password : string;
  Role : option UserRole.t;
  PhoneNumber : option string;
  Department : option string;
}.
End RegisterRequest.

Module LoginRequest.
Record t : Type := mk {
  Email : string;
  Password : string;
}.
End LoginRequest.

Module UpdateProfileRequest.
Record t : Type := mk {
  FullName : option string;
  Email : option string;
  PhoneNumber : option string;
  Department : option string;
  AvatarUrl : option string;
}.
End UpdateProfileRequest.

Module UserDto.
Record t : Type := mk {
  Id : Guid;
  FullName : string;
  Email : string;
  Role : UserRole.t;
  PhoneNumber : option string;
  Department : option string;
  AvatarUrl : option string;
}.
End UserDto.

Module AuthResponse.
Record t : Type := mk {
  Token : string;
  User : option UserDto.t;
}.
End AuthResponse.

Module PasswordVerificationResult.
Inductive t : Set := Failed | Success | SuccessRehashNeeded.
#[global] Instance verification_eq_dec : EqDecision t.
Proof. solve_decision. Defined.
End PasswordVerificationResult.

Module UserService.
Section WithCollaborators.
(** [string.ToLowerInvariant], [string.IsNullOrWhiteSpace] on a string
    that is not null, [IPasswordHasher<User>] and [IJwtTokenGenerator] are
    given; a user is passed to them as its id and its row.
    [JwtTokenGenerator.GenerateToken] stamps the token with an expiry
    computed from [DateTime.UtcNow]: the reading of the clock is the first
    argument of [GenerateToken].
    [initialPasswordHash] is the value of [PasswordHash] on a new [User]
    before the hash is stored. *)
Variable ToLowerInvariant : string → string.
Variable IsWhiteSpace : string → bool.
Variable HashPassword : Guid → UserRow.t → string → string.
Variable VerifyHashedPassword :
  Guid → UserRow.t → string → string → PasswordVerificationResult.t.
Variable GenerateToken : DateTime → Guid → UserRow.t → string.
Variable initialPasswordHash : string.

Definition MapToDto (id : Guid) (user : UserRow.t) : UserDto.t :=
  {| UserDto.Id := id;
     UserDto.FullName := User.FullName (UserRow.Core user);
     UserDto.Email := User.Email (UserRow.Core user);
     UserDto.Role := User.Role (UserRow.Core user);
     UserDto.PhoneNumber := User.PhoneNumber (UserRow.Core user);
     UserDto.Department := UserRow.Department user;
     UserDto.AvatarUrl := UserRow.AvatarUrl user |}.

(** [_context.Users.AnyAsync(u => u.Email == email)]. *)
Definition emailExists (email : string) (rows : gmap Guid UserRow.t) : Prop :=
  map_Exists (λ _ u, User.Email (UserRow.Core u) = email) rows.

(** [RegisterAsync(request, creatorRole)].  [Enum.IsDefined] holds of
    every value of [UserRole.t], so that check has no branch here.  [now]
    is the clock as [CreatedAt] reads it, [issuedAt] the clock as the
    token generator reads it after the user is saved. *)
Definition RegisterAsync (request : RegisterRequest.t) (creatorRole : UserRole.t)
    (newId : Guid) (now issuedAt : DateTime) (rows : gmap Guid UserRow.t)
  : option AuthResponse.t * gmap Guid UserRow.t :=
  let normalizedEmail := ToLowerInvariant (RegisterRequest.Email request) in
  match RegisterRequest.Role request with
  | None => (None, rows)
  | Some role =>
      if decide (emailExists normalizedEmail rows) then (None, rows)
      else
        let hasAnyUsers := bool_decide (rows ≠ ∅) in
        let isBootstrap := negb hasAnyUsers in
        let isAdminRequest := bool_decide (role = UserRole.Admin) in
        let isCreatorAdmin := bool_decide (creatorRole = UserRole.Admin) in
        if isAdminRequest && negb isBootstrap && negb isCreatorAdmin then (None, rows)
        else
          let user :=
            {| UserRow.Core :=
                 {| User.FullName := RegisterRequest.FullName request;
                    User.Email := normalizedEmail;
                    User.Role := role;
                    User.PhoneNumber := RegisterRequest.PhoneNumber request |};
               UserRow.Department := RegisterRequest.Department request;
               UserRow.AvatarUrl := None;
               UserRow.PasswordHash := initialPasswordHash;
               UserRow.CreatedAt := now |} in
          let user :=
            UserRow.set_PasswordHash
              (HashPassword newId user (RegisterRequest.Password request)) user in
          (Some {| AuthResponse.Token := GenerateToken issuedAt newId user;
                   AuthResponse.User := Some (MapToDto newId user) |},
           <[newId := user]> rows)
  end.

(** The overload for self-registration. *)
Definition RegisterAsync_self (request : RegisterRequest.t)
    (newId : Guid) (now issuedAt : DateTime) (rows : gmap Guid UserRow.t)
  : option AuthResponse.t * gmap Guid UserRow.t :=
  RegisterAsync request UserRole.Client newId now issuedAt rows.

(** [FirstOrDefaultAsync(u => u.Email == email)]. *)
Definition findByEmail (email : string) (rows : gmap Guid UserRow.t)
  : option (Guid * UserRow.t) :=
  head (filter (λ row, User.Email (UserRow.Core row.2) = email) (map_to_list rows)).

Definition LoginAsync (request : LoginRequest.t) (issuedAt : DateTime)
    (rows : gmap Guid UserRow.t) : option AuthResponse.t :=
  let normalizedEmail := ToLowerInvariant (LoginRequest.Email request) in
  match findByEmail normalizedEmail rows with
  | None => None
  | Some (id, user) =>
      if decide (VerifyHashedPassword id user (UserRow.PasswordHash user)
                   (LoginRequest.Password request)
                 = PasswordVerificationResult.Failed)
      then None
      else Some {| AuthResponse.Token := GenerateToken issuedAt id user;
                   AuthResponse.User := Some (MapToDto id user) |}
  end.

Definition GetByIdAsync (id : Guid) (rows : gmap Guid UserRow.t) : option UserDto.t :=
  MapToDto id <$> rows !! id.

(** [AnyAsync(u => u.Email == email && u.Id != userId)]. *)
Definition emailInUse (email : string) (userId : Guid) (rows : gmap Guid UserRow.t)
  : Prop :=
  map_Exists (λ id u, User.Email (UserRow.Core u) = email ∧ id ≠ userId) rows.

Definition UpdateProfileAsync (userId : Guid) (request : UpdateProfileRequest.t)
    (rows : gmap Guid UserRow.t) : option UserDto.t * gmap Guid UserRow.t :=
  match rows !! userId with
  | None => (None, rows)
  | Some user =>
      let afterEmail :=
        match UpdateProfileRequest.Email request with
        | Some email =>
            if IsWhiteSpace email then Some user
            else
              let normalizedEmail := ToLowerInvariant email in
              if decide (emailInUse normalizedEmail userId rows) then None
              else Some (UserRow.set_Email normalizedEmail user)
        | None => Some user
        end in
      match afterEmail with
      | None => (None, rows)
      | Some user =>
          let user :=
            match UpdateProfileRequest.FullName request with
            | Some fullName =>
                if IsWhiteSpace fullName then user else UserRow.set_FullName fullName user
            | None => user
            end in
          let user :=
            match UpdateProfileRequest.PhoneNumber request with
            | Some phone => UserRow.set_PhoneNumber (Some phone) user
            | None => user
            end in
          let user :=
            match UpdateProfileRequest.Department request with
            | Some department => UserRow.set_Department (Some department) user
            | None => user
            end in
          let user :=
            match UpdateProfileRequest.AvatarUrl request with
            | Some avatar => UserRow.set_AvatarUrl (Some avatar) user
            | None => user
            end in
          (Some (MapToDto userId user), <[userId := user]> rows)
      end
  end.
End WithCollaborators.
End UserService.

(** No two users have the same e-mail address. *)
Definition uniqueEmails (rows : gmap Guid UserRow.t) : Prop :=
  ∀ i j u v,
    rows !! i = Some u → rows !! j = Some v →
    User.Email (UserRow.Core u) = User.Email (UserRow.Core v) → i = j.

(** Collaborators for examples: addresses are taken as they are, only the
    empty string is white space, the hash of a password is the password,
    and a token is the user's address followed by the time of issue. *)
Definition sampleHash (id : Guid) (user : UserRow.t) (password : string) : string :=
  password.
Definition sampleVerify (id : Guid) (user : UserRow.t) (hash password : string)
  : PasswordVerificationResult.t :=
  if decide (hash = password) then PasswordVerificationResult.Success
  else PasswordVerificationResult.Failed.
Definition sampleToken (issuedAt : DateTime) (id : Guid) (user : UserRow.t) : string :=
  User.Email (UserRow.Core user) +:+ " " +:+
  NilEmpty.string_of_int (Z.to_int issuedAt).
Definition sampleIsWhiteSpace (s : string) : bool := bool_decide (s = EmptyString).

Definition sampleRegister (email : string) (role : option UserRole.t) : RegisterRequest.t :=
  {| RegisterRequest.FullName := "New User";
     RegisterRequest.Email := email;
     RegisterRequest.Password := "secret1";
     RegisterRequest.Role := role;
     RegisterRequest.PhoneNumber := None;
     RegisterRequest.Department := None |}.

Definition sampleUserRows : gmap Guid UserRow.t :=
  {[ 100%N := UserRow.mk (User.mk "Client One" "client1@test.com" UserRole.Client None)
                None None "pw" 1 ]}.

(** ** SystemSettingsService and SmartAssignmentController

    The settings table has one row, under [Id = 1]. *)

Module SystemSettings.
Record t : Type := mk {
  AppName : string;
  SupportEmail : string;
  SupportPhone : string;
  DefaultLanguage : string;
  DefaultTheme : string;
  Timezone : string;
  DefaultPriority : TicketPriority.t;
  DefaultStatus : TicketStatus.t;
  ResponseSlaHours : Z;
  AutoAssignEnabled : bool;
  AllowClientAttachments : bool;
  MaxAttachmentSizeMB : Z;
  EmailNotificationsEnabled : bool;
  SmsNotificationsEnabled : bool;
  NotifyOnTicketCreated : bool;
  NotifyOnTicketAssigned : bool;
  NotifyOnTicketReplied : bool;
  NotifyOnTicketClosed : bool;
  PasswordMinLength : Z;
  Require2FA : bool;
  SessionTimeoutMinutes : Z;
  AllowedEmailDomains : string;
  CreatedAt : DateTime;
  UpdatedAt : DateTime;
}.
End SystemSettings.

Module SystemSettingsResponse.
Record t : Type := mk {
  AppName : string;
  SupportEmail : string;
  SupportPhone : string;
  DefaultLanguage : string;
  DefaultTheme : string;
  Timezone : string;
  DefaultPriority : TicketPriority.t;
  DefaultStatus : TicketStatus.t;
  ResponseSlaHours : Z;
  AutoAssignEnabled : bool;
  AllowClientAttachments : bool;
  MaxAttachmentSizeMB : Z;
  EmailNotificationsEnabled : bool;
  SmsNotificationsEnabled : bool;
  NotifyOnTicketCreated : bool;
  NotifyOnTicketAssigned : bool;
  NotifyOnTicketReplied : bool;
  NotifyOnTicketClosed : bool;
  PasswordMinLength : Z;
  Require2FA : bool;
  SessionTimeoutMinutes : Z;
  AllowedEmailDomains : list string;
}.
End SystemSettingsResponse.

Module SystemSettingsUpdateRequest.
Record t : Type := mk {
  AppName : string;
  SupportEmail : string;
  SupportPhone : string;
  DefaultLanguage : string;
  DefaultTheme : string;
  Timezone : string;
  DefaultPriority : TicketPriority.t;
  DefaultStatus : TicketStatus.t;
  ResponseSlaHours : Z;
  AutoAssignEnabled : bool;
  AllowClientAttachments : bool;
  MaxAttachmentSizeMB : Z;
  EmailNotificationsEnabled : bool;
  SmsNotificationsEnabled : bool;
  NotifyOnTicketCreated : bool;
  NotifyOnTicketAssigned : bool;
  NotifyOnTicketReplied : bool;
  NotifyOnTicketClosed : bool;
  PasswordMinLength : Z;
  Require2FA : bool;
  SessionTimeoutMinutes : Z;
  AllowedEmailDomains : option (list string);
}.
End SystemSettingsUpdateRequest.

Module SmartAssignmentStatusResponse.
Record t : Type := mk { Enabled : bool }.
End SmartAssignmentStatusResponse.

Module SmartAssignmentUpdateRequest.
Record t : Type := mk { Enabled : bool }.
End SmartAssignmentUpdateRequest.

Module SmartAssignmentRunResponse.
Record t : Type := mk {
  AssignedCount : nat;
  Message : string;
}.
End SmartAssignmentRunResponse.

Module SystemSettingsService.
Section WithJson.
(** [JsonSerializer.Serialize] and [JsonSerializer.Deserialize] on lists of
    strings, and [string.IsNullOrWhiteSpace] on a string that is not null,
    are given; [Deserialize] is [None] when the parser throws or yields
    null, the two cases in which the source falls back to the empty
    list. *)
Variable Serialize : list string → string.
Variable Deserialize : string → option (list string).
Variable IsWhiteSpace : string → bool.

(** [new SystemSettings { Id = 1, CreatedAt = .., UpdatedAt = .. }]: the
    other properties keep their initializers. *)
Definition newSettings (createdAt updatedAt : DateTime) : SystemSettings.t :=
  {| SystemSettings.AppName := "سامانه تیکتینگ";
     SystemSettings.SupportEmail := "support@example.com";
     SystemSettings.SupportPhone := EmptyString;
     SystemSettings.DefaultLanguage := "fa";
     SystemSettings.DefaultTheme := "system";
     SystemSettings.Timezone := "Asia/Tehran";
     SystemSettings.DefaultPriority := TicketPriority.Medium;
     SystemSettings.DefaultStatus := TicketStatus.New;
     SystemSettings.ResponseSlaHours := 24;
     SystemSettings.AutoAssignEnabled := false;
     SystemSettings.AllowClientAttachments := true;
     SystemSettings.MaxAttachmentSizeMB := 10;
     SystemSettings.EmailNotificationsEnabled := true;
     SystemSettings.SmsNotificationsEnabled := false;
     SystemSettings.NotifyOnTicketCreated := true;
     SystemSettings.NotifyOnTicketAssigned := true;
     SystemSettings.NotifyOnTicketReplied := true;
     SystemSettings.NotifyOnTicketClosed := true;
     SystemSettings.PasswordMinLength := 6;
     SystemSettings.Require2FA := false;
     SystemSettings.SessionTimeoutMinutes := 60;
     SystemSettings.AllowedEmailDomains := EmptyString;
     SystemSettings.CreatedAt := createdAt;
     SystemSettings.UpdatedAt := updatedAt |}.

Definition MapToResponse (settings : SystemSettings.t) : SystemSettingsResponse.t :=
  let allowedDomains :=
    if negb (IsWhiteSpace (SystemSettings.AllowedEmailDomains settings))
    then default [] (Deserialize (SystemSettings.AllowedEmailDomains settings))
    else [] in
  {| SystemSettingsResponse.AppName := SystemSettings.AppName settings;
     SystemSettingsResponse.SupportEmail := SystemSettings.SupportEmail settings;
     SystemSettingsResponse.SupportPhone := SystemSettings.SupportPhone settings;
     SystemSettingsResponse.DefaultLanguage := SystemSettings.DefaultLanguage settings;
     SystemSettingsResponse.DefaultTheme := SystemSettings.DefaultTheme settings;
     SystemSettingsResponse.Timezone := SystemSettings.Timezone settings;
     SystemSettingsResponse.DefaultPriority := SystemSettings.DefaultPriority settings;
     SystemSettingsResponse.DefaultStatus := SystemSettings.DefaultStatus settings;
     SystemSettingsResponse.ResponseSlaHours := SystemSettings.ResponseSlaHours settings;
     SystemSettingsResponse.AutoAssignEnabled := SystemSettings.AutoAssignEnabled settings;
     SystemSettingsResponse.AllowClientAttachments := SystemSettings.AllowClientAttachments settings;
     SystemSettingsResponse.MaxAttachmentSizeMB := SystemSettings.MaxAttachmentSizeMB settings;
     SystemSettingsResponse.EmailNotificationsEnabled := SystemSettings.EmailNotificationsEnabled settings;
     SystemSettingsResponse.SmsNotificationsEnabled := SystemSettings.SmsNotificationsEnabled settings;
     SystemSettingsResponse.NotifyOnTicketCreated := SystemSettings.NotifyOnTicketCreated settings;
     SystemSettingsResponse.NotifyOnTicketAssigned := SystemSettings.NotifyOnTicketAssigned settings;
     SystemSettingsResponse.NotifyOnTicketReplied := SystemSettings.NotifyOnTicketReplied settings;
     SystemSettingsResponse.NotifyOnTicketClosed := SystemSettings.NotifyOnTicketClosed settings;
     SystemSettingsResponse.PasswordMinLength := SystemSettings.PasswordMinLength settings;
     SystemSettingsResponse.Require2FA := SystemSettings.Require2FA settings;
     SystemSettingsResponse.SessionTimeoutMinutes := SystemSettings.SessionTimeoutMinutes settings;
     SystemSettingsResponse.AllowedEmailDomains := allowedDomains |}.

(** [now] and [now'] are the readings of [DateTime.UtcNow] for [CreatedAt]
    and [UpdatedAt] of a row that has to be created. *)
Definition GetSystemSettingsAsync (now now' : DateTime)
    (table : gmap Z SystemSettings.t)
  : SystemSettingsResponse.t * gmap Z SystemSettings.t :=
  match table !! 1 with
  | Some settings => (MapToResponse settings, table)
  | None =>
      let settings := newSettings now now' in
      (MapToResponse settings, <[1 := settings]> table)
  end.

(** [now] is the reading for a row that has to be created, [now'] the one
    for [UpdatedAt]. *)
Definition UpdateSystemSettingsAsync (request : SystemSettingsUpdateRequest.t)
    (now now' : DateTime) (table : gmap Z SystemSettings.t)
  : SystemSettingsResponse.t * gmap Z SystemSettings.t :=
  let settings :=
    match table !! 1 with
    | Some settings => settings
    | None => newSettings now now
    end in
  let settings :=
    {| SystemSettings.AppName := SystemSettingsUpdateRequest.AppName request;
       SystemSettings.SupportEmail := SystemSettingsUpdateRequest.SupportEmail request;
       SystemSettings.SupportPhone := SystemSettingsUpdateRequest.SupportPhone request;
       SystemSettings.DefaultLanguage := SystemSettingsUpdateRequest.DefaultLanguage request;
       SystemSettings.DefaultTheme := SystemSettingsUpdateRequest.DefaultTheme request;
       SystemSettings.Timezone := SystemSettingsUpdateRequest.Timezone request;
       SystemSettings.DefaultPriority := SystemSettingsUpdateRequest.DefaultPriority request;
       SystemSettings.DefaultStatus := SystemSettingsUpdateRequest.DefaultStatus request;
       SystemSettings.ResponseSlaHours := SystemSettingsUpdateRequest.ResponseSlaHours request;
       SystemSettings.AutoAssignEnabled := SystemSettingsUpdateRequest.AutoAssignEnabled request;
       SystemSettings.AllowClientAttachments := SystemSettingsUpdateRequest.AllowClientAttachments request;
       SystemSettings.MaxAttachmentSizeMB := SystemSettingsUpdateRequest.MaxAttachmentSizeMB request;
       SystemSettings.EmailNotificationsEnabled := SystemSettingsUpdateRequest.EmailNotificationsEnabled request;
       SystemSettings.SmsNotificationsEnabled := SystemSettingsUpdateRequest.SmsNotificationsEnabled request;
       SystemSettings.NotifyOnTicketCreated := SystemSettingsUpdateRequest.NotifyOnTicketCreated request;
       SystemSettings.NotifyOnTicketAssigned := SystemSettingsUpdateRequest.NotifyOnTicketAssigned request;
       SystemSettings.NotifyOnTicketReplied := SystemSettingsUpdateRequest.NotifyOnTicketReplied request;
       SystemSettings.NotifyOnTicketClosed := SystemSettingsUpdateRequest.NotifyOnTicketClosed request;
       SystemSettings.PasswordMinLength := SystemSettingsUpdateRequest.PasswordMinLength request;
       SystemSettings.Require2FA := SystemSettingsUpdateRequest.Require2FA request;
       SystemSettings.SessionTimeoutMinutes := SystemSettingsUpdateRequest.SessionTimeoutMinutes request;
       SystemSettings.AllowedEmailDomains :=
         Serialize (default [] (SystemSettingsUpdateRequest.AllowedEmailDomains request));
       SystemSettings.CreatedAt := SystemSettings.CreatedAt settings;
       SystemSettings.UpdatedAt := now' |} in
  (MapToResponse settings, <[1 := settings]> table).
End WithJson.
End SystemSettingsService.

Module SmartAssignmentController.
Section WithJson.
Variable Serialize : list string → string.
Variable Deserialize : string → option (list string).
Variable IsWhiteSpace : string → bool.

Definition GetSmartAssignmentStatus (now now' : DateTime)
    (table : gmap Z SystemSettings.t)
  : ActionResult SmartAssignmentStatusResponse.t * gmap Z SystemSettings.t :=
  let '(settings, table) :=
    SystemSettingsService.GetSystemSettingsAsync Deserialize IsWhiteSpace now now' table in
  (Ok {| SmartAssignmentStatusResponse.Enabled :=
           SystemSettingsResponse.AutoAssignEnabled settings |},
   table).

(** [modelStateIsValid] is [ModelState.IsValid]; the four readings of the
    clock are those of the read and of the update that follows it. *)
Definition UpdateSmartAssignmentStatus (modelStateIsValid : bool)
    (request : SmartAssignmentUpdateRequest.t) (now1 now2 now3 now4 : DateTime)
    (table : gmap Z SystemSettings.t)
  : ActionResult SmartAssignmentStatusResponse.t * gmap Z SystemSettings.t :=
  if negb modelStateIsValid then (BadRequest ModelStateErrors, table)
  else
    let '(currentSettings, table) :=
      SystemSettingsService.GetSystemSettingsAsync Deserialize IsWhiteSpace now1 now2 table in
    let updateRequest :=
      {| SystemSettingsUpdateRequest.AppName := SystemSettingsResponse.AppName currentSettings;
         SystemSettingsUpdateRequest.SupportEmail := SystemSettingsResponse.SupportEmail currentSettings;
         SystemSettingsUpdateRequest.SupportPhone := SystemSettingsResponse.SupportPhone currentSettings;
         SystemSettingsUpdateRequest.DefaultLanguage := SystemSettingsResponse.DefaultLanguage currentSettings;
         SystemSettingsUpdateRequest.DefaultTheme := SystemSettingsResponse.DefaultTheme currentSettings;
         SystemSettingsUpdateRequest.Timezone := SystemSettingsResponse.Timezone currentSettings;
         SystemSettingsUpdateRequest.DefaultPriority := SystemSettingsResponse.DefaultPriority currentSettings;
         SystemSettingsUpdateRequest.DefaultStatus := SystemSettingsResponse.DefaultStatus currentSettings;
         SystemSettingsUpdateRequest.ResponseSlaHours := SystemSettingsResponse.ResponseSlaHours currentSettings;
         SystemSettingsUpdateRequest.AutoAssignEnabled :=
           SmartAssignmentUpdateRequest.Enabled request;
         SystemSettingsUpdateRequest.AllowClientAttachments := SystemSettingsResponse.AllowClientAttachments currentSettings;
         SystemSettingsUpdateRequest.MaxAttachmentSizeMB := SystemSettingsResponse.MaxAttachmentSizeMB currentSettings;
         SystemSettingsUpdateRequest.EmailNotificationsEnabled := SystemSettingsResponse.EmailNotificationsEnabled currentSettings;
         SystemSettingsUpdateRequest.SmsNotificationsEnabled := SystemSettingsResponse.SmsNotificationsEnabled currentSettings;
         SystemSettingsUpdateRequest.NotifyOnTicketCreated := SystemSettingsResponse.NotifyOnTicketCreated currentSettings;
         SystemSettingsUpdateRequest.NotifyOnTicketAssigned := SystemSettingsResponse.NotifyOnTicketAssigned currentSettings;
         SystemSettingsUpdateRequest.NotifyOnTicketReplied := SystemSettingsResponse.NotifyOnTicketReplied currentSettings;
         SystemSettingsUpdateRequest.NotifyOnTicketClosed := SystemSettingsResponse.NotifyOnTicketClosed currentSettings;
         SystemSettingsUpdateRequest.PasswordMinLength := SystemSettingsResponse.PasswordMinLength currentSettings;
         SystemSettingsUpdateRequest.Require2FA := SystemSettingsResponse.Require2FA currentSettings;
         SystemSettingsUpdateRequest.SessionTimeoutMinutes := SystemSettingsResponse.SessionTimeoutMinutes currentSettings;
         SystemSettingsUpdateRequest.AllowedEmailDomains :=
           Some (SystemSettingsResponse.AllowedEmailDomains currentSettings) |} in
    let '(_, table) :=
      SystemSettingsService.UpdateSystemSettingsAsync Serialize Deserialize IsWhiteSpace
        updateRequest now3 now4 table in
    (Ok {| SmartAssignmentStatusResponse.Enabled :=
             SmartAssignmentUpdateRequest.Enabled request |},
     table).

(** [RunSmartAssignment]; [scope] is received and not read. *)
Definition RunSmartAssignment (startDate endDate : option DateTime) (scope : option string)
    (now now' : DateTime) (clock : Guid → DateTime)
    (table : gmap Z SystemSettings.t) (db : Db)
  : ActionResult SmartAssignmentRunResponse.t * gmap Z SystemSettings.t * Db :=
  let '(settings, table) :=
    SystemSettingsService.GetSystemSettingsAsync Deserialize IsWhiteSpace now now' table in
  if negb (SystemSettingsResponse.AutoAssignEnabled settings)
  then (BadRequest (MessageBody
          "سیستم تعیین هوشمند غیرفعال است. لطفاً ابتدا آن را فعال کنید."),
        table, db)
  else
    let '(assignedCount, db) := AssignUnassignedTicketsAsync startDate endDate clock db in
    (Ok {| SmartAssignmentRunResponse.AssignedCount := assignedCount;
           SmartAssignmentRunResponse.Message :=
             NilEmpty.string_of_uint (Nat.to_uint assignedCount)
             +:+ " تیکت به صورت خودکار تخصیص داده شد." |},
     table, db).
End WithJson.
End SmartAssignmentController.

(** Sample collaborators for the settings: every list is written as the
    same text and read back as the empty list. *)
Definition sampleSerialize (l : list string) : string := "[]".
Definition sampleDeserialize (s : string) : option (list string) := Some [].

(** ** Vocabulary of the further properties *)

(** The properties of a ticket that are fixed when it is created. *)
Definition sameIdentity (a b : Ticket.t) : Prop :=
  Ticket.Title a = Ticket.Title b ∧
  Ticket.CategoryId a = Ticket.CategoryId b ∧
  Ticket.SubcategoryId a = Ticket.SubcategoryId b ∧
  Ticket.CreatedByUserId a = Ticket.CreatedByUserId b ∧
  Ticket.CreatedAt a = Ticket.CreatedAt b.

(** No ticket of [before] is missing from [after] or has changed its
    identity. *)
Definition keepsTickets (before after : gmap Guid Ticket.t) : Prop :=
  ∀ id ticket,
    before !! id = Some ticket →
    ∃ ticket', after !! id = Some ticket' ∧ sameIdentity ticket ticket'.

(** ** Properties *)

(** *** Access scope and status rules of [TicketService] *)

Lemma applyMessageStatus_frame role status ticket ticket' :
  applyMessageStatus role status ticket = inr ticket' →
  ticket' = ticket ∨ ∃ s, status = Some s ∧ ticket' = Ticket.set_Status s ticket.
Proof.
  unfold applyMessageStatus. destruct status as [s|]; [|intros [= <-]; by left].
  repeat case_match; intros [= <-]; eauto.
Qed.

Lemma applyMessageStatus_client_closing ticket s :
  s = TicketStatus.Resolved ∨ s = TicketStatus.Closed →
  applyMessageStatus UserRole.Client (Some s) ticket = inl StatusChangeForbiddenException.
Proof. intros [-> | ->]; reflexivity. Qed.

Lemma applyMessageStatus_client_status ticket status ticket' :
  applyMessageStatus UserRole.Client status ticket = inr ticket' →
  Ticket.Status ticket' = Ticket.Status ticket ∨
  Ticket.Status ticket' = TicketStatus.InProgress ∨
  Ticket.Status ticket' = TicketStatus.WaitingForClient.
Proof.
  unfold applyMessageStatus. destruct status as [s|]; [|intros [= <-]; by left].
  destruct s, (Ticket.Status ticket) eqn:E; simpl; intros [= <-]; simpl; auto.
Qed.

Lemma applyMessageStatus_reopen role ticket :
  Ticket.Status ticket = TicketStatus.Resolved ∨ Ticket.Status ticket = TicketStatus.Closed →
  applyMessageStatus role (Some TicketStatus.InProgress) ticket =
  inr (Ticket.set_Status TicketStatus.InProgress ticket).
Proof.
  intros H. unfold applyMessageStatus.
  destruct role; simpl; try reflexivity.
  rewrite bool_decide_eq_true_2; [reflexivity | by split].
Qed.

(** C2.  A client who passes the access check and asks, with a message, for
    [Resolved] or [Closed] gets [StatusChangeForbiddenException]; the stored
    tables are the ones before the call, so no message was added and the
    ticket is as it was.  Whatever status a client asks for with a message,
    a ticket found [Resolved] or [Closed] afterwards had that status
    before. *)
Theorem client_cannot_close_with_message
    (ticketId authorId : Guid) (message : string) (newId : Guid) (now now' : DateTime)
    (db : Db) (ticket : Ticket.t) (author : User.t) :
  Tickets db !! ticketId = Some ticket →
  Users db !! authorId = Some author →
  User.Role author = UserRole.Client →
  Ticket.CreatedByUserId ticket = authorId →
  (∀ s, s = TicketStatus.Resolved ∨ s = TicketStatus.Closed →
     let o := AddMessageAsync ticketId authorId message (Some s) newId now now' db in
     o = Thrown StatusChangeForbiddenException ∧
     persisted db o = db ∧
     TicketMessages (persisted db o) = TicketMessages db ∧
     Tickets (persisted db o) !! ticketId = Some ticket) ∧
  (∀ status ticket',
     let o := AddMessageAsync ticketId authorId message status newId now now' db in
     Tickets (persisted db o) !! ticketId = Some ticket' →
     Ticket.Status ticket' = TicketStatus.Resolved ∨
     Ticket.Status ticket' = TicketStatus.Closed →
     Ticket.Status ticket' = Ticket.Status ticket).
Proof.
  intros Ht Hu Hrole Hown. split.
  - intros s Hs o.
    assert (Ho : o = Thrown StatusChangeForbiddenException).
    { subst o. unfold AddMessageAsync. rewrite Ht, Hu, Hrole.
      rewrite decide_False by (unfold notOwnTicket; tauto).
      rewrite decide_False by (unfold notAssignedTicket; intros [? _]; done).
      by rewrite applyMessageStatus_client_closing. }
    rewrite Ho. simpl. auto.
  - intros status ticket' o. subst o. unfold AddMessageAsync.
    rewrite Ht, Hu, Hrole.
    rewrite decide_False by (unfold notOwnTicket; tauto).
    rewrite decide_False by (unfold notAssignedTicket; intros [? _]; done).
    destruct (applyMessageStatus UserRole.Client status ticket) as [e|k] eqn:E; simpl.
    + rewrite Ht. intros [= <-]. done.
    + rewrite lookup_insert_eq. intros [= <-]. simpl.
      apply applyMessageStatus_client_status in E.
      destruct E as [E | [E | E]]; rewrite ?E; intros [?|?]; congruence.
Qed.

Lemma client_cannot_close_with_message_witness :
  AddMessageAsync 3%N 100%N "please close" (Some TicketStatus.Closed) 900%N 20 21 sampleDb
  = Thrown StatusChangeForbiddenException ∧
  Tickets sampleDb !! 3%N = Some (sampleTicket TicketStatus.New None None).
Proof.
  destruct (client_cannot_close_with_message 3%N 100%N "please close" 900%N 20 21
              sampleDb (sampleTicket TicketStatus.New None None)
              (sampleUser UserRole.Client)) as [Hclose _].
  - vm_compute; reflexivity.
  - vm_compute; reflexivity.
  - reflexivity.
  - reflexivity.
  - destruct (Hclose TicketStatus.Closed) as (Ho & _ & _ & Hk).
    + right; reflexivity.
    + split; [exact Ho | vm_compute; reflexivity].
Defined.

(** C7.  A ticket outside the caller's scope (a client who did not create
    it, a technician to whom neither assignment reference points) is
    answered by [GetTicketAsync], [UpdateTicketAsync] and [AddMessageAsync]
    with the null result and untouched tables, which is also the answer for
    an id that has no ticket. *)
Theorem out_of_scope_is_not_found
    (id missing userId : Guid) (role : UserRole.t) (request : TicketUpdateRequest.t)
    (message : string) (status : option TicketStatus.t) (newId : Guid)
    (now now' : DateTime) (db : Db) (ticket : Ticket.t) :
  Tickets db !! id = Some ticket →
  Tickets db !! missing = None →
  notOwnTicket role userId ticket ∨ notAssignedTicket role userId ticket →
  (GetTicketAsync id userId role db = None ∧
   GetTicketAsync missing userId role db = None) ∧
  (UpdateTicketAsync id userId role request now db = (None, db) ∧
   UpdateTicketAsync missing userId role request now db = (None, db)) ∧
  (∀ author, Users db !! userId = Some author → User.Role author = role →
     AddMessageAsync id userId message status newId now now' db = Returned None db ∧
     AddMessageAsync missing userId message status newId now now' db = Returned None db).
Proof.
  intros Ht Hm Hscope.
  unfold GetTicketAsync, UpdateTicketAsync, AddMessageAsync. rewrite Ht, Hm.
  split; [split; [|done]|split].
  - destruct Hscope; repeat case_decide; tauto.
  - split; [|done]. destruct Hscope; repeat case_decide; tauto.
  - intros author Hauthor Hrole. rewrite Hauthor, Hrole.
    split; [|done]. destruct Hscope; repeat case_decide; tauto.
Qed.

Lemma out_of_scope_is_not_found_witness :
  GetTicketAsync 1%N 202%N UserRole.Technician sampleDb = None ∧
  UpdateTicketAsync 1%N 202%N UserRole.Technician (samplePatch None None) 20 sampleDb
  = UpdateTicketAsync 77%N 202%N UserRole.Technician (samplePatch None None) 20 sampleDb.
Proof.
  destruct (out_of_scope_is_not_found 1%N 77%N 202%N UserRole.Technician
              (samplePatch None None) "hello" None 900%N 20 21 sampleDb
              (sampleTicket TicketStatus.New (Some 201%N) (Some 11%N)))
    as ((Hget & _) & (Hupd & Hupd') & _).
  - vm_compute; reflexivity.
  - vm_compute; reflexivity.
  - right. repeat split; intros [= ?].
  - split; [exact Hget | by rewrite Hupd, Hupd'].
Defined.

(** C8.  On a ticket that is [Resolved] or [Closed], a message that asks for
    [InProgress] from any author who passes the access check, whatever the
    role, returns the new message, stores it under its id and leaves
    the ticket [InProgress]. *)
Theorem reopen_with_message_any_role
    (ticketId authorId : Guid) (message : string) (newId : Guid) (now now' : DateTime)
    (db : Db) (ticket : Ticket.t) (author : User.t) :
  Tickets db !! ticketId = Some ticket →
  Users db !! authorId = Some author →
  ¬ notOwnTicket (User.Role author) authorId ticket →
  ¬ notAssignedTicket (User.Role author) authorId ticket →
  Ticket.Status ticket = TicketStatus.Resolved ∨ Ticket.Status ticket = TicketStatus.Closed →
  ∃ dto db' ticket' stored,
    AddMessageAsync ticketId authorId message (Some TicketStatus.InProgress)
      newId now now' db = Returned (Some dto) db' ∧
    Tickets db' !! ticketId = Some ticket' ∧
    Ticket.Status ticket' = TicketStatus.InProgress ∧
    TicketMessages db' = <[newId := stored]> (TicketMessages db) ∧
    TicketMessage.TicketId stored = ticketId ∧
    TicketMessage.AuthorUserId stored = authorId ∧
    TicketMessage.Message stored = message ∧
    TicketMessageDto.Id dto = newId ∧
    TicketMessageDto.Message dto = message ∧
    TicketMessageDto.Status dto = Some TicketStatus.InProgress.
Proof.
  intros Ht Hu Hown Hasg Hst.
  unfold AddMessageAsync. rewrite Ht, Hu.
  rewrite (decide_False _ _ Hown), (decide_False _ _ Hasg).
  rewrite (applyMessageStatus_reopen _ _ Hst). simpl.
  rewrite lookup_insert_eq. simpl. rewrite Hu. simpl.
  eexists _, _, _, _. split; [reflexivity|]. simpl.
  rewrite lookup_insert_eq. repeat split; reflexivity.
Qed.

Lemma reopen_with_message_any_role_witness :
  ∃ dto db',
    AddMessageAsync 4%N 100%N "still broken" (Some TicketStatus.InProgress)
      900%N 20 21 sampleDb = Returned (Some dto) db' ∧
    Ticket.Status <$> Tickets db' !! 4%N = Some TicketStatus.InProgress.
Proof.
  destruct (reopen_with_message_any_role 4%N 100%N "still broken" 900%N 20 21
              sampleDb (sampleTicket TicketStatus.Closed None None)
              (sampleUser UserRole.Client))
    as (dto & db' & ticket' & stored & Hcall & Hk & Hs & _).
  - vm_compute; reflexivity.
  - vm_compute; reflexivity.
  - intros [_ Hne]. apply Hne. reflexivity.
  - intros [[= ?] _].
  - right; reflexivity.
  - exists dto, db'. split; [exact Hcall | by rewrite Hk, <- Hs].
Defined.

(** *** The patch of [UpdateTicketAsync] *)

Lemma applyUpdate_DueDate role request now ticket :
  Ticket.DueDate (applyUpdate role request now ticket) =
  match role with
  | UserRole.Admin => TicketUpdateRequest.DueDate request
  | _ => Ticket.DueDate ticket
  end.
Proof.
  unfold applyUpdate.
  destruct role, request as [[d|] [p|] [[]|] [u|] due]; reflexivity.
Qed.

Lemma applyUpdate_TechnicianId role request now ticket :
  Ticket.TechnicianId (applyUpdate role request now ticket) = Ticket.TechnicianId ticket.
Proof.
  unfold applyUpdate.
  destruct role, request as [[d|] [p|] [[]|] [u|] due]; reflexivity.
Qed.

Lemma applyUpdate_AssignedToUserId role request now ticket :
  Ticket.AssignedToUserId (applyUpdate role request now ticket) =
  match role, TicketUpdateRequest.AssignedToUserId request with
  | UserRole.Admin, Some u => Some u
  | _, _ => Ticket.AssignedToUserId ticket
  end.
Proof.
  unfold applyUpdate.
  destruct role, request as [[d|] [p|] [[]|] [u|] due]; reflexivity.
Qed.

Lemma UpdateTicketAsync_lookup id userId role request now db ticket :
  Tickets db !! id = Some ticket →
  Tickets (UpdateTicketAsync id userId role request now db).2 !! id =
  Some (if decide (notOwnTicket role userId ticket) then ticket
        else if decide (notAssignedTicket role userId ticket) then ticket
        else applyUpdate role request now ticket).
Proof.
  intros Ht. unfold UpdateTicketAsync. rewrite Ht.
  repeat case_decide; simpl; try done. apply lookup_insert_eq.
Qed.

(** C10.  [UpdateTicketAsync] by an admin on an existing ticket stores the
    patch's due date whatever it is, so a patch without one clears the
    stored due date; by a client or a technician it leaves the due date as
    it was. *)
Theorem update_due_date
    (id userId : Guid) (role : UserRole.t) (request : TicketUpdateRequest.t)
    (now : DateTime) (db : Db) (ticket : Ticket.t) :
  Tickets db !! id = Some ticket →
  ∃ ticket',
    Tickets (UpdateTicketAsync id userId role request now db).2 !! id = Some ticket' ∧
    Ticket.DueDate ticket' =
      match role with
      | UserRole.Admin => TicketUpdateRequest.DueDate request
      | UserRole.Client | UserRole.Technician => Ticket.DueDate ticket
      end.
Proof.
  intros Ht. eexists. split; [by apply UpdateTicketAsync_lookup|].
  destruct (decide (notOwnTicket role userId ticket)) as [[-> _]|_]; [done|].
  destruct (decide (notAssignedTicket role userId ticket)) as [[-> _]|_]; [done|].
  apply applyUpdate_DueDate.
Qed.

Lemma update_due_date_witness :
  Ticket.DueDate (sampleTicket TicketStatus.New None None) = Some 99 ∧
  ∃ ticket',
    Tickets (UpdateTicketAsync 3%N 300%N UserRole.Admin (samplePatch None None)
               20 sampleDb).2 !! 3%N = Some ticket' ∧
    Ticket.DueDate ticket' = None.
Proof.
  split; [reflexivity|].
  apply (update_due_date 3%N 300%N UserRole.Admin (samplePatch None None) 20 sampleDb
           (sampleTicket TicketStatus.New None None)).
  vm_compute; reflexivity.
Defined.

(** *** The status snapshot of a message *)

(** When the rules apply the requested status, or none is requested, the
    snapshot on the stored message is the status of the stored ticket. *)
Lemma snapshot_of_applied_status
    (ticketId authorId : Guid) (message : string) (status : option TicketStatus.t)
    (newId : Guid) (now now' : DateTime) (db db' : Db) (ticket : Ticket.t)
    (author : User.t) (r : option TicketMessageDto.t) :
  Tickets db !! ticketId = Some ticket →
  Users db !! authorId = Some author →
  ¬ notOwnTicket (User.Role author) authorId ticket →
  ¬ notAssignedTicket (User.Role author) authorId ticket →
  User.Role author ≠ UserRole.Client ∨ status = None →
  AddMessageAsync ticketId authorId message status newId now now' db = Returned r db' →
  TicketMessage.Status <$> TicketMessages db' !! newId =
  Some <$> (Ticket.Status <$> Tickets db' !! ticketId).
Proof.
  intros Ht Hu Hown Hasg Happlied. unfold AddMessageAsync. rewrite Ht, Hu.
  rewrite (decide_False _ _ Hown), (decide_False _ _ Hasg).
  destruct (applyMessageStatus (User.Role author) status ticket) as [e|k] eqn:E; [done|].
  intros [= _ <-]. simpl. rewrite !lookup_insert_eq. simpl.
  unfold applyMessageStatus in E. destruct status as [s|]; [|done].
  destruct Happlied as [Hrole|[=]]. rewrite decide_False in E by done.
  by injection E as <-.
Qed.

(** A client's request for [New], or for [InProgress] on a ticket that is
    neither [Resolved] nor [Closed], is ignored by the rules: the ticket
    keeps its status, and the message records the requested one. *)
Lemma snapshot_of_ignored_status
    (ticketId authorId : Guid) (message : string) (s : TicketStatus.t)
    (newId : Guid) (now now' : DateTime) (db : Db) (ticket : Ticket.t) (author : User.t) :
  Tickets db !! ticketId = Some ticket →
  Users db !! authorId = Some author →
  User.Role author = UserRole.Client →
  Ticket.CreatedByUserId ticket = authorId →
  s = TicketStatus.New ∨
  (s = TicketStatus.InProgress ∧
   Ticket.Status ticket ≠ TicketStatus.Resolved ∧
   Ticket.Status ticket ≠ TicketStatus.Closed) →
  ∃ dto db',
    AddMessageAsync ticketId authorId message (Some s) newId now now' db
    = Returned (Some dto) db' ∧
    Ticket.Status <$> Tickets db' !! ticketId = Some (Ticket.Status ticket) ∧
    TicketMessage.Status <$> TicketMessages db' !! newId = Some (Some s) ∧
    TicketMessageDto.Status dto = Some s.
Proof.
  intros Ht Hu Hrole Hown Hs. unfold AddMessageAsync. rewrite Ht, Hu, Hrole.
  rewrite decide_False by (unfold notOwnTicket; tauto).
  rewrite decide_False by (unfold notAssignedTicket; intros [? _]; done).
  assert (E : applyMessageStatus UserRole.Client (Some s) ticket = inr ticket).
  { unfold applyMessageStatus.
    destruct Hs as [-> | (-> & Hr & Hc)]; simpl; [done|].
    rewrite bool_decide_eq_false_2; [done|]. intros [_ [?|?]]; done. }
  rewrite E. simpl. rewrite lookup_insert_eq. simpl. rewrite Hu. simpl.
  eexists _, _. split; [reflexivity|]. simpl.
  rewrite !lookup_insert_eq. done.
Qed.

(** C9 fails on the code.  Client 100 owns ticket 5, which waits for the
    client, and sends a message that asks for [New].  The rules ignore the
    request and the ticket stays [WaitingForClient], yet the stored message
    and the returned one carry [New] as the status snapshot. *)
Theorem ignored_status_is_recorded_on_message :
  ∃ dto db' ticket' stored,
    AddMessageAsync 5%N 100%N "any news?" (Some TicketStatus.New) 900%N 20 21 sampleDb
    = Returned (Some dto) db' ∧
    Tickets db' !! 5%N = Some ticket' ∧
    Ticket.Status ticket' = TicketStatus.WaitingForClient ∧
    TicketMessages db' !! 900%N = Some stored ∧
    TicketMessage.Status stored = Some TicketStatus.New ∧
    TicketMessageDto.Status dto = Some TicketStatus.New ∧
    TicketMessage.Status stored ≠ Some (Ticket.Status ticket').
Proof.
  eexists _, _, _, _.
  split; [vm_compute; reflexivity|].
  split; [vm_compute; reflexivity|].
  split; [reflexivity|].
  split; [vm_compute; reflexivity|].
  split; [reflexivity|].
  split; [reflexivity|].
  simpl. intros [=].
Qed.

(** *** The least-loaded rule of [SmartAssignmentService] *)

#[local] Instance loadOrder_total : Total loadOrder.
Proof. intros a b. unfold loadOrder. lia. Qed.

#[local] Instance loadOrder_trans : Transitive loadOrder.
Proof. intros a b c. unfold loadOrder. lia. Qed.

Lemma elem_of_eligibleTechnicians db id technician :
  (id, technician) ∈ eligibleTechnicians db ↔
  Technicians db !! id = Some technician ∧
  Technician.IsActive technician = true ∧
  Technician.UserId technician ≠ None.
Proof.
  unfold eligibleTechnicians.
  rewrite list_elem_of_filter, elem_of_map_to_list. unfold isEligible. simpl. tauto.
Qed.

Lemma elem_of_technicianLoads db id n :
  (id, n) ∈ technicianLoads db ↔ isCandidate db id ∧ n = loadCount db id.
Proof.
  unfold technicianLoads, isCandidate. rewrite list_elem_of_fmap. split.
  - intros ([id' technician] & [= -> ->] & Hin). simpl.
    apply elem_of_eligibleTechnicians in Hin. eauto.
  - intros ((technician & Hin) & ->).
    exists (id, technician). split; [done|]. by apply elem_of_eligibleTechnicians.
Qed.

Lemma eligibleTechnicians_nonempty db id :
  isCandidate db id → length (eligibleTechnicians db) ≠ 0%nat.
Proof.
  intros (technician & Hin). apply elem_of_eligibleTechnicians in Hin.
  destruct (eligibleTechnicians db); [by apply elem_of_nil in Hin | done].
Qed.

(** [First()] of the sorted loads is one of the loads and comes before every
    other one in the key order. *)
Lemma selectedTechnician_least db selected :
  selectedTechnician db = Some selected →
  selected ∈ technicianLoads db ∧
  ∀ other, other ∈ technicianLoads db → loadOrder selected other.
Proof.
  unfold selectedTechnician. intros Hhd.
  apply head_Some in Hhd as [rest Hsorted].
  pose proof (StronglySorted_merge_sort loadOrder (technicianLoads db)) as Hss.
  pose proof (merge_sort_Permutation loadOrder (technicianLoads db)) as Hperm.
  rewrite Hsorted in Hss, Hperm.
  apply StronglySorted_cons in Hss as [Hall _]. rewrite Forall_forall in Hall.
  split.
  - rewrite <- Hperm. apply elem_of_cons. by left.
  - intros other Hin. rewrite <- Hperm in Hin.
    apply elem_of_cons in Hin as [-> | Hin]; [|by apply Hall].
    unfold loadOrder. lia.
Qed.

Lemma selectedTechnician_is_Some db :
  length (eligibleTechnicians db) ≠ 0%nat → is_Some (selectedTechnician db).
Proof.
  intros Hne. unfold selectedTechnician. apply head_is_Some. intros Hnil.
  pose proof (merge_sort_Permutation loadOrder (technicianLoads db)) as Hperm.
  rewrite Hnil in Hperm. apply Permutation_length in Hperm.
  unfold technicianLoads in Hperm. rewrite length_fmap in Hperm. simpl in Hperm. lia.
Qed.

(** The two filters, on the list of rows and on the table, keep the same
    rows. *)
Lemma length_filter_map_to_list {A} (P : Guid * A → Prop) `{!∀ row, Decision (P row)}
    (m : gmap Guid A) :
  length (filter P (map_to_list m)) = size (filter P m).
Proof.
  induction m as [|i x m Hi IH] using map_ind.
  - by rewrite map_to_list_empty, map_filter_empty.
  - rewrite (map_to_list_insert m i x Hi), filter_cons.
    destruct (decide (P (i, x))) as [HP|HP].
    + rewrite (map_filter_insert_True P m i x HP).
      rewrite map_size_insert_None by (by apply map_lookup_filter_None_2; left).
      simpl. by rewrite IH.
    + rewrite (map_filter_insert_False P m i x HP).
      by rewrite (delete_id m i Hi).
Qed.

(** The [CountAsync] of the service counts the open tickets of the
    technician. *)
Lemma loadCount_openTicketCount db tech :
  loadCount db tech = openTicketCount db tech.
Proof.
  unfold loadCount, openTicketCount, openTicketsOf.
  rewrite <- length_filter_map_to_list.
  f_equal. apply list_filter_iff. intros [k ticket]. unfold isOpenFor. simpl.
  rewrite elem_of_cons, list_elem_of_singleton. done.
Qed.

(** A stored ticket counts for a technician exactly when it names the
    technician and is [New] or [InProgress]. *)
Lemma lookup_openTicketsOf db tech k ticket :
  openTicketsOf db tech !! k = Some ticket ↔
  Tickets db !! k = Some ticket ∧
  Ticket.TechnicianId ticket = Some tech ∧
  (Ticket.Status ticket = TicketStatus.New ∨ Ticket.Status ticket = TicketStatus.InProgress).
Proof.
  unfold openTicketsOf. rewrite map_lookup_filter_Some. simpl.
  rewrite elem_of_cons, list_elem_of_singleton. done.
Qed.

(** The service call is the general form at the table it reads. *)
Lemma assign_as_reread ticketId now db :
  AssignTechnicianToTicketAsync ticketId now db
  = AssignTechnicianToTicketAsync_reread (Technicians db) ticketId now db.
Proof. reflexivity. Qed.

Lemma assign_Some reread ticketId now db chosen db' :
  AssignTechnicianToTicketAsync_reread reread ticketId now db = (Some chosen, db') →
  ∃ ticket n technician userId,
    Tickets db !! ticketId = Some ticket ∧
    Ticket.TechnicianId ticket = None ∧
    selectedTechnician db = Some (chosen, n) ∧
    reread !! chosen = Some technician ∧
    Technician.UserId technician = Some userId ∧
    db' = with_Tickets (<[ticketId := assignedTicket chosen userId now ticket]> (Tickets db)) db.
Proof.
  unfold AssignTechnicianToTicketAsync_reread.
  destruct (Tickets db !! ticketId) as [ticket|]; [|done].
  destruct (decide (Ticket.TechnicianId ticket ≠ None)) as [|Hnull]; [done|].
  destruct (decide (length (eligibleTechnicians db) = 0%nat)) as [|Hne]; [done|].
  destruct (selectedTechnician db) as [[sel n]|]; [|done]. simpl.
  destruct (reread !! sel) as [technician|] eqn:Hre; [|done].
  destruct (Technician.UserId technician) as [userId|] eqn:Hu; [|done].
  intros [= <- <-]. exists ticket, n, technician, userId.
  repeat split; try done.
  by destruct (Ticket.TechnicianId ticket); [destruct Hnull|].
Qed.

Lemma assign_None reread ticketId now db db' :
  AssignTechnicianToTicketAsync_reread reread ticketId now db = (None, db') → db' = db.
Proof.
  unfold AssignTechnicianToTicketAsync_reread.
  repeat case_match; intros [= <-]; done.
Qed.

(** C3.  On an existing unassigned ticket, with at least one active
    technician that has a linked account, [AssignTechnicianToTicketAsync]
    chooses such a technician and writes it on the ticket.  No candidate
    has fewer tickets that name it and are [New] or [InProgress] than the
    chosen one, and among the candidates with as many the chosen one has
    the lowest id. *)
Theorem assignOne_least_loaded
    (ticketId : Guid) (now : DateTime) (db : Db) (ticket : Ticket.t) :
  Tickets db !! ticketId = Some ticket →
  Ticket.TechnicianId ticket = None →
  (∃ c, isCandidate db c) →
  ∃ chosen,
    (AssignTechnicianToTicketAsync ticketId now db).1 = Some chosen ∧
    Ticket.TechnicianId <$> Tickets (AssignTechnicianToTicketAsync ticketId now db).2 !! ticketId
      = Some (Some chosen) ∧
    isCandidate db chosen ∧
    ∀ c, isCandidate db c →
      (openTicketCount db chosen ≤ openTicketCount db c)%nat ∧
      (openTicketCount db c = openTicketCount db chosen → (chosen ≤ c)%N).
Proof.
  intros Ht Hnull [c0 Hc0].
  pose proof (eligibleTechnicians_nonempty _ _ Hc0) as Hne.
  destruct (selectedTechnician_is_Some _ Hne) as [[chosen n] Hsel].
  destruct (selectedTechnician_least _ _ Hsel) as [Hin Hleast].
  apply elem_of_technicianLoads in Hin as [Hcand ->].
  destruct Hcand as (technician & Hlook & Hact & Hlinked).
  destruct (Technician.UserId technician) as [userId|] eqn:Hu; [|done].
  exists chosen.
  unfold AssignTechnicianToTicketAsync.
  rewrite Ht, Hnull. rewrite decide_False by (intros H; by apply H).
  rewrite (decide_False _ _ Hne), Hsel. simpl. rewrite Hlook, Hu. simpl.
  rewrite lookup_insert_eq. simpl.
  repeat split; [by exists technician; rewrite Hu | |].
  - assert (Hc' : (c, loadCount db c) ∈ technicianLoads db)
      by (by apply elem_of_technicianLoads).
    apply Hleast in Hc'. unfold loadOrder in Hc'. simpl in Hc'.
    rewrite !loadCount_openTicketCount in Hc'. lia.
  - intros Heq.
    assert (Hc' : (c, loadCount db c) ∈ technicianLoads db)
      by (by apply elem_of_technicianLoads).
    apply Hleast in Hc'. unfold loadOrder in Hc'. simpl in Hc'.
    rewrite !loadCount_openTicketCount in Hc'. lia.
Qed.

Lemma sample_candidate_A : isCandidate sampleDb 11%N.
Proof.
  exists (sampleTechnician true (Some 201%N)).
  split; [vm_compute; reflexivity | split; [reflexivity | intros [=]]].
Qed.

Lemma sample_candidate_B : isCandidate sampleDb 12%N.
Proof.
  exists (sampleTechnician true (Some 202%N)).
  split; [vm_compute; reflexivity | split; [reflexivity | intros [=]]].
Qed.

(** In the sample tables two open tickets name A and none names B. *)
Example sample_open_tickets :
  openTicketCount sampleDb 11%N = 2%nat ∧ openTicketCount sampleDb 12%N = 0%nat.
Proof. split; vm_compute; reflexivity. Qed.

(** A (two open tickets), B (none), C (inactive), D (not linked): B wins. *)
Example sample_selects_B :
  (AssignTechnicianToTicketAsync 3%N 20 sampleDb).1 = Some 12%N.
Proof. vm_compute. reflexivity. Qed.

(** On the sample tables the chosen technician is B, although A has the
    lower id: B has no open ticket, A has two. *)
Lemma assignOne_least_loaded_witness :
  ∃ chosen,
    (AssignTechnicianToTicketAsync 3%N 20 sampleDb).1 = Some chosen ∧
    isCandidate sampleDb chosen ∧
    (openTicketCount sampleDb chosen ≤ 0)%nat ∧
    (openTicketCount sampleDb chosen ≤ 2)%nat ∧
    chosen = 12%N.
Proof.
  destruct (assignOne_least_loaded 3%N 20 sampleDb (sampleTicket TicketStatus.New None None))
    as (chosen & Hres & _ & Hcand & Hleast).
  - vm_compute; reflexivity.
  - reflexivity.
  - exists 11%N. exact sample_candidate_A.
  - exists chosen. split; [exact Hres|]. split; [exact Hcand|].
    pose proof (proj1 (Hleast 11%N sample_candidate_A)) as HA.
    pose proof (proj1 (Hleast 12%N sample_candidate_B)) as HB.
    destruct sample_open_tickets as [EA EB]. rewrite EA in HA. rewrite EB in HB.
    split; [exact HB|]. split; [exact HA|].
    rewrite sample_selects_B in Hres. by injection Hres.
Defined.

(** *** Tickets that are already assigned *)

Lemma assign_skips_assigned reread ticketId now db ticket :
  Tickets db !! ticketId = Some ticket →
  Ticket.TechnicianId ticket ≠ None →
  AssignTechnicianToTicketAsync_reread reread ticketId now db = (None, db).
Proof.
  intros Ht Hassigned. unfold AssignTechnicianToTicketAsync_reread.
  rewrite Ht. by rewrite decide_True.
Qed.

Lemma assign_keeps_assigned reread ticketId now db id ticket :
  Tickets db !! id = Some ticket →
  Ticket.TechnicianId ticket ≠ None →
  Tickets (AssignTechnicianToTicketAsync_reread reread ticketId now db).2 !! id = Some ticket.
Proof.
  intros Ht Hassigned.
  destruct (AssignTechnicianToTicketAsync_reread reread ticketId now db)
    as [[chosen|] db'] eqn:E; simpl.
  - apply assign_Some in E as (k & n & technician & userId & Hk & Hnull & _ & _ & _ & ->).
    simpl. rewrite lookup_insert_ne; [done|]. intros ->. congruence.
  - apply assign_None in E as ->. done.
Qed.

Lemma assignEach_keeps_assigned clock ids assignedCount db id ticket :
  Tickets db !! id = Some ticket →
  Ticket.TechnicianId ticket ≠ None →
  Tickets (assignEach clock ids assignedCount db).2 !! id = Some ticket.
Proof.
  revert assignedCount db.
  induction ids as [|i ids IH]; intros assignedCount db Ht Hassigned; simpl; [done|].
  pose proof (assign_keeps_assigned (Technicians db) i (clock i) db id ticket Ht Hassigned)
    as Hstep.
  rewrite assign_as_reread.
  destruct (AssignTechnicianToTicketAsync_reread (Technicians db) i (clock i) db)
    as [[chosen|] db'] eqn:E; simpl in Hstep; by apply IH.
Qed.

Lemma assignEach_count clock ids assignedCount db :
  ((assignEach clock ids assignedCount db).1 ≤ assignedCount + length ids)%nat.
Proof.
  revert assignedCount db.
  induction ids as [|i ids IH]; intros assignedCount db; simpl; [lia|].
  destruct (AssignTechnicianToTicketAsync i (clock i) db) as [[chosen|] db'].
  - specialize (IH (S assignedCount) db'). lia.
  - specialize (IH assignedCount db'). lia.
Qed.

Lemma unassignedTickets_length startDate endDate db :
  (length (unassignedTickets startDate endDate db)
   ≤ length (unassignedTickets None None db))%nat.
Proof.
  unfold unassignedTickets.
  induction (map_to_list (Tickets db)) as [|row rows IH]; [done|].
  rewrite !filter_cons.
  destruct (decide (isUnassignedIn startDate endDate row)) as [Hin|_].
  - rewrite decide_True; [simpl; lia|].
    destruct Hin as [Hnull _]. by repeat split.
  - case_decide; simpl; lia.
Qed.

(** C4.  [AssignTechnicianToTicketAsync] returns null and changes nothing on
    a ticket whose [TechnicianId] is set.  Hence, of two runs of
    [AssignUnassignedTicketsAsync] in succession, the second leaves every
    ticket that is assigned after the first exactly as it is, and the count
    it returns is at most the number of tickets that the first run left
    unassigned. *)
Theorem assignBatch_idempotent
    (startDate endDate startDate' endDate' : option DateTime)
    (clock clock' : Guid → DateTime) (db : Db) :
  let first := AssignUnassignedTicketsAsync startDate endDate clock db in
  let second := AssignUnassignedTicketsAsync startDate' endDate' clock' first.2 in
  (∀ ticketId now d ticket,
     Tickets d !! ticketId = Some ticket →
     Ticket.TechnicianId ticket ≠ None →
     AssignTechnicianToTicketAsync ticketId now d = (None, d)) ∧
  (∀ id ticket,
     Tickets first.2 !! id = Some ticket →
     Ticket.TechnicianId ticket ≠ None →
     Tickets second.2 !! id = Some ticket) ∧
  (second.1 ≤ length (unassignedTickets None None first.2))%nat.
Proof.
  intros first second. split; [|split].
  - intros ticketId now d ticket. apply assign_skips_assigned.
  - intros id ticket. apply assignEach_keeps_assigned.
  - subst second. unfold AssignUnassignedTicketsAsync at 1.
    etrans; [apply assignEach_count|]. rewrite length_fmap. simpl.
    apply unassignedTickets_length.
Qed.

Lemma assignBatch_idempotent_witness :
  let first := AssignUnassignedTicketsAsync None None (λ _, 20) sampleDb in
  let second := AssignUnassignedTicketsAsync None None (λ _, 30) first.2 in
  first.1 = 3%nat ∧ second.1 = 0%nat ∧
  Tickets second.2 !! 3%N = Tickets first.2 !! 3%N ∧
  Ticket.TechnicianId <$> Tickets first.2 !! 3%N = Some (Some 11%N).
Proof.
  intros first second.
  destruct (assignBatch_idempotent None None None None (λ _, 20) (λ _, 30) sampleDb)
    as (_ & Hkeep & Hcount).
  assert (Hunassigned :
    length (unassignedTickets None None
              (AssignUnassignedTicketsAsync None None (λ _, 20) sampleDb).2) = 0%nat)
    by (vm_compute; reflexivity).
  rewrite Hunassigned in Hcount.
  assert (Hthird : Tickets first.2 !! 3%N =
                   Some (assignedTicket 11%N 201%N 20 (sampleTicket TicketStatus.New None None)))
    by (vm_compute; reflexivity).
  split; [vm_compute; reflexivity|].
  split; [subst second first; lia|].
  split.
  - rewrite Hthird. apply Hkeep; [exact Hthird | intros [=]].
  - rewrite Hthird. reflexivity.
Defined.

(** *** Assignments that are not made *)

(** The technician that the sort selects is found again by the lookup that
    precedes the write, with its account: both reads are of the same
    table, so within one call the check of [UserId] before the write finds
    an account. *)
Lemma selected_is_linked db selected :
  selectedTechnician db = Some selected →
  ∃ technician userId,
    Technicians db !! selected.1 = Some technician ∧
    Technician.UserId technician = Some userId.
Proof.
  intros Hsel. destruct selected as [chosen n].
  apply selectedTechnician_least in Hsel as [Hin _].
  apply elem_of_technicianLoads in Hin as [(technician & Hlook & _ & Hlinked) _].
  destruct (Technician.UserId technician) as [userId|] eqn:Hu; [|done].
  by exists technician, userId.
Qed.



(** *** Creation followed by assignment *)

Lemma CreateTicketAsync_lookup userId request newId now db :
  Tickets (CreateTicketAsync userId request newId now db).2 !! newId =
  Some {| Ticket.Title := TicketCreateRequest.Title request;
          Ticket.Description := TicketCreateRequest.Description request;
          Ticket.CategoryId := TicketCreateRequest.CategoryId request;
          Ticket.SubcategoryId := TicketCreateRequest.SubcategoryId request;
          Ticket.Priority := TicketCreateRequest.Priority request;
          Ticket.Status := TicketStatus.New;
          Ticket.CreatedByUserId := userId;
          Ticket.AssignedToUserId := None;
          Ticket.TechnicianId := None;
          Ticket.CreatedAt := now;
          Ticket.UpdatedAt := None;
          Ticket.DueDate := None |}.
Proof. unfold CreateTicketAsync. simpl. apply lookup_insert_eq. Qed.

(** C6.  [CreateTicketAsync] stores and returns a ticket that is [New] and
    has neither assignment reference.  If [AssignTechnicianToTicketAsync]
    is then called on it and returns a technician, one write has left the
    ticket [InProgress] with [TechnicianId] the returned profile id and
    [AssignedToUserId] the account linked to that same profile. *)
Theorem create_then_assign
    (userId : Guid) (request : TicketCreateRequest.t) (newId : Guid) (now : DateTime)
    (db : Db) :
  let created := CreateTicketAsync userId request newId now db in
  (∃ ticket response,
     Tickets created.2 !! newId = Some ticket ∧
     created.1 = Some response ∧
     Ticket.Status ticket = TicketStatus.New ∧
     Ticket.TechnicianId ticket = None ∧
     Ticket.AssignedToUserId ticket = None ∧
     TicketResponse.Status response = TicketStatus.New ∧
     TicketResponse.AssignedToUserId response = None ∧
     TicketResponse.AssignedToName response = None) ∧
  (∀ now' chosen db',
     AssignTechnicianToTicketAsync newId now' created.2 = (Some chosen, db') →
     ∃ ticket technician linked ticket',
       Tickets created.2 !! newId = Some ticket ∧
       Technicians created.2 !! chosen = Some technician ∧
       Technician.UserId technician = Some linked ∧
       db' = with_Tickets (<[newId := ticket']> (Tickets created.2)) created.2 ∧
       Tickets db' !! newId = Some ticket' ∧
       Ticket.Status ticket' = TicketStatus.InProgress ∧
       Ticket.TechnicianId ticket' = Some chosen ∧
       Ticket.AssignedToUserId ticket' = Some linked).
Proof.
  intros created. split.
  - eexists _, _. split; [apply CreateTicketAsync_lookup|].
    subst created. unfold CreateTicketAsync. simpl. rewrite lookup_insert_eq. simpl.
    repeat split; reflexivity.
  - intros now' chosen db' Hassign.
    apply assign_Some in Hassign
      as (ticket & n & technician & linked & Ht & _ & _ & Htech & Hu & ->).
    exists ticket, technician, linked, (assignedTicket chosen linked now' ticket).
    repeat split; try done. apply lookup_insert_eq.
Qed.

Lemma create_then_assign_witness :
  let created := CreateTicketAsync 100%N sampleCreate 6%N 15 sampleDb in
  ∃ db' ticket',
    AssignTechnicianToTicketAsync 6%N 20 created.2 = (Some 12%N, db') ∧
    Tickets db' !! 6%N = Some ticket' ∧
    Ticket.Status ticket' = TicketStatus.InProgress ∧
    Ticket.TechnicianId ticket' = Some 12%N ∧
    Ticket.AssignedToUserId ticket' = Some 202%N.
Proof.
  intros created.
  destruct (create_then_assign 100%N sampleCreate 6%N 15 sampleDb) as [_ Hassign].
  destruct (Hassign 20 12%N (AssignTechnicianToTicketAsync 6%N 20 created.2).2)
    as (ticket & technician & linked & ticket' & _ & Htech & Hu & _ & Hk & Hs & Ht & Ha).
  - vm_compute. reflexivity.
  - exists (AssignTechnicianToTicketAsync 6%N 20 created.2).2, ticket'.
    split; [vm_compute; reflexivity|].
    split; [exact Hk|]. split; [exact Hs|]. split; [exact Ht|].
    rewrite Ha. f_equal.
    assert (Hb : Some technician = Some (sampleTechnician true (Some 202%N)))
      by (rewrite <- Htech; vm_compute; reflexivity).
    injection Hb as ->. simpl in Hu. congruence.
Defined.

(** *** The pairing of the two assignment references *)

Lemma paired_assignedTicket chosen userId now ticket :
  paired (assignedTicket chosen userId now ticket).
Proof. unfold paired. simpl. split; intros [=]. Qed.

Lemma CreateTicketAsync_paired userId request newId now db :
  allPaired db → allPaired (CreateTicketAsync userId request newId now db).2.
Proof.
  intros Hall. unfold allPaired, CreateTicketAsync. simpl.
  apply map_Forall_insert_2; [|done]. by unfold paired.
Qed.

Lemma AddMessageAsync_paired ticketId authorId message status newId now now' db :
  allPaired db →
  allPaired (persisted db (AddMessageAsync ticketId authorId message status newId now now' db)).
Proof.
  intros Hall. unfold AddMessageAsync.
  destruct (Tickets db !! ticketId) as [ticket|] eqn:Ht; [|done].
  destruct (Users db !! authorId) as [author|]; [|done].
  repeat case_decide; try done.
  destruct (applyMessageStatus (User.Role author) status ticket) as [e|k] eqn:E; [done|].
  simpl. apply map_Forall_insert_2; [|done].
  pose proof (map_Forall_lookup_1 _ _ _ _ Hall Ht) as Hp. simpl in Hp.
  apply applyMessageStatus_frame in E as [-> | (s & _ & ->)]; exact Hp.
Qed.

Lemma assign_paired reread ticketId now db :
  allPaired db → allPaired (AssignTechnicianToTicketAsync_reread reread ticketId now db).2.
Proof.
  intros Hall.
  destruct (AssignTechnicianToTicketAsync_reread reread ticketId now db)
    as [[chosen|] db'] eqn:E; simpl.
  - apply assign_Some in E as (k & n & technician & userId & _ & _ & _ & _ & _ & ->).
    apply map_Forall_insert_2; [apply paired_assignedTicket | done].
  - by apply assign_None in E as ->.
Qed.

Lemma assignEach_paired clock ids assignedCount db :
  allPaired db → allPaired (assignEach clock ids assignedCount db).2.
Proof.
  revert assignedCount db.
  induction ids as [|i ids IH]; intros assignedCount db Hall; simpl; [done|].
  pose proof (assign_paired (Technicians db) i (clock i) db Hall) as Hstep.
  rewrite assign_as_reread.
  destruct (AssignTechnicianToTicketAsync_reread (Technicians db) i (clock i) db)
    as [[chosen|] db']; by apply IH.
Qed.

Lemma AssignUnassignedTicketsAsync_paired startDate endDate clock db :
  allPaired db → allPaired (AssignUnassignedTicketsAsync startDate endDate clock db).2.
Proof. apply assignEach_paired. Qed.

(** [UpdateTicketAsync] keeps the pairing unless an admin's patch carries an
    [AssignedToUserId]. *)
Lemma UpdateTicketAsync_paired id userId role request now db :
  allPaired db →
  role ≠ UserRole.Admin ∨ TicketUpdateRequest.AssignedToUserId request = None →
  allPaired (UpdateTicketAsync id userId role request now db).2.
Proof.
  intros Hall Hpatch. unfold UpdateTicketAsync.
  destruct (Tickets db !! id) as [ticket|] eqn:Ht; [|done].
  repeat case_decide; try done. simpl.
  apply map_Forall_insert_2; [|done].
  pose proof (map_Forall_lookup_1 _ _ _ _ Hall Ht) as Hp. simpl in Hp.
  unfold paired in *.
  rewrite applyUpdate_TechnicianId, applyUpdate_AssignedToUserId.
  destruct role; try done.
  destruct (TicketUpdateRequest.AssignedToUserId request); [|done].
  by destruct Hpatch.
Qed.

(** [AssignTicketAsync] keeps the pairing when the technician it is given
    has a linked account. *)
Lemma AssignTicketAsync_paired id technicianId now db :
  allPaired db →
  (∀ technician, Technicians db !! technicianId = Some technician →
                 Technician.UserId technician ≠ None) →
  allPaired (AssignTicketAsync id technicianId now db).2.
Proof.
  intros Hall Hlinked. unfold AssignTicketAsync.
  destruct (Tickets db !! id) as [ticket|]; [|done].
  destruct (Technicians db !! technicianId) as [technician|]; [|done].
  destruct (Technician.IsActive technician); [|done]. simpl.
  apply map_Forall_insert_2; [|done].
  specialize (Hlinked technician eq_refl).
  unfold paired. simpl. split; [intros [=] | done].
Qed.

Lemma sampleDb_paired : allPaired sampleDb.
Proof.
  unfold allPaired. apply map_Forall_to_list.
  vm_compute. repeat constructor; simpl; intros [=].
Qed.

(** C1 fails on the code, on two of the six operations.  All sample tickets
    are paired and ticket 3 has neither reference.  An admin patch that
    carries [AssignedToUserId] sets that reference alone; the admin
    assignment to D, an active technician with no linked account, sets
    [TechnicianId] alone.  Either way ticket 3 is stored with one reference
    null and the other not. *)
Theorem pairing_broken_by_admin_operations :
  allPaired sampleDb ∧
  (∃ ticket,
     Tickets (UpdateTicketAsync 3%N 300%N UserRole.Admin
                (samplePatch (Some 201%N) None) 20 sampleDb).2 !! 3%N = Some ticket ∧
     Ticket.TechnicianId ticket = None ∧
     Ticket.AssignedToUserId ticket = Some 201%N ∧
     ¬ paired ticket) ∧
  (∃ ticket,
     Tickets (AssignTicketAsync 3%N 14%N 20 sampleDb).2 !! 3%N = Some ticket ∧
     Ticket.TechnicianId ticket = Some 14%N ∧
     Ticket.AssignedToUserId ticket = None ∧
     ¬ paired ticket).
Proof.
  split; [exact sampleDb_paired|]. split.
  - eexists. split; [vm_compute; reflexivity|].
    split; [reflexivity|]. split; [reflexivity|].
    unfold paired. simpl. intros [H _]. by specialize (H eq_refl).
  - eexists. split; [vm_compute; reflexivity|].
    split; [reflexivity|]. split; [reflexivity|].
    unfold paired. simpl. intros [_ H]. by specialize (H eq_refl).
Qed.

(** *** The ticket list and the single-ticket read *)

Lemma GetTicketAsync_Some id userId role db r :
  GetTicketAsync id userId role db = Some r ↔
  ∃ ticket,
    Tickets db !! id = Some ticket ∧
    inRoleScope role userId (id, ticket) ∧
    r = MapToResponse db id ticket.
Proof.
  unfold GetTicketAsync, notOwnTicket, notAssignedTicket. split.
  - destruct (Tickets db !! id) as [ticket|]; [|done].
    repeat case_decide; try done. intros [= <-]. exists ticket.
    split; [done|]. split; [|done].
    destruct role; simpl; try done.
    + destruct (decide (Ticket.CreatedByUserId ticket = userId)); tauto.
    + destruct (decide (Ticket.TechnicianId ticket = Some userId)); [tauto|].
      destruct (decide (Ticket.AssignedToUserId ticket = Some userId)); tauto.
  - intros (ticket & -> & Hscope & ->).
    destruct role; simpl in Hscope;
      repeat case_decide; try done; intuition congruence.
Qed.

Section TicketList.
Variable Contains : string → string → bool.
Variable IsWhiteSpace : string → bool.

(** X1.  [GetTicketsAsync] lists exactly the tickets that [GetTicketAsync]
    gives to the same caller, cut down by the filters that were passed; a
    search that is null or white space filters nothing. *)
Theorem ticket_list_agrees_with_get
    (userId : Guid) (role : UserRole.t)
    (status : option TicketStatus.t) (priority : option TicketPriority.t)
    (assignedTo createdBy : option Guid) (search : option string) (db : Db)
    (r : TicketResponse.t) :
  r ∈ GetTicketsAsync Contains IsWhiteSpace userId role status priority
        assignedTo createdBy search db ↔
  ∃ id,
    GetTicketAsync id userId role db = Some r ∧
    TicketResponse.Id r = id ∧
    (∀ s, status = Some s → TicketResponse.Status r = s) ∧
    (∀ p, priority = Some p → TicketResponse.Priority r = p) ∧
    (∀ u, assignedTo = Some u → TicketResponse.AssignedToUserId r = Some u) ∧
    (∀ u, createdBy = Some u → TicketResponse.CreatedByUserId r = u) ∧
    (∀ s, search = Some s → IsWhiteSpace s = false →
       Contains (TicketResponse.Title r) s
       || Contains (TicketResponse.Description r) s = true).
Proof.
  unfold GetTicketsAsync. rewrite list_elem_of_fmap.
  setoid_rewrite merge_sort_Permutation.
  assert (Hsearch : ∀ (row : Guid * Ticket.t) (q : list (Guid * Ticket.t)),
    row ∈ (if negb (IsNullOrWhiteSpace IsWhiteSpace search)
           then filter (matchesSearch Contains (default EmptyString search)) q
           else q) ↔
    row ∈ q ∧ (∀ s, search = Some s → IsWhiteSpace s = false →
                 matchesSearch Contains s row)).
  { intros row q. destruct search as [s|]; simpl.
    - destruct (IsWhiteSpace s) eqn:E; simpl.
      + split; [|by intros [? _]].
        intros Hin. split; [done|]. intros s' [= <-] E'. congruence.
      + rewrite list_elem_of_filter. split.
        * intros [Hm Hin]. split; [done|]. by intros s' [= <-] _.
        * intros [Hin Hm]. split; [|done]. by apply Hm.
    - split; [|by intros [? _]]. intros Hin. split; [done|]. by intros s' [=]. }
  setoid_rewrite Hsearch. clear Hsearch.
  assert (Hopt : ∀ {V} (o : option V) (P : V → Guid * Ticket.t → Prop)
                   `{∀ v x, Decision (P v x)} (row : Guid * Ticket.t)
                   (q : list (Guid * Ticket.t)),
    row ∈ (match o with Some v => filter (P v) q | None => q end) ↔
    row ∈ q ∧ (∀ v, o = Some v → P v row)).
  { intros V o P ? row q. destruct o as [v|]; [rewrite list_elem_of_filter|].
    - split.
      + intros [Hp Hin]. split; [done|]. by intros v' [= <-].
      + intros [Hin Hp]. split; [|done]. by apply Hp.
    - split; [|by intros [? _]]. intros Hin. split; [done|]. by intros v' [=]. }
  setoid_rewrite (Hopt _ createdBy (λ u row, Ticket.CreatedByUserId row.2 = u)).
  setoid_rewrite (Hopt _ assignedTo (λ u row, Ticket.AssignedToUserId row.2 = Some u)).
  setoid_rewrite (Hopt _ priority (λ p row, Ticket.Priority row.2 = p)).
  setoid_rewrite (Hopt _ status (λ s row, Ticket.Status row.2 = s)).
  clear Hopt.
  setoid_rewrite list_elem_of_filter.
  setoid_rewrite GetTicketAsync_Some. unfold matchesSearch. split.
  - intros ([id ticket] & -> & (((((Hscope & Hin) & Hs) & Hp) & Ha) & Hc) & Hq).
    apply elem_of_map_to_list in Hin. simpl in *.
    exists id. split; [by exists ticket|]. by repeat split.
  - intros (id & (ticket & Hin & Hscope & ->) & _ & Hs & Hp & Ha & Hc & Hq).
    exists (id, ticket). split; [done|]. simpl in *.
    repeat split; try done. by apply elem_of_map_to_list.
Qed.

#[local] Instance newestFirst_total : Total newestFirst.
Proof. intros a b. unfold newestFirst. lia. Qed.
#[local] Instance newestFirst_trans : Transitive newestFirst.
Proof. intros a b c. unfold newestFirst. lia. Qed.

(** X2.  The list comes newest first, whatever the filters. *)
Theorem ticket_list_newest_first
    (userId : Guid) (role : UserRole.t)
    (status : option TicketStatus.t) (priority : option TicketPriority.t)
    (assignedTo createdBy : option Guid) (search : option string) (db : Db) :
  StronglySorted (λ a b, TicketResponse.CreatedAt b ≤ TicketResponse.CreatedAt a)
    (GetTicketsAsync Contains IsWhiteSpace userId role status priority
       assignedTo createdBy search db).
Proof.
  unfold GetTicketsAsync.
  match goal with |- context [merge_sort newestFirst ?q] =>
    pose proof (StronglySorted_merge_sort newestFirst q) as Hs;
    induction Hs as [|row rows _ IH Hall]
  end; simpl; constructor; [done|].
  rewrite Forall_fmap. eapply Forall_impl; [exact Hall|]. done.
Qed.
End TicketList.

(** *** The messages of a ticket *)

#[local] Instance oldestFirst_total : Total oldestFirst.
Proof. intros a b. unfold oldestFirst. lia. Qed.
#[local] Instance oldestFirst_trans : Transitive oldestFirst.
Proof. intros a b c. unfold oldestFirst. lia. Qed.

(** X3.  [GetMessagesAsync] returns a message exactly when the caller can
    read the ticket and the message is stored under that ticket; for a
    ticket that is missing or out of the caller's scope it returns
    nothing. *)
Theorem message_list_is_scoped
    (ticketId userId : Guid) (role : UserRole.t) (db : Db) (dto : TicketMessageDto.t) :
  dto ∈ GetMessagesAsync ticketId userId role db ↔
  is_Some (GetTicketAsync ticketId userId role db) ∧
  ∃ m,
    TicketMessages db !! TicketMessageDto.Id dto = Some m ∧
    TicketMessage.TicketId m = ticketId ∧
    toMessageDto db (TicketMessageDto.Id dto, m) = Some dto.
Proof.
  unfold GetMessagesAsync.
  destruct (GetTicketAsync ticketId userId role db) as [r|].
  - rewrite list_elem_of_omap. setoid_rewrite merge_sort_Permutation.
    setoid_rewrite list_elem_of_filter. split.
    + intros ([id m] & [Ht Hin] & Hdto). split; [by eexists|].
      apply elem_of_map_to_list in Hin. simpl in Ht.
      assert (TicketMessageDto.Id dto = id) as ->.
      { unfold toMessageDto in Hdto. simpl in Hdto.
        destruct (Users db !! TicketMessage.AuthorUserId m); [|done].
        by injection Hdto as <-. }
      by exists m.
    + intros (_ & m & Hin & Ht & Hdto).
      exists (TicketMessageDto.Id dto, m). split; [|done].
      split; [done|]. by apply elem_of_map_to_list.
  - split; [by intros ?%elem_of_nil | by intros [[? [=]] _]].
Qed.

Lemma toMessageDto_CreatedAt db row dto :
  toMessageDto db row = Some dto →
  TicketMessageDto.CreatedAt dto = TicketMessage.CreatedAt row.2.
Proof.
  unfold toMessageDto. destruct (Users db !! _); [|done]. by intros [= <-].
Qed.

Lemma omap_cons {A B} (f : A → option B) (x : A) (l : list A) :
  omap f (x :: l) = match f x with Some y => y :: omap f l | None => omap f l end.
Proof. reflexivity. Qed.

(** X4.  The messages come oldest first. *)
Theorem message_list_oldest_first
    (ticketId userId : Guid) (role : UserRole.t) (db : Db) :
  StronglySorted
    (λ a b, TicketMessageDto.CreatedAt a ≤ TicketMessageDto.CreatedAt b)
    (GetMessagesAsync ticketId userId role db).
Proof.
  unfold GetMessagesAsync.
  destruct (GetTicketAsync ticketId userId role db); [|constructor].
  match goal with |- context [merge_sort oldestFirst ?q] =>
    pose proof (StronglySorted_merge_sort oldestFirst q) as Hs;
    induction Hs as [|row rows _ IH Hall]
  end; [constructor|].
  rewrite omap_cons. destruct (toMessageDto db row) as [dto|] eqn:E; [|done].
  constructor; [done|].
  apply Forall_forall. intros dto' Hin.
  apply list_elem_of_omap in Hin as (row' & Hin & E').
  rewrite Forall_forall in Hall. specialize (Hall _ Hin).
  rewrite (toMessageDto_CreatedAt _ _ _ E), (toMessageDto_CreatedAt _ _ _ E'). done.
Qed.

(** What a call of [AddMessageAsync] that returns a message has done. *)
Lemma AddMessageAsync_Returned_Some
    ticketId authorId message status newId now now' db dto db' :
  AddMessageAsync ticketId authorId message status newId now now' db
  = Returned (Some dto) db' →
  ∃ ticket author ticket' stored recipient,
    Tickets db !! ticketId = Some ticket ∧
    Users db !! authorId = Some author ∧
    ¬ notOwnTicket (User.Role author) authorId ticket ∧
    ¬ notAssignedTicket (User.Role author) authorId ticket ∧
    applyMessageStatus (User.Role author) status ticket = inr ticket' ∧
    stored = {| TicketMessage.TicketId := ticketId;
                TicketMessage.AuthorUserId := authorId;
                TicketMessage.Message := message;
                TicketMessage.CreatedAt := now';
                TicketMessage.Status := status ?? Some (Ticket.Status ticket') |} ∧
    recipient = (if decide (Ticket.AssignedToUserId ticket' = Some authorId)
                 then Ticket.CreatedByUserId ticket'
                 else default (Ticket.CreatedByUserId ticket')
                        (Ticket.AssignedToUserId ticket')) ∧
    db' = {| Tickets := <[ticketId := Ticket.set_UpdatedAt (Some now) ticket']> (Tickets db);
             Technicians := Technicians db;
             Users := Users db;
             TicketMessages := <[newId := stored]> (TicketMessages db);
             Notifications :=
               Notifications db ++
               [(recipient, "New message on ticket '" +:+ Ticket.Title ticket' +:+ "'")] |} ∧
    toMessageDto db (newId, stored) = Some dto.
Proof.
  unfold AddMessageAsync.
  destruct (Tickets db !! ticketId) as [ticket|] eqn:Ht; [|done].
  destruct (Users db !! authorId) as [author|] eqn:Hu; [|done].
  destruct (decide (notOwnTicket _ _ _)) as [|Hown]; [done|].
  destruct (decide (notAssignedTicket _ _ _)) as [|Hasg]; [done|].
  destruct (applyMessageStatus (User.Role author) status ticket) as [e|ticket'] eqn:E;
    [done|].
  cbn [Tickets TicketMessages Users with_Tickets with_TicketMessages CreateNotificationAsync].
  rewrite lookup_insert_eq. cbn [TicketMessage.AuthorUserId mbind option_bind].
  rewrite Hu. cbn [mbind option_bind]. intros [= <- <-].
  eexists ticket, author, ticket', _, _.
  repeat split; try done.
  unfold toMessageDto. simpl. rewrite Hu. reflexivity.
Qed.

Lemma applyMessageStatus_refs role status ticket ticket' :
  applyMessageStatus role status ticket = inr ticket' →
  Ticket.CreatedByUserId ticket' = Ticket.CreatedByUserId ticket ∧
  Ticket.TechnicianId ticket' = Ticket.TechnicianId ticket ∧
  Ticket.AssignedToUserId ticket' = Ticket.AssignedToUserId ticket ∧
  Ticket.Title ticket' = Ticket.Title ticket.
Proof. intros [-> | (s & _ & ->)]%applyMessageStatus_frame; done. Qed.

Lemma toMessageDto_Users d d' row :
  Users d = Users d' → toMessageDto d row = toMessageDto d' row.
Proof. unfold toMessageDto. by intros ->. Qed.

Lemma omap_ext_all {A B} (f g : A → option B) (l : list A) :
  (∀ x, f x = g x) → omap f l = omap g l.
Proof.
  intros Hfg. induction l as [|x l IH]; [done|].
  by rewrite !omap_cons, Hfg, IH.
Qed.

(** X5.  After [AddMessageAsync] has returned a message under an id that
    was free, [GetMessagesAsync] gives its author the messages listed
    before together with the returned one, and nothing else. *)
Theorem added_message_is_listed
    (ticketId authorId : Guid) (message : string) (status : option TicketStatus.t)
    (newId : Guid) (now now' : DateTime) (db db' : Db) (dto : TicketMessageDto.t) :
  TicketMessages db !! newId = None →
  AddMessageAsync ticketId authorId message status newId now now' db
  = Returned (Some dto) db' →
  ∃ author,
    Users db !! authorId = Some author ∧
    GetMessagesAsync ticketId authorId (User.Role author) db' ≡ₚ
    dto :: GetMessagesAsync ticketId authorId (User.Role author) db.
Proof.
  intros Hfresh Hadd.
  apply AddMessageAsync_Returned_Some in Hadd
    as (ticket & author & ticket' & stored & recipient
        & Ht & Hu & Hown & Hasg & Happly & Hstored & _ & -> & Hdto).
  exists author. split; [done|].
  apply applyMessageStatus_refs in Happly as (Hc & Htech & Ha & _).
  unfold GetMessagesAsync, GetTicketAsync. simpl.
  rewrite lookup_insert_eq, Ht.
  rewrite (decide_False _ _ Hown), (decide_False _ _ Hasg).
  rewrite decide_False
    by (unfold notOwnTicket in *; simpl; rewrite Hc; exact Hown).
  rewrite decide_False
    by (unfold notAssignedTicket in *; simpl; rewrite Htech, Ha; exact Hasg).
  rewrite !merge_sort_Permutation.
  rewrite (map_to_list_insert _ _ _ Hfresh), filter_cons.
  rewrite decide_True by (by rewrite Hstored).
  rewrite omap_cons.
  rewrite (toMessageDto_Users _ db (newId, stored)) by done.
  rewrite Hdto. constructor.
  rewrite (omap_ext_all _ (toMessageDto db)); [done|].
  intros row. by apply toMessageDto_Users.
Qed.

Lemma added_message_is_listed_witness :
  GetMessagesAsync 4%N 100%N UserRole.Client
    (persisted sampleDb
       (AddMessageAsync 4%N 100%N "still broken" (Some TicketStatus.InProgress)
          900%N 20 21 sampleDb))
  ≡ₚ [ {| TicketMessageDto.Id := 900%N;
          TicketMessageDto.AuthorUserId := 100%N;
          TicketMessageDto.AuthorName := "User";
          TicketMessageDto.AuthorEmail := "user@test.com";
          TicketMessageDto.Message := "still broken";
          TicketMessageDto.CreatedAt := 21;
          TicketMessageDto.Status := Some TicketStatus.InProgress |} ].
Proof.
  destruct (added_message_is_listed 4%N 100%N "still broken"
              (Some TicketStatus.InProgress) 900%N 20 21 sampleDb
              (persisted sampleDb
                 (AddMessageAsync 4%N 100%N "still broken"
                    (Some TicketStatus.InProgress) 900%N 20 21 sampleDb))
              {| TicketMessageDto.Id := 900%N;
                 TicketMessageDto.AuthorUserId := 100%N;
                 TicketMessageDto.AuthorName := "User";
                 TicketMessageDto.AuthorEmail := "user@test.com";
                 TicketMessageDto.Message := "still broken";
                 TicketMessageDto.CreatedAt := 21;
                 TicketMessageDto.Status := Some TicketStatus.InProgress |})
    as (author & Hu & Hperm).
  - vm_compute; reflexivity.
  - vm_compute; reflexivity.
  - assert (Ha : Some author = Some (sampleUser UserRole.Client))
      by (rewrite <- Hu; vm_compute; reflexivity).
    injection Ha as ->. exact Hperm.
Defined.

(** *** What the assigned technician sees *)

Section AssignedList.
Variable Contains : string → string → bool.
Variable IsWhiteSpace : string → bool.

(** X6.  When [AssignTechnicianToTicketAsync] returns a technician, the
    ticket is in the list that [GetMyTickets] gives to the account linked
    to that technician: [InProgress], assigned to that account and shown
    under the technician's name. *)
Theorem assigned_ticket_reaches_technician
    (ticketId : Guid) (now : DateTime) (db db' : Db) (chosen : Guid) :
  AssignTechnicianToTicketAsync ticketId now db = (Some chosen, db') →
  ∃ technician linked r tickets,
    Technicians db !! chosen = Some technician ∧
    Technician.UserId technician = Some linked ∧
    GetMyTickets Contains IsWhiteSpace (Some linked) db' = Ok tickets ∧
    r ∈ tickets ∧
    TicketResponse.Id r = ticketId ∧
    TicketResponse.Status r = TicketStatus.InProgress ∧
    TicketResponse.AssignedToUserId r = Some linked ∧
    TicketResponse.AssignedToName r = Some (Technician.FullName technician).
Proof.
  intros Hassign.
  apply assign_Some in Hassign
    as (ticket & n & technician & linked & Ht & Hnull & _ & Htech & Hu & ->).
  exists technician, linked,
    (MapToResponse
       (with_Tickets (<[ticketId := assignedTicket chosen linked now ticket]> (Tickets db)) db)
       ticketId (assignedTicket chosen linked now ticket)).
  eexists. split; [done|]. split; [done|]. split; [reflexivity|].
  split.
  - unfold GetTicketsAsync. simpl.
    apply list_elem_of_fmap. exists (ticketId, assignedTicket chosen linked now ticket).
    split; [done|]. rewrite merge_sort_Permutation.
    apply list_elem_of_filter. split; [by right|].
    apply elem_of_map_to_list, lookup_insert_eq.
  - repeat split. simpl. by rewrite Htech.
Qed.
End AssignedList.

Lemma assigned_ticket_reaches_technician_witness :
  ∃ r tickets,
    GetMyTickets (λ _ _, false) (λ _, true) (Some 202%N)
      (AssignTechnicianToTicketAsync 3%N 20 sampleDb).2 = Ok tickets ∧
    r ∈ tickets ∧ TicketResponse.Id r = 3%N.
Proof.
  destruct (assigned_ticket_reaches_technician (λ _ _, false) (λ _, true) 3%N 20 sampleDb
              (AssignTechnicianToTicketAsync 3%N 20 sampleDb).2 12%N)
    as (technician & linked & r & tickets & Htech & Hu & Hlist & Hin & Hid & _).
  - vm_compute; reflexivity.
  - assert (Hb : Some technician = Some (sampleTechnician true (Some 202%N)))
      by (rewrite <- Htech; vm_compute; reflexivity).
    injection Hb as ->. injection Hu as <-.
    exists r, tickets. by repeat split.
Defined.

(** *** What no operation changes *)

Lemma keepsTickets_refl m : keepsTickets m m.
Proof. intros id ticket Ht. exists ticket. by repeat split. Qed.

Lemma keepsTickets_trans m1 m2 m3 :
  keepsTickets m1 m2 → keepsTickets m2 m3 → keepsTickets m1 m3.
Proof.
  intros H12 H23 id ticket Ht.
  destruct (H12 _ _ Ht) as (t2 & Ht2 & (? & ? & ? & ? & ?)).
  destruct (H23 _ _ Ht2) as (t3 & Ht3 & (? & ? & ? & ? & ?)).
  exists t3. split; [done|]. repeat split; congruence.
Qed.

Lemma keepsTickets_insert m id ticket ticket' :
  m !! id = Some ticket → sameIdentity ticket ticket' →
  keepsTickets m (<[id := ticket']> m).
Proof.
  intros Ht Hsame i k Hk. destruct (decide (i = id)) as [->|Hne].
  - rewrite lookup_insert_eq. exists ticket'. split; [done|]. congruence.
  - rewrite lookup_insert_ne by done. exists k. split; [done|]. by repeat split.
Qed.

Lemma sameIdentity_applyUpdate role request now ticket :
  sameIdentity ticket (applyUpdate role request now ticket).
Proof.
  unfold applyUpdate.
  destruct role, request as [[d|] [p|] [[]|] [u|] due]; by repeat split.
Qed.

Lemma sameIdentity_applyMessageStatus role status ticket ticket' :
  applyMessageStatus role status ticket = inr ticket' → sameIdentity ticket ticket'.
Proof. intros [-> | (s & _ & ->)]%applyMessageStatus_frame; by repeat split. Qed.

Lemma keepsTickets_assign reread ticketId now db :
  keepsTickets (Tickets db)
    (Tickets (AssignTechnicianToTicketAsync_reread reread ticketId now db).2).
Proof.
  destruct (AssignTechnicianToTicketAsync_reread reread ticketId now db)
    as [[chosen|] db'] eqn:E; simpl.
  - apply assign_Some in E as (k & n & technician & userId & Hk & _ & _ & _ & _ & ->).
    simpl. eapply keepsTickets_insert; [done|]. by repeat split.
  - apply assign_None in E as ->. apply keepsTickets_refl.
Qed.

Lemma keepsTickets_assignEach clock ids assignedCount db :
  keepsTickets (Tickets db) (Tickets (assignEach clock ids assignedCount db).2).
Proof.
  revert assignedCount db.
  induction ids as [|i ids IH]; intros assignedCount db; simpl;
    [apply keepsTickets_refl|].
  pose proof (keepsTickets_assign (Technicians db) i (clock i) db) as Hstep.
  rewrite assign_as_reread.
  destruct (AssignTechnicianToTicketAsync_reread (Technicians db) i (clock i) db)
    as [[chosen|] db']; simpl in Hstep;
    (eapply keepsTickets_trans; [exact Hstep | apply IH]).
Qed.

(** X7.  No operation removes a ticket or changes its title, category,
    subcategory, creator or creation time: not the update, the message, the
    admin assignment, the smart assignment of one ticket or of a batch, nor
    the creation of a ticket under a free id. *)
Theorem ticket_identity_is_kept :
  (∀ id userId role request now db,
     keepsTickets (Tickets db) (Tickets (UpdateTicketAsync id userId role request now db).2)) ∧
  (∀ ticketId authorId message status newId now now' db,
     keepsTickets (Tickets db)
       (Tickets (persisted db
                   (AddMessageAsync ticketId authorId message status newId now now' db)))) ∧
  (∀ id technicianId now db,
     keepsTickets (Tickets db) (Tickets (AssignTicketAsync id technicianId now db).2)) ∧
  (∀ ticketId now db,
     keepsTickets (Tickets db)
       (Tickets (AssignTechnicianToTicketAsync ticketId now db).2)) ∧
  (∀ reread ticketId now db,
     keepsTickets (Tickets db)
       (Tickets (AssignTechnicianToTicketAsync_reread reread ticketId now db).2)) ∧
  (∀ startDate endDate clock db,
     keepsTickets (Tickets db)
       (Tickets (AssignUnassignedTicketsAsync startDate endDate clock db).2)) ∧
  (∀ userId request newId now db,
     Tickets db !! newId = None →
     keepsTickets (Tickets db) (Tickets (CreateTicketAsync userId request newId now db).2)).
Proof.
  repeat split.
  - intros id userId role request now db. unfold UpdateTicketAsync.
    destruct (Tickets db !! id) as [ticket|] eqn:Ht; [|apply keepsTickets_refl].
    repeat case_decide; try apply keepsTickets_refl. simpl.
    eapply keepsTickets_insert; [done | apply sameIdentity_applyUpdate].
  - intros ticketId authorId message status newId now now' db. unfold AddMessageAsync.
    destruct (Tickets db !! ticketId) as [ticket|] eqn:Ht; [|apply keepsTickets_refl].
    destruct (Users db !! authorId) as [author|]; [|apply keepsTickets_refl].
    repeat case_decide; try apply keepsTickets_refl.
    destruct (applyMessageStatus (User.Role author) status ticket) as [e|k] eqn:E;
      [apply keepsTickets_refl|].
    simpl. eapply keepsTickets_insert; [done|].
    apply sameIdentity_applyMessageStatus in E. destruct E as (? & ? & ? & ? & ?).
    by repeat split.
  - intros id technicianId now db. unfold AssignTicketAsync.
    destruct (Tickets db !! id) as [ticket|] eqn:Ht; [|apply keepsTickets_refl].
    destruct (Technicians db !! technicianId) as [technician|]; [|apply keepsTickets_refl].
    destruct (Technician.IsActive technician); [|apply keepsTickets_refl]. simpl.
    eapply keepsTickets_insert; [done|]. by repeat split.
  - intros. rewrite assign_as_reread. apply keepsTickets_assign.
  - intros. apply keepsTickets_assign.
  - intros. apply keepsTickets_assignEach.
  - intros userId request newId now db Hfresh id ticket Ht.
    unfold CreateTicketAsync. simpl.
    rewrite lookup_insert_ne by congruence. exists ticket. by repeat split.
Qed.

(** *** The notification of a message *)

(** X8.  A call of [AddMessageAsync] that returns a message leaves exactly
    one more notification: for the ticket's creator when the author is the
    assigned account, otherwise for the assigned account, and for the
    creator when nobody is assigned.  A call that returns null has changed
    nothing at all. *)
Theorem message_notifies_other_party
    (ticketId authorId : Guid) (message : string) (status : option TicketStatus.t)
    (newId : Guid) (now now' : DateTime) (db : Db) :
  match AddMessageAsync ticketId authorId message status newId now now' db with
  | Returned (Some dto) db' =>
      ∃ ticket text,
        Tickets db !! ticketId = Some ticket ∧
        Notifications db' =
          Notifications db ++
          [(match Ticket.AssignedToUserId ticket with
            | Some assigned =>
                if decide (assigned = authorId) then Ticket.CreatedByUserId ticket
                else assigned
            | None => Ticket.CreatedByUserId ticket
            end, text)]
  | Returned None db' => db' = db
  | Thrown _ => True
  end.
Proof.
  destruct (AddMessageAsync ticketId authorId message status newId now now' db)
    as [[dto|] db'|e] eqn:E; [| |done].
  - apply AddMessageAsync_Returned_Some in E
      as (ticket & author & ticket' & stored & recipient
          & Ht & _ & _ & _ & Happly & _ & -> & -> & _).
    apply applyMessageStatus_refs in Happly as (-> & _ & -> & _).
    exists ticket. eexists. split; [done|]. simpl. do 3 f_equal.
    destruct (Ticket.AssignedToUserId ticket) as [assigned|]; simpl; [|done].
    repeat case_decide; congruence.
  - revert E. unfold AddMessageAsync.
    destruct (Tickets db !! ticketId) as [ticket|]; [|by intros [= <-]].
    destruct (Users db !! authorId) as [author|] eqn:Hu; [|by intros [= <-]].
    repeat case_decide; try by intros [= <-].
    destruct (applyMessageStatus (User.Role author) status ticket); [done|].
    simpl. rewrite lookup_insert_eq. simpl. rewrite Hu. done.
Qed.

(** *** A whole run of [AssignUnassignedTicketsAsync] *)

Lemma isCandidate_same_Technicians db db' c :
  Technicians db' = Technicians db → isCandidate db c → isCandidate db' c.
Proof. unfold isCandidate. by intros ->. Qed.

Lemma assign_succeeds ticketId now db ticket c :
  Tickets db !! ticketId = Some ticket →
  Ticket.TechnicianId ticket = None →
  isCandidate db c →
  ∃ chosen userId,
    AssignTechnicianToTicketAsync ticketId now db =
    (Some chosen,
     with_Tickets (<[ticketId := assignedTicket chosen userId now ticket]> (Tickets db)) db).
Proof.
  intros Ht Hnull Hc.
  pose proof (eligibleTechnicians_nonempty _ _ Hc) as Hne.
  destruct (selectedTechnician_is_Some _ Hne) as [[chosen n] Hsel].
  destruct (selectedTechnician_least _ _ Hsel) as [Hin _].
  apply elem_of_technicianLoads in Hin as [(technician & Hlook & _ & Hlinked) _].
  destruct (Technician.UserId technician) as [userId|] eqn:Hu; [|done].
  exists chosen, userId.
  unfold AssignTechnicianToTicketAsync.
  rewrite Ht, Hnull. rewrite decide_False by (intros H; by apply H).
  rewrite (decide_False _ _ Hne), Hsel. simpl. by rewrite Hlook, Hu.
Qed.

Lemma assign_origin reread ticketId now db id ticket' :
  Tickets (AssignTechnicianToTicketAsync_reread reread ticketId now db).2 !! id
  = Some ticket' →
  ∃ ticket,
    Tickets db !! id = Some ticket ∧
    Ticket.CreatedAt ticket' = Ticket.CreatedAt ticket ∧
    (Ticket.TechnicianId ticket' = None → Ticket.TechnicianId ticket = None).
Proof.
  destruct (AssignTechnicianToTicketAsync_reread reread ticketId now db)
    as [[chosen|] db'] eqn:E; simpl.
  - apply assign_Some in E as (k & n & technician & userId & Hk & Hnull & _ & _ & _ & ->).
    simpl. destruct (decide (id = ticketId)) as [->|Hne].
    + rewrite lookup_insert_eq. intros [= <-]. by exists k.
    + rewrite lookup_insert_ne by done. intros Ht. by exists ticket'.
  - apply assign_None in E as ->. intros Ht. by exists ticket'.
Qed.

Lemma assignEach_origin clock ids assignedCount db id ticket' :
  Tickets (assignEach clock ids assignedCount db).2 !! id = Some ticket' →
  ∃ ticket,
    Tickets db !! id = Some ticket ∧
    Ticket.CreatedAt ticket' = Ticket.CreatedAt ticket ∧
    (Ticket.TechnicianId ticket' = None → Ticket.TechnicianId ticket = None).
Proof.
  revert assignedCount db.
  induction ids as [|i ids IH]; intros assignedCount db; simpl.
  { intros Ht. by exists ticket'. }
  pose proof (assign_origin (Technicians db) i (clock i) db id) as Hstep.
  rewrite assign_as_reread.
  destruct (AssignTechnicianToTicketAsync_reread (Technicians db) i (clock i) db)
    as [[chosen|] db']; simpl in Hstep; intros Ht;
    apply IH in Ht as (k & Hk & Hc & Hn);
    apply Hstep in Hk as (ticket & Hticket & Hc' & Hn');
    exists ticket; (split; [done|]); (split; [congruence | tauto]).
Qed.

Lemma assignEach_all clock ids assignedCount db c :
  isCandidate db c →
  NoDup ids →
  (∀ id, id ∈ ids →
     ∃ ticket, Tickets db !! id = Some ticket ∧ Ticket.TechnicianId ticket = None) →
  (assignEach clock ids assignedCount db).1 = (assignedCount + length ids)%nat ∧
  (∀ id, id ∈ ids →
     ∃ ticket', Tickets (assignEach clock ids assignedCount db).2 !! id = Some ticket' ∧
                Ticket.TechnicianId ticket' ≠ None).
Proof.
  revert assignedCount db.
  induction ids as [|i ids IH]; intros assignedCount db Hc Hnodup Hun; simpl.
  { split; [lia|]. by intros id ?%elem_of_nil. }
  apply NoDup_cons in Hnodup as [Hi Hnodup].
  destruct (Hun i) as (ticket & Ht & Hnull); [by left|].
  destruct (assign_succeeds i (clock i) db ticket c Ht Hnull Hc) as (chosen & userId & ->).
  set (db1 := with_Tickets (<[i := assignedTicket chosen userId (clock i) ticket]> (Tickets db)) db).
  destruct (IH (S assignedCount) db1) as [Hcount Hassigned].
  - by apply (isCandidate_same_Technicians db).
  - done.
  - intros id Hin. destruct (Hun id) as (k & Hk & Hknull); [by right|].
    exists k. split; [|done]. subst db1. simpl.
    rewrite lookup_insert_ne; [done|]. by intros ->.
  - split; [lia|]. intros id [-> | Hin]%elem_of_cons; [|by apply Hassigned].
    exists (assignedTicket chosen userId (clock i) ticket). split; [|done].
    apply assignEach_keeps_assigned; [|done]. subst db1. simpl. apply lookup_insert_eq.
Qed.

Lemma elem_of_unassignedTickets startDate endDate db id ticket :
  (id, ticket) ∈ unassignedTickets startDate endDate db ↔
  Tickets db !! id = Some ticket ∧ isUnassignedIn startDate endDate (id, ticket).
Proof.
  unfold unassignedTickets. rewrite list_elem_of_filter, elem_of_map_to_list. tauto.
Qed.

Lemma unassignedTickets_NoDup startDate endDate db :
  NoDup (unassignedTickets startDate endDate db).*1.
Proof.
  eapply sublist_NoDup; [apply (NoDup_fst_map_to_list (Tickets db))|].
  apply fmap_sublist, sublist_filter.
Qed.

Lemma assignEach_nothing clock ids db :
  (∀ id, id ∈ ids → AssignTechnicianToTicketAsync id (clock id) db = (None, db)) →
  assignEach clock ids 0 db = (0%nat, db).
Proof.
  induction ids as [|i ids IH]; intros Hnone; simpl; [done|].
  rewrite Hnone by (by left). apply IH. intros id Hin. apply Hnone. by right.
Qed.

Lemma AssignUnassignedTicketsAsync_all
    (startDate endDate : option DateTime) (clock : Guid → DateTime) (db : Db) :
  (∃ c, isCandidate db c) →
  (AssignUnassignedTicketsAsync startDate endDate clock db).1
  = length (unassignedTickets startDate endDate db) ∧
  unassignedTickets startDate endDate
    (AssignUnassignedTicketsAsync startDate endDate clock db).2 = [].
Proof.
  intros [c Hc]. unfold AssignUnassignedTicketsAsync.
  destruct (assignEach_all clock (unassignedTickets startDate endDate db).*1 0 db c)
    as [Hcount Hassigned]; [done | apply unassignedTickets_NoDup | |].
  { intros id ([id' ticket] & -> & Hin)%list_elem_of_fmap. simpl.
    apply elem_of_unassignedTickets in Hin as [Ht [Hnull _]]. by exists ticket. }
  split; [by rewrite Hcount, length_fmap|].
  match goal with |- ?l = [] => destruct l as [|[id ticket'] rest] eqn:E end; [done|].
  exfalso.
  assert (Hin : (id, ticket') ∈ unassignedTickets startDate endDate
                  (assignEach clock (unassignedTickets startDate endDate db).*1 0 db).2)
    by (rewrite E; by left).
  apply elem_of_unassignedTickets in Hin as [Ht' (Hnull' & Hs & He)]. simpl in *.
  destruct (assignEach_origin _ _ _ _ _ _ Ht') as (ticket & Ht & Hc' & Hnull).
  destruct (Hassigned id) as (k & Hk & Hknull).
  - apply list_elem_of_fmap. exists (id, ticket). split; [done|].
    apply elem_of_unassignedTickets. split; [done|].
    unfold isUnassignedIn. simpl. rewrite <- Hc'. auto.
  - congruence.
Qed.

Lemma AssignUnassignedTicketsAsync_none
    (startDate endDate : option DateTime) (clock : Guid → DateTime) (db : Db) :
  eligibleTechnicians db = [] →
  AssignUnassignedTicketsAsync startDate endDate clock db = (0%nat, db).
Proof.
  intros Hnone. apply assignEach_nothing. intros id _.
  unfold AssignTechnicianToTicketAsync.
  destruct (Tickets db !! id); [|done]. case_decide; [done|]. by rewrite Hnone.
Qed.

(** X9.  With at least one active technician that has a linked account, a
    run of [AssignUnassignedTicketsAsync] assigns every unassigned ticket of
    the date range: the count it returns is their number and none of them
    is left. *)
Theorem assignBatch_assigns_all
    (startDate endDate : option DateTime) (clock : Guid → DateTime) (db : Db) :
  (∃ c, isCandidate db c) →
  (AssignUnassignedTicketsAsync startDate endDate clock db).1
  = length (unassignedTickets startDate endDate db) ∧
  unassignedTickets startDate endDate
    (AssignUnassignedTicketsAsync startDate endDate clock db).2 = [].
Proof. apply AssignUnassignedTicketsAsync_all. Qed.

Lemma assignBatch_assigns_all_witness :
  (AssignUnassignedTicketsAsync None None (λ _, 20) sampleDb).1 = 3%nat ∧
  unassignedTickets None None
    (AssignUnassignedTicketsAsync None None (λ _, 20) sampleDb).2 = [].
Proof.
  destruct (assignBatch_assigns_all None None (λ _, 20) sampleDb) as [Hcount Hnone].
  - exists 11%N. exact sample_candidate_A.
  - split; [|exact Hnone]. rewrite Hcount. vm_compute. reflexivity.
Defined.

(** X10.  With no technician that is both active and linked, a run assigns
    nothing: it returns zero and leaves the tables as they were. *)
Theorem assignBatch_without_candidates
    (startDate endDate : option DateTime) (clock : Guid → DateTime) (db : Db) :
  eligibleTechnicians db = [] →
  AssignUnassignedTicketsAsync startDate endDate clock db = (0%nat, db).
Proof. apply AssignUnassignedTicketsAsync_none. Qed.

Lemma assignBatch_without_candidates_witness :
  AssignUnassignedTicketsAsync None None (λ _, 20) sampleDbOnlyUnlinked
  = (0%nat, sampleDbOnlyUnlinked).
Proof.
  apply (assignBatch_without_candidates None None (λ _, 20) sampleDbOnlyUnlinked).
  vm_compute. reflexivity.
Defined.

(** X11.  A second run over the same date range, straight after the first,
    returns zero and changes nothing. *)
Theorem assignBatch_second_run_is_empty
    (startDate endDate : option DateTime) (clock clock' : Guid → DateTime) (db : Db) :
  let first := AssignUnassignedTicketsAsync startDate endDate clock db in
  AssignUnassignedTicketsAsync startDate endDate clock' first.2 = (0%nat, first.2).
Proof.
  intros first.
  destruct (eligibleTechnicians db) as [|[c technician] rest] eqn:E.
  - subst first. rewrite (AssignUnassignedTicketsAsync_none startDate endDate clock db E).
    by apply AssignUnassignedTicketsAsync_none.
  - assert (Hc : isCandidate db c).
    { exists technician. apply elem_of_eligibleTechnicians. rewrite E. by left. }
    destruct (AssignUnassignedTicketsAsync_all startDate endDate clock db (ex_intro _ c Hc))
      as [_ Hempty].
    unfold AssignUnassignedTicketsAsync at 1. subst first. by rewrite Hempty.
Qed.

(** *** What a role may change through [UpdateTicketAsync] *)

Lemma applyUpdate_Description role request now ticket :
  Ticket.Description (applyUpdate role request now ticket) =
  match role with
  | UserRole.Technician => Ticket.Description ticket
  | _ => default (Ticket.Description ticket) (TicketUpdateRequest.Description request)
  end.
Proof.
  unfold applyUpdate.
  destruct role, request as [[d|] [p|] [[]|] [u|] due]; reflexivity.
Qed.

Lemma applyUpdate_Priority role request now ticket :
  Ticket.Priority (applyUpdate role request now ticket) =
  match role with
  | UserRole.Technician => Ticket.Priority ticket
  | _ => default (Ticket.Priority ticket) (TicketUpdateRequest.Priority request)
  end.
Proof.
  unfold applyUpdate.
  destruct role, request as [[d|] [p|] [[]|] [u|] due]; reflexivity.
Qed.

Lemma applyUpdate_Status role request now ticket :
  Ticket.Status (applyUpdate role request now ticket) =
  match role, TicketUpdateRequest.Status request with
  | UserRole.Client, Some TicketStatus.WaitingForClient => TicketStatus.WaitingForClient
  | UserRole.Client, Some TicketStatus.Closed => TicketStatus.Closed
  | UserRole.Client, _ => Ticket.Status ticket
  | _, Some s => s
  | _, None => Ticket.Status ticket
  end.
Proof.
  unfold applyUpdate.
  destruct role, request as [[d|] [p|] [[]|] [u|] due]; reflexivity.
Qed.

(** X12.  Whatever the patch asks for, [UpdateTicketAsync] by a technician
    leaves description, priority, assigned account and due date as they
    were; by a client it leaves the assigned account and the due date, and
    moves the status to [WaitingForClient] or [Closed] or not at all.  No
    role changes [TechnicianId]. *)
Theorem update_permissions
    (id userId : Guid) (role : UserRole.t) (request : TicketUpdateRequest.t)
    (now : DateTime) (db : Db) (ticket : Ticket.t) :
  Tickets db !! id = Some ticket →
  ∃ ticket',
    Tickets (UpdateTicketAsync id userId role request now db).2 !! id = Some ticket' ∧
    Ticket.TechnicianId ticket' = Ticket.TechnicianId ticket ∧
    (role = UserRole.Technician →
       Ticket.Description ticket' = Ticket.Description ticket ∧
       Ticket.Priority ticket' = Ticket.Priority ticket ∧
       Ticket.AssignedToUserId ticket' = Ticket.AssignedToUserId ticket ∧
       Ticket.DueDate ticket' = Ticket.DueDate ticket) ∧
    (role = UserRole.Client →
       Ticket.AssignedToUserId ticket' = Ticket.AssignedToUserId ticket ∧
       Ticket.DueDate ticket' = Ticket.DueDate ticket ∧
       (Ticket.Status ticket' = Ticket.Status ticket ∨
        Ticket.Status ticket' = TicketStatus.WaitingForClient ∨
        Ticket.Status ticket' = TicketStatus.Closed)).
Proof.
  intros Ht. eexists. split; [by apply UpdateTicketAsync_lookup|].
  destruct (decide (notOwnTicket role userId ticket)); [by auto 10|].
  destruct (decide (notAssignedTicket role userId ticket)); [by auto 10|].
  rewrite applyUpdate_TechnicianId, applyUpdate_Description, applyUpdate_Priority,
    applyUpdate_AssignedToUserId, applyUpdate_DueDate, applyUpdate_Status.
  split; [done|]. split; intros ->; [done|].
  split; [done|]. split; [done|].
  destruct (TicketUpdateRequest.Status request) as [[]|]; auto.
Qed.

Lemma update_permissions_witness :
  ∃ ticket',
    Tickets (UpdateTicketAsync 1%N 201%N UserRole.Technician
               {| TicketUpdateRequest.Description := Some "rewritten";
                  TicketUpdateRequest.Priority := Some TicketPriority.Low;
                  TicketUpdateRequest.Status := Some TicketStatus.Resolved;
                  TicketUpdateRequest.AssignedToUserId := Some 202%N;
                  TicketUpdateRequest.DueDate := None |} 20 sampleDb).2 !! 1%N
    = Some ticket' ∧
    Ticket.Description ticket' = "Cannot connect to VPN" ∧
    Ticket.DueDate ticket' = Some 99.
Proof.
  destruct (update_permissions 1%N 201%N UserRole.Technician
              {| TicketUpdateRequest.Description := Some "rewritten";
                 TicketUpdateRequest.Priority := Some TicketPriority.Low;
                 TicketUpdateRequest.Status := Some TicketStatus.Resolved;
                 TicketUpdateRequest.AssignedToUserId := Some 202%N;
                 TicketUpdateRequest.DueDate := None |} 20 sampleDb
              (sampleTicket TicketStatus.New (Some 201%N) (Some 11%N)))
    as (ticket' & Hk & _ & Htech & _).
  - vm_compute; reflexivity.
  - destruct (Htech eq_refl) as (Hd & _ & _ & Hdue).
    exists ticket'. split; [exact Hk|]. split; [exact Hd | exact Hdue].
Defined.

(** X13.  The owner of a ticket can close it with [UpdateTicketAsync]: a
    patch with status [Closed] from the client who created the ticket is
    stored and returned, whatever the status was, although the same client
    is refused that status by [AddMessageAsync]. *)
Theorem client_can_close_with_update
    (id userId : Guid) (request : TicketUpdateRequest.t) (now : DateTime)
    (db : Db) (ticket : Ticket.t) :
  Tickets db !! id = Some ticket →
  Ticket.CreatedByUserId ticket = userId →
  TicketUpdateRequest.Status request = Some TicketStatus.Closed →
  ∃ r ticket',
    (UpdateTicketAsync id userId UserRole.Client request now db).1 = Some r ∧
    TicketResponse.Status r = TicketStatus.Closed ∧
    Tickets (UpdateTicketAsync id userId UserRole.Client request now db).2 !! id
    = Some ticket' ∧
    Ticket.Status ticket' = TicketStatus.Closed.
Proof.
  intros Ht Hown Hs. unfold UpdateTicketAsync. rewrite Ht.
  rewrite decide_False by (unfold notOwnTicket; tauto).
  rewrite decide_False by (unfold notAssignedTicket; intros [[=] _]).
  simpl. unfold GetTicketAsync. simpl. rewrite lookup_insert_eq.
  assert (Hc : Ticket.CreatedByUserId (applyUpdate UserRole.Client request now ticket)
               = userId).
  { destruct (sameIdentity_applyUpdate UserRole.Client request now ticket)
      as (_ & _ & _ & <- & _). done. }
  rewrite decide_False by (unfold notOwnTicket; tauto).
  eexists _, _. split; [reflexivity|].
  split.
  { change (Ticket.Status (applyUpdate UserRole.Client request now ticket)
            = TicketStatus.Closed).
    by rewrite applyUpdate_Status, Hs. }
  split; [reflexivity|]. by rewrite applyUpdate_Status, Hs.
Qed.

Lemma client_can_close_with_update_witness :
  ∃ r,
    (UpdateTicketAsync 3%N 100%N UserRole.Client
       {| TicketUpdateRequest.Description := None;
          TicketUpdateRequest.Priority := None;
          TicketUpdateRequest.Status := Some TicketStatus.Closed;
          TicketUpdateRequest.AssignedToUserId := None;
          TicketUpdateRequest.DueDate := None |} 20 sampleDb).1 = Some r ∧
    TicketResponse.Status r = TicketStatus.Closed.
Proof.
  destruct (client_can_close_with_update 3%N 100%N
              {| TicketUpdateRequest.Description := None;
                 TicketUpdateRequest.Priority := None;
                 TicketUpdateRequest.Status := Some TicketStatus.Closed;
                 TicketUpdateRequest.AssignedToUserId := None;
                 TicketUpdateRequest.DueDate := None |} 20 sampleDb
              (sampleTicket TicketStatus.New None None))
    as (r & ticket' & Hr & Hs & _).
  - vm_compute; reflexivity.
  - reflexivity.
  - reflexivity.
  - exists r. split; [exact Hr | exact Hs].
Defined.

(** *** The admin assignment *)

(** X14.  [AssignTicketAsync] returns null and changes nothing when the
    technician is missing or inactive.  For an active technician it
    overwrites whatever assignment and status the ticket had: the ticket is
    stored [InProgress] under that technician, with the technician's linked
    account as the assigned account. *)
Theorem admin_assign_outcome
    (id technicianId : Guid) (now : DateTime) (db : Db) (ticket : Ticket.t) :
  Tickets db !! id = Some ticket →
  match Technicians db !! technicianId with
  | Some technician =>
      if Technician.IsActive technician then
        ∃ r ticket',
          (AssignTicketAsync id technicianId now db).1 = Some r ∧
          Tickets (AssignTicketAsync id technicianId now db).2 !! id = Some ticket' ∧
          Ticket.Status ticket' = TicketStatus.InProgress ∧
          Ticket.TechnicianId ticket' = Some technicianId ∧
          Ticket.AssignedToUserId ticket' = Technician.UserId technician ∧
          Ticket.UpdatedAt ticket' = Some now ∧
          TicketResponse.Status r = TicketStatus.InProgress ∧
          TicketResponse.AssignedToUserId r = Technician.UserId technician
      else AssignTicketAsync id technicianId now db = (None, db)
  | None => AssignTicketAsync id technicianId now db = (None, db)
  end.
Proof.
  intros Ht. unfold AssignTicketAsync. rewrite Ht.
  destruct (Technicians db !! technicianId) as [technician|]; [|done].
  destruct (Technician.IsActive technician); [|done]. simpl.
  unfold GetTicketAsync. simpl. rewrite lookup_insert_eq.
  eexists _, _. repeat split; reflexivity.
Qed.

Lemma admin_assign_outcome_witness :
  ∃ ticket',
    Tickets (AssignTicketAsync 1%N 12%N 20 sampleDb).2 !! 1%N = Some ticket' ∧
    Ticket.TechnicianId ticket' = Some 12%N ∧
    Ticket.AssignedToUserId ticket' = Some 202%N.
Proof.
  pose proof (admin_assign_outcome 1%N 12%N 20 sampleDb
                (sampleTicket TicketStatus.New (Some 201%N) (Some 11%N))) as H.
  assert (Hb : Technicians sampleDb !! 12%N = Some (sampleTechnician true (Some 202%N)))
    by (vm_compute; reflexivity).
  rewrite Hb in H. simpl in H.
  destruct H as (r & ticket' & _ & Hk & _ & Ht & Ha & _).
  - vm_compute; reflexivity.
  - exists ticket'. split; [exact Hk|]. split; [exact Ht | exact Ha].
Defined.

(** *** The link between a technician and an account *)

Lemma assign_chooses_candidate ticketId now db chosen db' :
  AssignTechnicianToTicketAsync ticketId now db = (Some chosen, db') →
  isCandidate db chosen.
Proof.
  intros (_ & n & _ & _ & _ & _ & Hsel & _)%assign_Some.
  apply selectedTechnician_least in Hsel as [Hin _].
  by apply elem_of_technicianLoads in Hin as [? _].
Qed.

(** X15.  [LinkUserAsync] answers [Success] exactly when the technician
    exists and has no linked account and the user exists with the
    technician role.  It then stores the user's id on that row and changes
    nothing else; with any other answer it changes nothing and returns no
    technician. *)
Theorem link_user_outcome
    (technicianId userId : Guid) (users : gmap Guid User.t)
    (rows : gmap Guid TechnicianRow.t) :
  let call := TechnicianService.LinkUserAsync technicianId userId users rows in
  (call.1.1 = LinkUserResult.Success ↔
   ∃ row user,
     rows !! technicianId = Some row ∧
     Technician.UserId (TechnicianRow.Core row) = None ∧
     users !! userId = Some user ∧
     User.Role user = UserRole.Technician) ∧
  (∀ row, rows !! technicianId = Some row → call.1.1 = LinkUserResult.Success →
     call.2 = <[technicianId := TechnicianRow.set_UserId (Some userId) row]> rows ∧
     call.1.2 = Some (TechnicianService.MapToResponse technicianId
                        (TechnicianRow.set_UserId (Some userId) row))) ∧
  (call.1.1 ≠ LinkUserResult.Success → call.2 = rows ∧ call.1.2 = None).
Proof.
  intros call. subst call. unfold TechnicianService.LinkUserAsync.
  destruct (rows !! technicianId) as [row|] eqn:Hrow.
  2:{ split; [|by split]. split; [done|]. by intros (? & ? & [=] & _). }
  destruct (Technician.UserId (TechnicianRow.Core row)) as [u|] eqn:Hu.
  { split; [|by split]. split; [done|]. intros (? & ? & [= <-] & ? & _). congruence. }
  destruct (users !! userId) as [user|] eqn:Huser.
  2:{ split; [|by split]. split; [done|]. by intros (? & ? & _ & _ & [=] & _). }
  destruct (decide (User.Role user ≠ UserRole.Technician)) as [Hrole|Hrole].
  { split; [|by split]. split; [done|]. intros (? & ? & _ & _ & [= <-] & ?). done. }
  simpl. split; [|split].
  - split; [|done]. intros _. exists row, user. repeat split; try done.
    by destruct (decide (User.Role user = UserRole.Technician)).
  - by intros ? [= <-] _.
  - done.
Qed.

(** X16.  Once a technician has a linked account, nothing that the service
    offers changes or removes the link: not an update of the profile or of
    the status, not another call of [LinkUserAsync], which answers
    [AlreadyLinked], and not the creation of a technician under a free
    id. *)
Theorem link_is_permanent
    (rows : gmap Guid TechnicianRow.t) (id : Guid) (row : TechnicianRow.t) (u : Guid) :
  rows !! id = Some row →
  Technician.UserId (TechnicianRow.Core row) = Some u →
  let linked (rows' : gmap Guid TechnicianRow.t) :=
    ∃ row', rows' !! id = Some row' ∧
            Technician.UserId (TechnicianRow.Core row') = Some u in
  (∀ id' request, linked (TechnicianService.UpdateTechnicianAsync id' request rows).2) ∧
  (∀ id' isActive,
     linked (TechnicianService.UpdateTechnicianStatusAsync id' isActive rows).2) ∧
  (∀ technicianId userId users,
     linked (TechnicianService.LinkUserAsync technicianId userId users rows).2) ∧
  (∀ userId users,
     TechnicianService.LinkUserAsync id userId users rows
     = ((LinkUserResult.AlreadyLinked, None), rows)) ∧
  (∀ request newId now,
     rows !! newId = None →
     linked (TechnicianService.CreateTechnicianAsync request newId now rows).2).
Proof.
  intros Hrow Hu linked. subst linked. simpl.
  assert (Hsame : ∃ row', rows !! id = Some row' ∧
                          Technician.UserId (TechnicianRow.Core row') = Some u)
    by (by exists row).
  repeat split.
  - intros id' request. unfold TechnicianService.UpdateTechnicianAsync.
    destruct (rows !! id') as [row'|] eqn:Hrow'; [|done]. simpl.
    destruct (decide (id = id')) as [<-|Hne].
    + rewrite lookup_insert_eq. eexists. split; [done|]. simpl. congruence.
    + by rewrite lookup_insert_ne.
  - intros id' isActive. unfold TechnicianService.UpdateTechnicianStatusAsync.
    destruct (rows !! id') as [row'|] eqn:Hrow'; [|done]. simpl.
    destruct (decide (id = id')) as [<-|Hne].
    + rewrite lookup_insert_eq. eexists. split; [done|]. simpl. congruence.
    + by rewrite lookup_insert_ne.
  - intros technicianId userId users. unfold TechnicianService.LinkUserAsync.
    destruct (rows !! technicianId) as [row'|] eqn:Hrow'; [|done].
    destruct (Technician.UserId (TechnicianRow.Core row')) eqn:Hu'; [done|].
    destruct (users !! userId) as [user|]; [|done].
    case_decide; [done|]. simpl.
    rewrite lookup_insert_ne; [done|]. intros <-. congruence.
  - intros userId users. unfold TechnicianService.LinkUserAsync. by rewrite Hrow, Hu.
  - intros request newId now Hfresh. simpl.
    rewrite lookup_insert_ne; [done|]. intros <-. congruence.
Qed.

Lemma link_is_permanent_witness :
  TechnicianService.LinkUserAsync 11%N 202%N (Users sampleDb) sampleRows
  = ((LinkUserResult.AlreadyLinked, None), sampleRows).
Proof.
  destruct (link_is_permanent sampleRows 11%N
              (TechnicianRow.mk (sampleTechnician true (Some 201%N)) (Some "IT") 5) 201%N)
    as (_ & _ & _ & Hagain & _).
  - vm_compute; reflexivity.
  - reflexivity.
  - apply Hagain.
Defined.

(** X17.  [LinkUserAsync] does not reserve the account: two different
    technicians without a link can be linked, one after the other, to the
    same user. *)
Theorem link_does_not_reserve_the_account
    (first second userId : Guid) (users : gmap Guid User.t)
    (rows : gmap Guid TechnicianRow.t) (row1 row2 : TechnicianRow.t) (user : User.t) :
  first ≠ second →
  rows !! first = Some row1 →
  rows !! second = Some row2 →
  Technician.UserId (TechnicianRow.Core row1) = None →
  Technician.UserId (TechnicianRow.Core row2) = None →
  users !! userId = Some user →
  User.Role user = UserRole.Technician →
  let call1 := TechnicianService.LinkUserAsync first userId users rows in
  let call2 := TechnicianService.LinkUserAsync second userId users call1.2 in
  call1.1.1 = LinkUserResult.Success ∧
  call2.1.1 = LinkUserResult.Success ∧
  Technician.UserId ∘ TechnicianRow.Core <$> call2.2 !! first = Some (Some userId) ∧
  Technician.UserId ∘ TechnicianRow.Core <$> call2.2 !! second = Some (Some userId).
Proof.
  intros Hne H1 H2 Hu1 Hu2 Huser Hrole call1 call2. subst call2 call1.
  unfold TechnicianService.LinkUserAsync.
  rewrite H1, Hu1, Huser. rewrite !decide_False by (intros H; by apply H).
  simpl. rewrite lookup_insert_ne by done.
  rewrite H2, Hu2. simpl.
  rewrite !decide_False by (intros H; by apply H). simpl.
  rewrite lookup_insert_ne by done.
  by rewrite !lookup_insert_eq.
Qed.

Lemma link_does_not_reserve_the_account_witness :
  let rows := <[11%N := TechnicianRow.mk (sampleTechnician true None) None 5]> sampleRows in
  let call1 := TechnicianService.LinkUserAsync 11%N 201%N (Users sampleDb) rows in
  let call2 := TechnicianService.LinkUserAsync 14%N 201%N (Users sampleDb) call1.2 in
  call1.1.1 = LinkUserResult.Success ∧ call2.1.1 = LinkUserResult.Success.
Proof.
  intros rows call1 call2.
  destruct (link_does_not_reserve_the_account 11%N 14%N 201%N (Users sampleDb) rows
              (TechnicianRow.mk (sampleTechnician true None) None 5)
              (TechnicianRow.mk (sampleTechnician true None) (Some "IT") 5)
              (sampleUser UserRole.Technician))
    as (Hfirst & Hsecond & _).
  - intros [=].
  - vm_compute; reflexivity.
  - vm_compute; reflexivity.
  - reflexivity.
  - reflexivity.
  - vm_compute; reflexivity.
  - reflexivity.
  - split; [exact Hfirst | exact Hsecond].
Defined.

(** *** Technicians and the assignment *)

(** X18.  A technician just created by [CreateTechnicianAsync] is never the
    one that [AssignTechnicianToTicketAsync] chooses.  Once it is active
    and [LinkUserAsync] has succeeded on it, it is one of the technicians
    the assignment chooses from. *)
Theorem new_technician_needs_a_link
    (request : TechnicianRequest.t) (newId : Guid) (now : DateTime)
    (rows : gmap Guid TechnicianRow.t) (db : Db) :
  let created := (TechnicianService.CreateTechnicianAsync request newId now rows).2 in
  (∀ ticketId now',
     (AssignTechnicianToTicketAsync ticketId now' (withTechnicianRows created db)).1
     ≠ Some newId) ∧
  (∀ userId users,
     TechnicianRequest.IsActive request = true →
     (TechnicianService.LinkUserAsync newId userId users created).1.1
     = LinkUserResult.Success →
     isCandidate
       (withTechnicianRows (TechnicianService.LinkUserAsync newId userId users created).2 db)
       newId).
Proof.
  intros created. subst created. simpl. split.
  - intros ticketId now' Hchosen.
    destruct (AssignTechnicianToTicketAsync ticketId now' _) as [chosen db'] eqn:E.
    simpl in Hchosen. subst chosen.
    apply assign_chooses_candidate in E as (technician & Hlook & _ & Hlinked).
    simpl in Hlook. rewrite lookup_fmap, lookup_insert_eq in Hlook.
    by injection Hlook as <-.
  - intros userId users Hactive.
    unfold TechnicianService.LinkUserAsync. rewrite lookup_insert_eq. simpl.
    destruct (users !! userId) as [user|]; [|done].
    case_decide; [done|]. simpl. intros _.
    unfold isCandidate. simpl. rewrite lookup_fmap, lookup_insert_eq. simpl.
    eexists. split; [done|]. by split.
Qed.

Lemma new_technician_needs_a_link_witness :
  let created :=
    (TechnicianService.CreateTechnicianAsync (sampleTechnicianRequest true)
       15%N 7 sampleRows).2 in
  isCandidate
    (withTechnicianRows
       (TechnicianService.LinkUserAsync 15%N 202%N (Users sampleDb) created).2 sampleDb)
    15%N.
Proof.
  intros created.
  destruct (new_technician_needs_a_link (sampleTechnicianRequest true) 15%N 7
              sampleRows sampleDb) as [_ Hlink].
  apply (Hlink 202%N (Users sampleDb)).
  - reflexivity.
  - vm_compute; reflexivity.
Defined.

(** X19.  [UpdateTechnicianStatusAsync] on a missing technician answers
    false and changes nothing.  On an existing one it answers true,
    [IsTechnicianActiveAsync] then gives the status that was set, and the
    link to an account is untouched.  A technician set inactive is not
    chosen by [AssignTechnicianToTicketAsync] and is refused by
    [AssignTicketAsync]. *)
Theorem technician_status_takes_effect
    (id : Guid) (isActive : bool) (rows : gmap Guid TechnicianRow.t) (db : Db) :
  let call := TechnicianService.UpdateTechnicianStatusAsync id isActive rows in
  match rows !! id with
  | None => call = (false, rows) ∧ TechnicianService.IsTechnicianActiveAsync id rows = false
  | Some row =>
      call.1 = true ∧
      TechnicianService.IsTechnicianActiveAsync id call.2 = isActive ∧
      Technician.UserId ∘ TechnicianRow.Core <$> call.2 !! id
      = Some (Technician.UserId (TechnicianRow.Core row)) ∧
      (isActive = false →
       ∀ ticketId now,
         (AssignTechnicianToTicketAsync ticketId now (withTechnicianRows call.2 db)).1
         ≠ Some id ∧
         AssignTicketAsync ticketId id now (withTechnicianRows call.2 db)
         = (None, withTechnicianRows call.2 db))
  end.
Proof.
  intros call. subst call.
  unfold TechnicianService.UpdateTechnicianStatusAsync,
    TechnicianService.IsTechnicianActiveAsync.
  destruct (rows !! id) as [row|] eqn:Hrow; [|done]. simpl.
  rewrite lookup_insert_eq. simpl. repeat split.
  - intros Hchosen.
    destruct (AssignTechnicianToTicketAsync ticketId now _) as [chosen db'] eqn:E.
    simpl in Hchosen. subst chosen.
    apply assign_chooses_candidate in E as (technician & Hlook & Hactive & _).
    simpl in Hlook. rewrite lookup_fmap, lookup_insert_eq in Hlook.
    injection Hlook as <-. simpl in Hactive. congruence.
  - unfold AssignTicketAsync. simpl.
    destruct (Tickets db !! ticketId); [|done].
    rewrite lookup_fmap, lookup_insert_eq. simpl. by subst isActive.
Qed.

(** *** Registration, login and profile of [UserService] *)

Lemma head_unique {A} (l : list A) (x : A) :
  x ∈ l → (∀ y, y ∈ l → y = x) → head l = Some x.
Proof.
  destruct l as [|y l]; [by intros ?%elem_of_nil|].
  intros _ Hall. simpl. f_equal. apply Hall. by left.
Qed.

Section UserAccounts.
Variable ToLowerInvariant : string → string.
Variable IsWhiteSpace : string → bool.
Variable HashPassword : Guid → UserRow.t → string → string.
Variable VerifyHashedPassword :
  Guid → UserRow.t → string → string → PasswordVerificationResult.t.
Variable GenerateToken : DateTime → Guid → UserRow.t → string.
Variable initialPasswordHash : string.

#[local] Abbreviation RegisterAsync :=
  (UserService.RegisterAsync ToLowerInvariant HashPassword GenerateToken
     initialPasswordHash).
#[local] Abbreviation LoginAsync :=
  (UserService.LoginAsync ToLowerInvariant VerifyHashedPassword GenerateToken).
#[local] Abbreviation UpdateProfileAsync :=
  (UserService.UpdateProfileAsync ToLowerInvariant IsWhiteSpace).

(** The row that a successful registration stores. *)
Lemma RegisterAsync_cases request creatorRole newId now issuedAt rows :
  let call := RegisterAsync request creatorRole newId now issuedAt rows in
  match call.1 with
  | Some response =>
      ∃ role user,
        RegisterRequest.Role request = Some role ∧
        call.2 = <[newId := user]> rows ∧
        User.Role (UserRow.Core user) = role ∧
        User.Email (UserRow.Core user)
        = ToLowerInvariant (RegisterRequest.Email request) ∧
        (∃ before, UserRow.PasswordHash user
                   = HashPassword newId before (RegisterRequest.Password request)) ∧
        ¬ UserService.emailExists
            (ToLowerInvariant (RegisterRequest.Email request)) rows ∧
        (role = UserRole.Admin → rows = ∅ ∨ creatorRole = UserRole.Admin) ∧
        response = {| AuthResponse.Token := GenerateToken issuedAt newId user;
                      AuthResponse.User := Some (UserService.MapToDto newId user) |}
  | None =>
      call.2 = rows ∧
      (RegisterRequest.Role request = None ∨
       UserService.emailExists
         (ToLowerInvariant (RegisterRequest.Email request)) rows ∨
       (RegisterRequest.Role request = Some UserRole.Admin ∧
        rows ≠ ∅ ∧ creatorRole ≠ UserRole.Admin))
  end.
Proof.
  intros call. subst call. unfold UserService.RegisterAsync.
  destruct (RegisterRequest.Role request) as [role|]; [|simpl; by auto].
  destruct (decide (UserService.emailExists _ rows)) as [Hex|Hex]; [simpl; by auto|].
  destruct (decide (role = UserRole.Admin)) as [Hadmin|Hadmin];
    [rewrite (bool_decide_eq_true_2 _ Hadmin)
    |rewrite (bool_decide_eq_false_2 _ Hadmin)];
    (destruct (decide (rows = ∅)) as [Hany|Hany];
     [rewrite (bool_decide_eq_false_2 (rows ≠ ∅)) by (intros H; by apply H)
     |rewrite (bool_decide_eq_true_2 _ Hany)]);
    (destruct (decide (creatorRole = UserRole.Admin)) as [Hcreator|Hcreator];
     [rewrite (bool_decide_eq_true_2 _ Hcreator)
     |rewrite (bool_decide_eq_false_2 _ Hcreator)]); simpl.
  all: try (eexists role, _; split; [done|]; split; [done|];
            split; [done|]; split; [done|]; split; [by eexists|];
            split; [done|]; split; [|done]; intros Hr; by auto).
  split; [done|]. right. right. by subst role.
Qed.

(** X20.  [RegisterAsync] creates a user exactly when a role is given, the
    lower-cased address is not yet stored and, for the admin role, the
    table is empty or the creator is an admin.  The stored user has the
    requested role and the lower-cased address, and the response shows
    that user; otherwise nothing is stored. *)
Theorem register_outcome
    (request : RegisterRequest.t) (creatorRole : UserRole.t) (newId : Guid)
    (now issuedAt : DateTime) (rows : gmap Guid UserRow.t) :
  let call := RegisterAsync request creatorRole newId now issuedAt rows in
  (is_Some call.1 ↔
   ∃ role,
     RegisterRequest.Role request = Some role ∧
     ¬ UserService.emailExists (ToLowerInvariant (RegisterRequest.Email request)) rows ∧
     (role = UserRole.Admin → rows = ∅ ∨ creatorRole = UserRole.Admin)) ∧
  (∀ response,
     call.1 = Some response →
     ∃ user,
       call.2 = <[newId := user]> rows ∧
       RegisterRequest.Role request = Some (User.Role (UserRow.Core user)) ∧
       User.Email (UserRow.Core user) = ToLowerInvariant (RegisterRequest.Email request) ∧
       AuthResponse.User response = Some (UserService.MapToDto newId user)) ∧
  (call.1 = None → call.2 = rows).
Proof.
  intros call. subst call.
  pose proof (RegisterAsync_cases request creatorRole newId now issuedAt rows) as H.
  simpl in H.
  destruct (RegisterAsync request creatorRole newId now issuedAt rows).1 as [response|].
  - destruct H as (role & user & Hrole & Hrows & Hr & Hemail & _ & Hfree & Hadmin & ->).
    split; [|split; [|done]].
    + split; [|by eexists]. intros _. by exists role.
    + intros ? [= <-]. exists user. subst role. by repeat split.
  - destruct H as [Hrows Hwhy]. split; [|split; [done|done]].
    split; [by intros [? [=]]|].
    intros (role & Hrole & Hfree & Hadmin).
    destruct Hwhy as [Hnone | [Hex | (Hr & Hany & Hcreator)]]; [congruence | done |].
    rewrite Hrole in Hr. injection Hr as ->.
    destruct (Hadmin eq_refl); done.
Qed.

(** X21.  Self-registration creates an admin only as the very first
    user. *)
Theorem self_registered_admin_is_first_user
    (request : RegisterRequest.t) (newId : Guid) (now issuedAt : DateTime)
    (rows : gmap Guid UserRow.t) (response : AuthResponse.t) :
  (UserService.RegisterAsync_self ToLowerInvariant HashPassword GenerateToken
     initialPasswordHash request newId now issuedAt rows).1 = Some response →
  RegisterRequest.Role request = Some UserRole.Admin →
  rows = ∅.
Proof.
  unfold UserService.RegisterAsync_self. intros Hcall Hrole.
  pose proof (RegisterAsync_cases request UserRole.Client newId now issuedAt rows) as H.
  simpl in H. rewrite Hcall in H.
  destruct H as (role & user & Hr & _ & _ & _ & _ & _ & Hadmin & _).
  rewrite Hrole in Hr. injection Hr as <-.
  by destruct (Hadmin eq_refl).
Qed.

(** X22.  After a registration that succeeded, [LoginAsync] with the same
    address and password succeeds, provided the hasher accepts a password
    against its own hash.  Its response shows the user that the
    registration showed; its token is a new one, generated for the stored
    user at the time of the login. *)
Theorem login_after_register
    (request : RegisterRequest.t) (creatorRole : UserRole.t) (newId : Guid)
    (now issuedAt loginAt : DateTime) (rows : gmap Guid UserRow.t)
    (response : AuthResponse.t) :
  (∀ id before user password,
     VerifyHashedPassword id user (HashPassword id before password) password
     ≠ PasswordVerificationResult.Failed) →
  (RegisterAsync request creatorRole newId now issuedAt rows).1 = Some response →
  ∃ user,
    (RegisterAsync request creatorRole newId now issuedAt rows).2 !! newId = Some user ∧
    AuthResponse.Token response = GenerateToken issuedAt newId user ∧
    LoginAsync {| LoginRequest.Email := RegisterRequest.Email request;
                  LoginRequest.Password := RegisterRequest.Password request |}
      loginAt (RegisterAsync request creatorRole newId now issuedAt rows).2
    = Some {| AuthResponse.Token := GenerateToken loginAt newId user;
              AuthResponse.User := AuthResponse.User response |}.
Proof.
  intros Hverify Hcall.
  pose proof (RegisterAsync_cases request creatorRole newId now issuedAt rows) as H.
  simpl in H. rewrite Hcall in H.
  destruct H as (role & user & _ & -> & _ & Hemail & [before Hhash] & Hfree & _ & ->).
  exists user. split; [apply lookup_insert_eq|]. split; [done|].
  unfold UserService.LoginAsync. simpl.
  assert (Hfind : UserService.findByEmail
                    (ToLowerInvariant (RegisterRequest.Email request))
                    (<[newId := user]> rows) = Some (newId, user)).
  { apply head_unique.
    - apply list_elem_of_filter. split; [done|].
      apply elem_of_map_to_list, lookup_insert_eq.
    - intros [i u] [He Hin]%list_elem_of_filter. simpl in He.
      apply elem_of_map_to_list in Hin.
      destruct (decide (i = newId)) as [->|Hne].
      + rewrite lookup_insert_eq in Hin. congruence.
      + rewrite lookup_insert_ne in Hin by done.
        destruct Hfree. by exists i, u. }
  rewrite Hfind. rewrite decide_False; [done|].
  rewrite Hhash. apply Hverify.
Qed.

Lemma UpdateProfileAsync_cases userId request rows user :
  rows !! userId = Some user →
  let call := UpdateProfileAsync userId request rows in
  (call = (None, rows)) ∨
  ∃ user',
    call = (Some (UserService.MapToDto userId user'), <[userId := user']> rows) ∧
    User.Role (UserRow.Core user') = User.Role (UserRow.Core user) ∧
    UserRow.PasswordHash user' = UserRow.PasswordHash user ∧
    UserRow.CreatedAt user' = UserRow.CreatedAt user ∧
    (User.Email (UserRow.Core user') = User.Email (UserRow.Core user) ∨
     ¬ UserService.emailInUse (User.Email (UserRow.Core user')) userId rows).
Proof.
  intros Hu call. subst call. unfold UserService.UpdateProfileAsync. rewrite Hu.
  destruct request as [fullName email phone department avatar]. simpl.
  destruct email as [email|]; [destruct (IsWhiteSpace email)|];
    try destruct (decide (UserService.emailInUse _ userId rows)) as [Hin|Hin];
    try (by left); right;
    destruct fullName as [fullName|]; try destruct (IsWhiteSpace fullName);
    destruct phone, department, avatar;
    (eexists; split; [reflexivity|]; simpl; auto 10).
Qed.

Lemma uniqueEmails_insert rows id user :
  uniqueEmails rows →
  (∀ j v, rows !! j = Some v → j ≠ id →
          User.Email (UserRow.Core v) ≠ User.Email (UserRow.Core user)) →
  uniqueEmails (<[id := user]> rows).
Proof.
  intros Huniq Hnew i j u v Hi Hj He.
  destruct (decide (i = id)) as [->|Hi'], (decide (j = id)) as [->|Hj']; [done|..].
  - rewrite lookup_insert_eq in Hi. rewrite lookup_insert_ne in Hj by done.
    injection Hi as <-. destruct (Hnew j v Hj Hj'). done.
  - rewrite lookup_insert_eq in Hj. rewrite lookup_insert_ne in Hi by done.
    injection Hj as <-. destruct (Hnew i u Hi Hi'). done.
  - rewrite lookup_insert_ne in Hi, Hj by done. eauto.
Qed.

(** X23.  Addresses stay unique: if no two users share an e-mail address,
    none do after [RegisterAsync] or [UpdateProfileAsync]. *)
Theorem emails_stay_unique (rows : gmap Guid UserRow.t) :
  uniqueEmails rows →
  (∀ request creatorRole newId now issuedAt,
     uniqueEmails (RegisterAsync request creatorRole newId now issuedAt rows).2) ∧
  (∀ userId request, uniqueEmails (UpdateProfileAsync userId request rows).2).
Proof.
  intros Huniq. split.
  - intros request creatorRole newId now issuedAt.
    pose proof (RegisterAsync_cases request creatorRole newId now issuedAt rows) as H.
    simpl in H.
    destruct (RegisterAsync request creatorRole newId now issuedAt rows).1 as [response|].
    + destruct H as (role & user & _ & -> & _ & Hemail & _ & Hfree & _).
      apply uniqueEmails_insert; [done|].
      intros j v Hj _ He. destruct Hfree. exists j, v. split; [done|]. congruence.
    + by destruct H as [-> _].
  - intros userId request.
    destruct (rows !! userId) as [user|] eqn:Hu.
    + destruct (UpdateProfileAsync_cases userId request rows user Hu)
        as [-> | (user' & -> & _ & _ & _ & Hemail)]; [done|]. simpl.
      apply uniqueEmails_insert; [done|].
      intros j v Hj Hne He. destruct Hemail as [Hsame | Hfree].
      * rewrite Hsame in He. destruct Hne. by eapply Huniq.
      * destruct Hfree. by exists j, v.
    + unfold UserService.UpdateProfileAsync. by rewrite Hu.
Qed.

(** X24.  [UpdateProfileAsync] never changes a user's role, password hash
    or creation time, and touches no other user. *)
Theorem profile_update_keeps_role
    (userId : Guid) (request : UpdateProfileRequest.t)
    (rows : gmap Guid UserRow.t) (id : Guid) (user : UserRow.t) :
  rows !! id = Some user →
  ∃ user',
    (UpdateProfileAsync userId request rows).2 !! id = Some user' ∧
    User.Role (UserRow.Core user') = User.Role (UserRow.Core user) ∧
    UserRow.PasswordHash user' = UserRow.PasswordHash user ∧
    UserRow.CreatedAt user' = UserRow.CreatedAt user ∧
    (id ≠ userId → user' = user).
Proof.
  intros Hid. destruct (rows !! userId) as [target|] eqn:Hu.
  - destruct (UpdateProfileAsync_cases userId request rows target Hu)
      as [-> | (user' & -> & Hr & Hp & Hc & _)]; simpl.
    + by exists user.
    + destruct (decide (id = userId)) as [->|Hne].
      * rewrite lookup_insert_eq. exists user'.
        rewrite Hu in Hid. injection Hid as <-. by repeat split.
      * rewrite lookup_insert_ne by done. by exists user.
  - unfold UserService.UpdateProfileAsync. rewrite Hu. by exists user.
Qed.
End UserAccounts.

Lemma sampleUserRows_unique : uniqueEmails sampleUserRows.
Proof.
  intros i j u v Hi Hj _. unfold sampleUserRows in *.
  apply lookup_singleton_Some in Hi as [<- _].
  by apply lookup_singleton_Some in Hj as [<- _].
Qed.

Lemma sampleVerify_accepts id before user password :
  sampleVerify id user (sampleHash id before password) password
  ≠ PasswordVerificationResult.Failed.
Proof. unfold sampleVerify, sampleHash. by rewrite decide_True. Qed.

Lemma self_registered_admin_is_first_user_witness :
  (UserService.RegisterAsync_self (λ s, s) sampleHash sampleToken EmptyString
     (sampleRegister "root@test.com" (Some UserRole.Admin)) 1%N 0 1 ∅).1
  ≠ None ∧
  (∅ : gmap Guid UserRow.t) = ∅.
Proof.
  split; [vm_compute; intros [=]|].
  eapply (self_registered_admin_is_first_user (λ s, s) sampleHash sampleToken EmptyString
            (sampleRegister "root@test.com" (Some UserRole.Admin)) 1%N 0 1 ∅).
  - vm_compute. reflexivity.
  - reflexivity.
Defined.

(** A registration at time 3 with a token issued at time 4, and a login at
    time 9: the same user is shown, the token is another one. *)
Lemma login_after_register_witness :
  let registered :=
    UserService.RegisterAsync (λ s, s) sampleHash sampleToken EmptyString
      (sampleRegister "tech9@test.com" (Some UserRole.Technician)) UserRole.Client
      109%N 3 4 sampleUserRows in
  let login :=
    UserService.LoginAsync (λ s, s) sampleVerify sampleToken
      {| LoginRequest.Email := "tech9@test.com"; LoginRequest.Password := "secret1" |}
      9 registered.2 in
  (AuthResponse.Token <$> registered.1) = Some "tech9@test.com 4" ∧
  (AuthResponse.Token <$> login) = Some "tech9@test.com 9" ∧
  (AuthResponse.User <$> login) = (AuthResponse.User <$> registered.1) ∧
  is_Some login.
Proof.
  intros registered login.
  assert (Hsome : ∃ response, registered.1 = Some response)
    by (eexists; vm_compute; reflexivity).
  destruct Hsome as [response Hsome].
  destruct (login_after_register (λ s, s) sampleHash sampleVerify sampleToken EmptyString
              (sampleRegister "tech9@test.com" (Some UserRole.Technician)) UserRole.Client
              109%N 3 4 9 sampleUserRows response) as (user & Hrow & Htoken & Hlogin).
  - intros. apply sampleVerify_accepts.
  - exact Hsome.
  - assert (Hl : login = Some {| AuthResponse.Token := sampleToken 9 109%N user;
                                 AuthResponse.User := AuthResponse.User response |})
      by exact Hlogin.
    assert (Hu : Some user = registered.2 !! 109%N) by (symmetry; exact Hrow).
    vm_compute in Hu. injection Hu as ->.
    rewrite Hl, Hsome. simpl. rewrite Htoken.
    split; [vm_compute; reflexivity|].
    split; [vm_compute; reflexivity|].
    split; [reflexivity | by eexists].
Defined.

Lemma emails_stay_unique_witness :
  uniqueEmails
    (UserService.RegisterAsync (λ s, s) sampleHash sampleToken EmptyString
       (sampleRegister "tech9@test.com" (Some UserRole.Technician)) UserRole.Client
       109%N 3 4 sampleUserRows).2.
Proof.
  apply (emails_stay_unique (λ s, s) sampleIsWhiteSpace sampleHash sampleToken EmptyString
           sampleUserRows sampleUserRows_unique).
Defined.

Lemma profile_update_keeps_role_witness :
  ∃ user',
    (UserService.UpdateProfileAsync (λ s, s) sampleIsWhiteSpace 100%N
       {| UpdateProfileRequest.FullName := Some "Renamed";
          UpdateProfileRequest.Email := Some "renamed@test.com";
          UpdateProfileRequest.PhoneNumber := None;
          UpdateProfileRequest.Department := None;
          UpdateProfileRequest.AvatarUrl := None |} sampleUserRows).2 !! 100%N
    = Some user' ∧
    User.Role (UserRow.Core user') = UserRole.Client.
Proof.
  destruct (profile_update_keeps_role (λ s, s) sampleIsWhiteSpace 100%N
              {| UpdateProfileRequest.FullName := Some "Renamed";
                 UpdateProfileRequest.Email := Some "renamed@test.com";
                 UpdateProfileRequest.PhoneNumber := None;
                 UpdateProfileRequest.Department := None;
                 UpdateProfileRequest.AvatarUrl := None |} sampleUserRows 100%N
              (UserRow.mk (User.mk "Client One" "client1@test.com" UserRole.Client None)
                 None None "pw" 1))
    as (user' & Hlook & Hrole & _).
  - apply lookup_singleton_eq.
  - exists user'. split; [exact Hlook | exact Hrole].
Defined.

(** *** The switch of the smart assignment *)

Section SmartAssignmentSwitch.
Variable Serialize : list string → string.
Variable Deserialize : string → option (list string).
Variable IsWhiteSpace : string → bool.

#[local] Abbreviation GetSystemSettingsAsync :=
  (SystemSettingsService.GetSystemSettingsAsync Deserialize IsWhiteSpace).
#[local] Abbreviation GetSmartAssignmentStatus :=
  (SmartAssignmentController.GetSmartAssignmentStatus Deserialize IsWhiteSpace).
#[local] Abbreviation UpdateSmartAssignmentStatus :=
  (SmartAssignmentController.UpdateSmartAssignmentStatus Serialize Deserialize IsWhiteSpace).
#[local] Abbreviation RunSmartAssignment :=
  (SmartAssignmentController.RunSmartAssignment Deserialize IsWhiteSpace).

(** X25.  [RunSmartAssignment] runs the batch only when the stored settings
    have [AutoAssignEnabled]: it then returns the count of the batch and
    leaves the tables of the batch.  With the switch off, or with no
    settings row yet, it answers [BadRequest] and touches no ticket; a
    missing settings row is created with the switch off. *)
Theorem smart_run_is_gated
    (startDate endDate : option DateTime) (scope : option string)
    (now now' : DateTime) (clock : Guid → DateTime)
    (table : gmap Z SystemSettings.t) (db : Db) :
  let call := RunSmartAssignment startDate endDate scope now now' clock table db in
  let batch := AssignUnassignedTicketsAsync startDate endDate clock db in
  match table !! 1 with
  | Some settings =>
      call.1.2 = table ∧
      if SystemSettings.AutoAssignEnabled settings
      then (∃ response,
              call.1.1 = Ok response ∧
              SmartAssignmentRunResponse.AssignedCount response = batch.1) ∧
           call.2 = batch.2
      else (∃ body, call.1.1 = BadRequest body) ∧ call.2 = db
  | None =>
      (∃ body, call.1.1 = BadRequest body) ∧
      call.2 = db ∧
      (∃ settings,
         call.1.2 = <[1 := settings]> table ∧
         SystemSettings.AutoAssignEnabled settings = false)
  end.
Proof.
  intros call batch. subst call batch.
  unfold SmartAssignmentController.RunSmartAssignment,
    SystemSettingsService.GetSystemSettingsAsync.
  destruct (table !! 1) as [settings|]; simpl.
  - destruct (SystemSettings.AutoAssignEnabled settings); simpl.
    + destruct (AssignUnassignedTicketsAsync startDate endDate clock db)
        as [assignedCount db']. simpl. split; [done|]. split; [|done]. by eexists.
    + split; [done|]. split; [by eexists | done].
  - split; [by eexists|]. split; [done|]. by eexists.
Qed.

(** X26.  A valid call of [UpdateSmartAssignmentStatus] answers with the
    requested value, [GetSmartAssignmentStatus] reports that value from then
    on without writing, and a run that follows a switch to off touches no
    ticket.  With an invalid model state the call answers [BadRequest] and
    writes nothing. *)
Theorem smart_switch_round_trip
    (request : SmartAssignmentUpdateRequest.t) (now1 now2 now3 now4 now5 now6 : DateTime)
    (table : gmap Z SystemSettings.t) :
  let switched := UpdateSmartAssignmentStatus true request now1 now2 now3 now4 table in
  switched.1 = Ok {| SmartAssignmentStatusResponse.Enabled :=
                       SmartAssignmentUpdateRequest.Enabled request |} ∧
  GetSmartAssignmentStatus now5 now6 switched.2
  = (Ok {| SmartAssignmentStatusResponse.Enabled :=
             SmartAssignmentUpdateRequest.Enabled request |}, switched.2) ∧
  (SmartAssignmentUpdateRequest.Enabled request = false →
   ∀ startDate endDate scope clock db,
     (RunSmartAssignment startDate endDate scope now5 now6 clock switched.2 db).2 = db) ∧
  UpdateSmartAssignmentStatus false request now1 now2 now3 now4 table
  = (BadRequest ModelStateErrors, table).
Proof.
  intros switched. subst switched.
  unfold SmartAssignmentController.UpdateSmartAssignmentStatus,
    SmartAssignmentController.GetSmartAssignmentStatus,
    SmartAssignmentController.RunSmartAssignment,
    SystemSettingsService.GetSystemSettingsAsync,
    SystemSettingsService.UpdateSystemSettingsAsync.
  destruct (table !! 1) as [settings|] eqn:E; simpl;
    repeat (first [rewrite E | rewrite lookup_insert_eq]; simpl);
    (split; [done|]); (split; [done|]); (split; [|done]);
    intros Hoff startDate endDate scope clock db;
    repeat (first [rewrite E | rewrite lookup_insert_eq]; simpl);
    by rewrite Hoff.
Qed.

(** X27.  Switching changes nothing else that the settings show, as long as
    the list of allowed domains survives being written and read back:
    afterwards the settings read as before, with [AutoAssignEnabled] the
    requested value. *)
Theorem smart_switch_keeps_other_settings
    (request : SmartAssignmentUpdateRequest.t) (now1 now2 now3 now4 now5 now6 : DateTime)
    (table : gmap Z SystemSettings.t) :
  let before := (GetSystemSettingsAsync now1 now2 table).1 in
  let switched := (UpdateSmartAssignmentStatus true request now1 now2 now3 now4 table).2 in
  IsWhiteSpace (Serialize (SystemSettingsResponse.AllowedEmailDomains before)) = false →
  Deserialize (Serialize (SystemSettingsResponse.AllowedEmailDomains before))
  = Some (SystemSettingsResponse.AllowedEmailDomains before) →
  (GetSystemSettingsAsync now5 now6 switched).1 =
  {| SystemSettingsResponse.AppName := SystemSettingsResponse.AppName before;
     SystemSettingsResponse.SupportEmail := SystemSettingsResponse.SupportEmail before;
     SystemSettingsResponse.SupportPhone := SystemSettingsResponse.SupportPhone before;
     SystemSettingsResponse.DefaultLanguage := SystemSettingsResponse.DefaultLanguage before;
     SystemSettingsResponse.DefaultTheme := SystemSettingsResponse.DefaultTheme before;
     SystemSettingsResponse.Timezone := SystemSettingsResponse.Timezone before;
     SystemSettingsResponse.DefaultPriority := SystemSettingsResponse.DefaultPriority before;
     SystemSettingsResponse.DefaultStatus := SystemSettingsResponse.DefaultStatus before;
     SystemSettingsResponse.ResponseSlaHours := SystemSettingsResponse.ResponseSlaHours before;
     SystemSettingsResponse.AutoAssignEnabled :=
       SmartAssignmentUpdateRequest.Enabled request;
     SystemSettingsResponse.AllowClientAttachments := SystemSettingsResponse.AllowClientAttachments before;
     SystemSettingsResponse.MaxAttachmentSizeMB := SystemSettingsResponse.MaxAttachmentSizeMB before;
     SystemSettingsResponse.EmailNotificationsEnabled := SystemSettingsResponse.EmailNotificationsEnabled before;
     SystemSettingsResponse.SmsNotificationsEnabled := SystemSettingsResponse.SmsNotificationsEnabled before;
     SystemSettingsResponse.NotifyOnTicketCreated := SystemSettingsResponse.NotifyOnTicketCreated before;
     SystemSettingsResponse.NotifyOnTicketAssigned := SystemSettingsResponse.NotifyOnTicketAssigned before;
     SystemSettingsResponse.NotifyOnTicketReplied := SystemSettingsResponse.NotifyOnTicketReplied before;
     SystemSettingsResponse.NotifyOnTicketClosed := SystemSettingsResponse.NotifyOnTicketClosed before;
     SystemSettingsResponse.PasswordMinLength := SystemSettingsResponse.PasswordMinLength before;
     SystemSettingsResponse.Require2FA := SystemSettingsResponse.Require2FA before;
     SystemSettingsResponse.SessionTimeoutMinutes := SystemSettingsResponse.SessionTimeoutMinutes before;
     SystemSettingsResponse.AllowedEmailDomains :=
       SystemSettingsResponse.AllowedEmailDomains before |}.
Proof.
  intros before switched. subst before switched.
  unfold SmartAssignmentController.UpdateSmartAssignmentStatus,
    SystemSettingsService.GetSystemSettingsAsync,
    SystemSettingsService.UpdateSystemSettingsAsync.
  destruct (table !! 1) as [settings|] eqn:E; simpl;
    repeat (first [rewrite E | rewrite lookup_insert_eq]; simpl);
    intros Hw Hd; unfold SystemSettingsService.MapToResponse; simpl;
    rewrite Hw, Hd; reflexivity.
Qed.
End SmartAssignmentSwitch.

Lemma smart_switch_keeps_other_settings_witness :
  SystemSettingsResponse.AppName
    (SystemSettingsService.GetSystemSettingsAsync sampleDeserialize sampleIsWhiteSpace 5 6
       (SmartAssignmentController.UpdateSmartAssignmentStatus sampleSerialize
          sampleDeserialize sampleIsWhiteSpace true
          {| SmartAssignmentUpdateRequest.Enabled := true |} 1 2 3 4 ∅).2).1
  = SystemSettingsResponse.AppName
      (SystemSettingsService.GetSystemSettingsAsync sampleDeserialize sampleIsWhiteSpace
         1 2 ∅).1.
Proof.
  rewrite (smart_switch_keeps_other_settings sampleSerialize sampleDeserialize
             sampleIsWhiteSpace {| SmartAssignmentUpdateRequest.Enabled := true |}
             1 2 3 4 5 6 ∅).
  - reflexivity.
  - reflexivity.
  - reflexivity.
Defined.

(** *** What a response shows of the assignee *)

(** X28.  A response of [GetTicketAsync] names an assignee only for a
    ticket whose [AssignedToUserId] is set, even when [TechnicianId] points
    to a technician.  For an assigned ticket the name and address are those
    of the technician profile when [TechnicianId] finds one, and those of
    the assigned account otherwise.  The phone number is that of the
    profile if it has one; if the profile has none, or no profile is found,
    it is that of the assigned account. *)
Theorem assignee_shown_only_when_assigned
    (id userId : Guid) (role : UserRole.t) (db : Db) (r : TicketResponse.t) :
  GetTicketAsync id userId role db = Some r →
  ∃ ticket,
    Tickets db !! id = Some ticket ∧
    match Ticket.AssignedToUserId ticket with
    | None =>
        TicketResponse.AssignedToName r = None ∧
        TicketResponse.AssignedToEmail r = None ∧
        TicketResponse.AssignedToPhoneNumber r = None ∧
        TicketResponse.AssignedTechnicianName r = None
    | Some assigned =>
        match Ticket.TechnicianId ticket ≫= (Technicians db !!.) with
        | Some technician =>
            TicketResponse.AssignedToName r = Some (Technician.FullName technician) ∧
            TicketResponse.AssignedToEmail r = Some (Technician.Email technician) ∧
            TicketResponse.AssignedToPhoneNumber r
            = match Technician.Phone technician with
              | Some phone => Some phone
              | None => Users db !! assigned ≫= User.PhoneNumber
              end ∧
            TicketResponse.AssignedTechnicianName r = Some (Technician.FullName technician)
        | None =>
            TicketResponse.AssignedToName r = User.FullName <$> Users db !! assigned ∧
            TicketResponse.AssignedToEmail r = User.Email <$> Users db !! assigned ∧
            TicketResponse.AssignedToPhoneNumber r
            = Users db !! assigned ≫= User.PhoneNumber ∧
            TicketResponse.AssignedTechnicianName r = User.FullName <$> Users db !! assigned
        end
    end.
Proof.
  intros (ticket & Ht & _ & ->)%GetTicketAsync_Some.
  exists ticket. split; [done|]. unfold MapToResponse. simpl.
  destruct (Ticket.AssignedToUserId ticket) as [assigned|]; simpl; [|done].
  destruct (Ticket.TechnicianId ticket ≫= (Technicians db !!.)) as [technician|];
    simpl; [|done].
  by destruct (Technician.Phone technician).
Qed.

Lemma assignee_shown_only_when_assigned_witness :
  ∃ r,
    (AssignTicketAsync 3%N 14%N 20 sampleDb).1 = Some r ∧
    TicketResponse.AssignedToName r = None.
Proof.
  assert (Hresp : ∃ r, GetTicketAsync 3%N Guid_Empty UserRole.Admin
                         (AssignTicketAsync 3%N 14%N 20 sampleDb).2 = Some r)
    by (eexists; vm_compute; reflexivity).
  destruct Hresp as [r Hr]. exists r. split; [exact Hr|].
  destruct (assignee_shown_only_when_assigned 3%N Guid_Empty UserRole.Admin
              (AssignTicketAsync 3%N 14%N 20 sampleDb).2 r Hr)
    as (ticket & Ht & Hshown).
  assert (Hk : Some ticket =
               Some (Ticket.set_UpdatedAt (Some 20)
                       (Ticket.set_Status TicketStatus.InProgress
                          (Ticket.set_AssignedToUserId None
                             (Ticket.set_TechnicianId (Some 14%N)
                                (sampleTicket TicketStatus.New None None))))))
    by (rewrite <- Ht; vm_compute; reflexivity).
  injection Hk as ->. simpl in Hshown. by destruct Hshown as [-> _].
Defined.

(** *** Reading back what was written *)

(** X29.  A technician created by [CreateTechnicianAsync] is read back by
    [GetTechnicianByIdAsync] as it was returned, without a linked account.
    [UpdateTechnicianAsync] answers null for a missing technician and
    changes nothing; for an existing one it returns what is read back
    afterwards, with the linked account and the creation time it had. *)
Theorem technician_profile_round_trip
    (request : TechnicianRequest.t) (id : Guid) (now : DateTime)
    (rows : gmap Guid TechnicianRow.t) :
  let created := TechnicianService.CreateTechnicianAsync request id now rows in
  let updated := TechnicianService.UpdateTechnicianAsync id request rows in
  TechnicianService.GetTechnicianByIdAsync id created.2 = Some created.1 ∧
  TechnicianResponse.UserId created.1 = None ∧
  match rows !! id with
  | None => updated = (None, rows)
  | Some row =>
      ∃ response,
        updated.1 = Some response ∧
        TechnicianService.GetTechnicianByIdAsync id updated.2 = Some response ∧
        TechnicianResponse.UserId response = Technician.UserId (TechnicianRow.Core row) ∧
        TechnicianResponse.CreatedAt response = TechnicianRow.CreatedAt row ∧
        TechnicianResponse.FullName response = TechnicianRequest.FullName request ∧
        TechnicianResponse.IsActive response = TechnicianRequest.IsActive request
  end.
Proof.
  intros created updated. subst created updated.
  unfold TechnicianService.GetTechnicianByIdAsync,
    TechnicianService.CreateTechnicianAsync, TechnicianService.UpdateTechnicianAsync.
  simpl. rewrite lookup_insert_eq. split; [done|]. split; [done|].
  destruct (rows !! id) as [row|]; [|done]. simpl.
  eexists. split; [reflexivity|]. by rewrite lookup_insert_eq.
Qed.

Section UserLookup.
Variable ToLowerInvariant : string → string.
Variable IsWhiteSpace : string → bool.
Variable HashPassword : Guid → UserRow.t → string → string.
Variable GenerateToken : DateTime → Guid → UserRow.t → string.
Variable initialPasswordHash : string.

(** X30.  [GetByIdAsync] gives back the user that [RegisterAsync] returned
    in its response, and the user that [UpdateProfileAsync] returned; a
    profile update that is refused, for a missing user or for an address
    that another user has, leaves the table as it was. *)
Theorem user_is_read_back
    (rows : gmap Guid UserRow.t) (id : Guid) :
  (∀ request creatorRole now issuedAt response,
     let call :=
       UserService.RegisterAsync ToLowerInvariant HashPassword GenerateToken
         initialPasswordHash request creatorRole id now issuedAt rows in
     call.1 = Some response →
     UserService.GetByIdAsync id call.2 = AuthResponse.User response) ∧
  (∀ request,
     let call := UserService.UpdateProfileAsync ToLowerInvariant IsWhiteSpace id request rows in
     match call.1 with
     | Some dto => UserService.GetByIdAsync id call.2 = Some dto
     | None => call.2 = rows
     end).
Proof.
  split.
  - intros request creatorRole now issuedAt response call Hcall. subst call.
    pose proof (RegisterAsync_cases ToLowerInvariant HashPassword GenerateToken
                  initialPasswordHash request creatorRole id now issuedAt rows) as H.
    simpl in H. rewrite Hcall in H.
    destruct H as (role & user & _ & -> & _ & _ & _ & _ & _ & ->).
    unfold UserService.GetByIdAsync. by rewrite lookup_insert_eq.
  - intros request call. subst call.
    destruct (rows !! id) as [user|] eqn:Hu.
    + destruct (UpdateProfileAsync_cases ToLowerInvariant IsWhiteSpace id request rows
                  user Hu) as [-> | (user' & -> & _)]; simpl; [done|].
      unfold UserService.GetByIdAsync. by rewrite lookup_insert_eq.
    + unfold UserService.UpdateProfileAsync. by rewrite Hu.
Qed.
End UserLookup.
